(** * Notebook kernel controllers of the extension host

    A shallow embedding of [vs/workbench/api/common/extHostNotebookKernels.ts]:
    the registry [ExtHostNotebookKernels], the controller objects built by
    [createNotebookController], the coalesced metadata update and the four
    entry points the main thread calls.  The entry points are spelled without
    their leading dollar sign. *)

From Stdlib Require Import NArith ZArith.
From stdpp Require Import gmap strings list fin_maps.

Local Open Scope string_scope.
Local Open Scope list_scope.

(** ** Values that cross the file's boundary *)

(** A [URI] is identified with its string form, which is also the key a
    [ResourceMap] files it under; [URI.revive] is then the identity. *)
Abbreviation URI := string (only parsing).

(** [message: any] *)
Abbreviation Message := string (only parsing).

Inductive JsError :=
| Error (message : string)
| TypeError (message : string).

(** Outcome of a call that may throw. *)
Inductive Completion (A : Type) :=
| Normal (a : A)
| Throws (e : JsError).
Arguments Normal {A} a.
Arguments Throws {A} e.

Record ExtensionIdentifier := { value : string }.

Record IExtensionDescription := {
  identifier : ExtensionIdentifier;
  extensionLocation : URI;
  displayName : option string;
  name : string
}.

Record NotebookKernelPreload := { preload_uri : URI; provides : list string }.
Record NotebookKernelPreloadDto := { dto_uri : URI; dto_provides : list string }.

Record INotebookKernelDto2 := {
  dto_id : string;
  viewType : string;
  extensionId : ExtensionIdentifier;
  dto_extensionLocation : URI;
  label : string;
  detail : option string;
  description : option string;
  supportedLanguages : option (list string);
  hasExecutionOrder : option bool;
  preloads : option (list NotebookKernelPreloadDto);
  supportsInterrupt : option bool
}.

(** ** The notebook layer, as this file sees it *)

Record NotebookDocument := { nb_uri : URI }.
Record NotebookCell := { index : Z; notebook : NotebookDocument }.
Record NotebookEditor := { editor_name : string }.
Record NotebookCellExecutionTask := { task_cell : NotebookCell }.

Record ExtHostCell := { cell_handle : N; apiCell : NotebookCell }.
Record ExtHostNotebookEditor := { apiEditor : NotebookEditor }.

Record ExtHostNotebookDocument := {
  uri : URI;
  apiNotebook : NotebookDocument;
  getCell : N -> option ExtHostCell;
  getCellFromApiCell : NotebookCell -> option ExtHostCell
}.

(** The injected [ExtHostNotebookController]: the lookups are read as
    functions, the two requests it receives are recorded in a trace.
    [getNotebookDocument(uri)] is used as a document wherever it is called,
    so for a uri without a document it does not return: it throws. *)
Record ExtHostNotebookController := {
  getNotebookDocument : URI -> Completion ExtHostNotebookDocument;
  getEditorById : string -> option ExtHostNotebookEditor;
  getIdByEditor : NotebookEditor -> string;
  createNotebookCellExecution : ExtHostCell -> option NotebookCellExecutionTask
}.

Inductive NotebookRequest :=
| req_createNotebookCellExecution (cell : ExtHostCell)
| req_cancelOneNotebookCellExecution (cell : ExtHostCell).

(** Calls on [MainThreadNotebookKernelsShape], the remote proxy. *)
Inductive ProxyCall :=
| addKernel (handle : N) (data : INotebookKernelDto2)
| updateKernel (handle : N) (data : INotebookKernelDto2)
| removeKernel (handle : N)
| proxy_postMessage (handle : N) (editorId : option string) (message : Message)
| updateNotebookPriority (handle : N) (nb : URI) (priority : option Z).

(** ** Functions held by a controller *)

(** An execute handler is either the warning-only default that
    [createNotebookController] builds for the controller [owner], or a
    function of the extension, known by its reference. *)
Inductive ExecuteHandler :=
| _defaultExecutHandler (owner : nat)
| extension_function (f : nat).

Abbreviation InterruptHandler := nat (only parsing).

Inductive ConsoleEntry :=
| console_warn_no_execute_handler (id : string) (ext : ExtensionIdentifier)
| console_log (err : JsError)
| console_error (err : JsError).

(** ** Emitters

    An [Emitter] is seen from outside: [fired] lists the arguments of the
    calls of [fire], in order, and [disposed] tells whether [dispose] was
    called. *)

Record Emitter (A : Type) := { fired : list A; disposed : bool }.
Arguments fired {A} _.
Arguments disposed {A} _.

Definition new_Emitter {A} : Emitter A := {| fired := []; disposed := false |}.
Definition fire {A} (e : Emitter A) (a : A) : Emitter A :=
  {| fired := fired e ++ [a]; disposed := disposed e |}.
Definition dispose_Emitter {A} (e : Emitter A) : Emitter A :=
  {| fired := fired e; disposed := true |}.

Record SelectionEvent := { selected : bool; sel_notebook : NotebookDocument }.
Record MessageEvent := { msg_editor : NotebookEditor; msg_message : Message }.

(** [Object.freeze(o)] *)
Inductive JsObject (A : Type) :=
| plain (o : A)
| frozen (o : A).
Arguments plain {A} o.
Arguments frozen {A} o.

(** ** Numbers used as counters

    [_handlePool] and [tokenPool] are JS numbers that start at 0 and are only
    ever incremented.  Below 2^53 the increment is exact; at 2^53 the sum
    rounds back to 2^53. *)
Definition MAX_EXACT : N := 2 ^ 53.

Definition js_incr (n : N) : N := if (n <? MAX_EXACT)%N then (n + 1)%N else n.

(** ** State *)

(** The variables one call of [createNotebookController] declares and its
    closures capture.  A controller object is known by its position in
    [heap] below. *)
Record ControllerEnv := {
  env_extension : IExtensionDescription;
  env_id : string;
  env_handle : N;
  isDisposed : bool;
  commandDisposables : bool;  (* true once the store has been disposed *)
  onDidChangeSelection : Emitter SelectionEvent;
  onDidReceiveMessage : Emitter (JsObject MessageEvent);
  data : INotebookKernelDto2;
  _executeHandler : option ExecuteHandler;
  _interruptHandler : option InterruptHandler;
  tokenPool : N;
  associatedNotebooks : gmap URI bool
}.

(** [IKernelData].  Its [onDidChangeSelection], [onDidReceiveMessage] and
    [associatedNotebooks] are the very objects the controller's closures
    captured, so they are reached through [controller]. *)
Record IKernelData := {
  kd_extensionId : ExtensionIdentifier;
  controller : nat
}.

(** One pending [Promise.resolve().then(...)] continuation of [_update]. *)
Record Continuation := { k_controller : nat; myToken : N }.

Record ExtHostNotebookKernels := {
  _kernelData : gmap N IKernelData;
  _handlePool : N;
  heap : list ControllerEnv;
  microtasks : list Continuation;
  _proxy : list ProxyCall;
  notebook_requests : list NotebookRequest;
  console : list ConsoleEntry
}.

Definition initial : ExtHostNotebookKernels :=
  {| _kernelData := ∅; _handlePool := 0; heap := []; microtasks := [];
     _proxy := []; notebook_requests := []; console := [] |}.

(** *** Field updates *)

Definition with_isDisposed (b : bool) (e : ControllerEnv) : ControllerEnv :=
  {| env_extension := env_extension e; env_id := env_id e; env_handle := env_handle e;
     isDisposed := b; commandDisposables := commandDisposables e;
     onDidChangeSelection := onDidChangeSelection e;
     onDidReceiveMessage := onDidReceiveMessage e; data := data e;
     _executeHandler := _executeHandler e; _interruptHandler := _interruptHandler e;
     tokenPool := tokenPool e; associatedNotebooks := associatedNotebooks e |}.

Definition with_data (d : INotebookKernelDto2) (e : ControllerEnv) : ControllerEnv :=
  {| env_extension := env_extension e; env_id := env_id e; env_handle := env_handle e;
     isDisposed := isDisposed e; commandDisposables := commandDisposables e;
     onDidChangeSelection := onDidChangeSelection e;
     onDidReceiveMessage := onDidReceiveMessage e; data := d;
     _executeHandler := _executeHandler e; _interruptHandler := _interruptHandler e;
     tokenPool := tokenPool e; associatedNotebooks := associatedNotebooks e |}.

Definition with_executeHandler (h : option ExecuteHandler) (e : ControllerEnv) : ControllerEnv :=
  {| env_extension := env_extension e; env_id := env_id e; env_handle := env_handle e;
     isDisposed := isDisposed e; commandDisposables := commandDisposables e;
     onDidChangeSelection := onDidChangeSelection e;
     onDidReceiveMessage := onDidReceiveMessage e; data := data e;
     _executeHandler := h; _interruptHandler := _interruptHandler e;
     tokenPool := tokenPool e; associatedNotebooks := associatedNotebooks e |}.

Definition with_interruptHandler (h : option InterruptHandler) (e : ControllerEnv) : ControllerEnv :=
  {| env_extension := env_extension e; env_id := env_id e; env_handle := env_handle e;
     isDisposed := isDisposed e; commandDisposables := commandDisposables e;
     onDidChangeSelection := onDidChangeSelection e;
     onDidReceiveMessage := onDidReceiveMessage e; data := data e;
     _executeHandler := _executeHandler e; _interruptHandler := h;
     tokenPool := tokenPool e; associatedNotebooks := associatedNotebooks e |}.

Definition with_tokenPool (t : N) (e : ControllerEnv) : ControllerEnv :=
  {| env_extension := env_extension e; env_id := env_id e; env_handle := env_handle e;
     isDisposed := isDisposed e; commandDisposables := commandDisposables e;
     onDidChangeSelection := onDidChangeSelection e;
     onDidReceiveMessage := onDidReceiveMessage e; data := data e;
     _executeHandler := _executeHandler e; _interruptHandler := _interruptHandler e;
     tokenPool := t; associatedNotebooks := associatedNotebooks e |}.

Definition with_associatedNotebooks (m : gmap URI bool) (e : ControllerEnv) : ControllerEnv :=
  {| env_extension := env_extension e; env_id := env_id e; env_handle := env_handle e;
     isDisposed := isDisposed e; commandDisposables := commandDisposables e;
     onDidChangeSelection := onDidChangeSelection e;
     onDidReceiveMessage := onDidReceiveMessage e; data := data e;
     _executeHandler := _executeHandler e; _interruptHandler := _interruptHandler e;
     tokenPool := tokenPool e; associatedNotebooks := m |}.

Definition with_onDidChangeSelection (em : Emitter SelectionEvent) (e : ControllerEnv) : ControllerEnv :=
  {| env_extension := env_extension e; env_id := env_id e; env_handle := env_handle e;
     isDisposed := isDisposed e; commandDisposables := commandDisposables e;
     onDidChangeSelection := em;
     onDidReceiveMessage := onDidReceiveMessage e; data := data e;
     _executeHandler := _executeHandler e; _interruptHandler := _interruptHandler e;
     tokenPool := tokenPool e; associatedNotebooks := associatedNotebooks e |}.

Definition with_onDidReceiveMessage (em : Emitter (JsObject MessageEvent)) (e : ControllerEnv) : ControllerEnv :=
  {| env_extension := env_extension e; env_id := env_id e; env_handle := env_handle e;
     isDisposed := isDisposed e; commandDisposables := commandDisposables e;
     onDidChangeSelection := onDidChangeSelection e;
     onDidReceiveMessage := em; data := data e;
     _executeHandler := _executeHandler e; _interruptHandler := _interruptHandler e;
     tokenPool := tokenPool e; associatedNotebooks := associatedNotebooks e |}.

Definition with_commandDisposables (b : bool) (e : ControllerEnv) : ControllerEnv :=
  {| env_extension := env_extension e; env_id := env_id e; env_handle := env_handle e;
     isDisposed := isDisposed e; commandDisposables := b;
     onDidChangeSelection := onDidChangeSelection e;
     onDidReceiveMessage := onDidReceiveMessage e; data := data e;
     _executeHandler := _executeHandler e; _interruptHandler := _interruptHandler e;
     tokenPool := tokenPool e; associatedNotebooks := associatedNotebooks e |}.

Definition with_kernelData (m : gmap N IKernelData) (w : ExtHostNotebookKernels) :=
  {| _kernelData := m; _handlePool := _handlePool w; heap := heap w;
     microtasks := microtasks w; _proxy := _proxy w;
     notebook_requests := notebook_requests w; console := console w |}.

Definition with_handlePool (n : N) (w : ExtHostNotebookKernels) :=
  {| _kernelData := _kernelData w; _handlePool := n; heap := heap w;
     microtasks := microtasks w; _proxy := _proxy w;
     notebook_requests := notebook_requests w; console := console w |}.

Definition with_heap (h : list ControllerEnv) (w : ExtHostNotebookKernels) :=
  {| _kernelData := _kernelData w; _handlePool := _handlePool w; heap := h;
     microtasks := microtasks w; _proxy := _proxy w;
     notebook_requests := notebook_requests w; console := console w |}.

Definition with_microtasks (q : list Continuation) (w : ExtHostNotebookKernels) :=
  {| _kernelData := _kernelData w; _handlePool := _handlePool w; heap := heap w;
     microtasks := q; _proxy := _proxy w;
     notebook_requests := notebook_requests w; console := console w |}.

(** A call on the proxy; the arguments are recorded as they are at the call. *)
Definition proxy_call (c : ProxyCall) (w : ExtHostNotebookKernels) :=
  {| _kernelData := _kernelData w; _handlePool := _handlePool w; heap := heap w;
     microtasks := microtasks w; _proxy := _proxy w ++ [c];
     notebook_requests := notebook_requests w; console := console w |}.

Definition notebook_request (r : NotebookRequest) (w : ExtHostNotebookKernels) :=
  {| _kernelData := _kernelData w; _handlePool := _handlePool w; heap := heap w;
     microtasks := microtasks w; _proxy := _proxy w;
     notebook_requests := notebook_requests w ++ [r]; console := console w |}.

Definition console_write (c : ConsoleEntry) (w : ExtHostNotebookKernels) :=
  {| _kernelData := _kernelData w; _handlePool := _handlePool w; heap := heap w;
     microtasks := microtasks w; _proxy := _proxy w;
     notebook_requests := notebook_requests w; console := console w ++ [c] |}.

(** Assignment to a variable captured by the controller [c]. *)
Definition update_env (c : nat) (f : ControllerEnv -> ControllerEnv)
    (w : ExtHostNotebookKernels) : ExtHostNotebookKernels :=
  with_heap (alter f c (heap w)) w.

Definition dto_with_label (v : string) (d : INotebookKernelDto2) : INotebookKernelDto2 :=
  {| dto_id := dto_id d; viewType := viewType d; extensionId := extensionId d;
     dto_extensionLocation := dto_extensionLocation d; label := v; detail := detail d;
     description := description d; supportedLanguages := supportedLanguages d;
     hasExecutionOrder := hasExecutionOrder d; preloads := preloads d;
     supportsInterrupt := supportsInterrupt d |}.

Definition dto_with_detail (v : option string) (d : INotebookKernelDto2) : INotebookKernelDto2 :=
  {| dto_id := dto_id d; viewType := viewType d; extensionId := extensionId d;
     dto_extensionLocation := dto_extensionLocation d; label := label d; detail := v;
     description := description d; supportedLanguages := supportedLanguages d;
     hasExecutionOrder := hasExecutionOrder d; preloads := preloads d;
     supportsInterrupt := supportsInterrupt d |}.

Definition dto_with_description (v : option string) (d : INotebookKernelDto2) : INotebookKernelDto2 :=
  {| dto_id := dto_id d; viewType := viewType d; extensionId := extensionId d;
     dto_extensionLocation := dto_extensionLocation d; label := label d; detail := detail d;
     description := v; supportedLanguages := supportedLanguages d;
     hasExecutionOrder := hasExecutionOrder d; preloads := preloads d;
     supportsInterrupt := supportsInterrupt d |}.

Definition dto_with_supportedLanguages (v : option (list string)) (d : INotebookKernelDto2)
    : INotebookKernelDto2 :=
  {| dto_id := dto_id d; viewType := viewType d; extensionId := extensionId d;
     dto_extensionLocation := dto_extensionLocation d; label := label d; detail := detail d;
     description := description d; supportedLanguages := v;
     hasExecutionOrder := hasExecutionOrder d; preloads := preloads d;
     supportsInterrupt := supportsInterrupt d |}.

Definition dto_with_hasExecutionOrder (v : option bool) (d : INotebookKernelDto2)
    : INotebookKernelDto2 :=
  {| dto_id := dto_id d; viewType := viewType d; extensionId := extensionId d;
     dto_extensionLocation := dto_extensionLocation d; label := label d; detail := detail d;
     description := description d; supportedLanguages := supportedLanguages d;
     hasExecutionOrder := v; preloads := preloads d;
     supportsInterrupt := supportsInterrupt d |}.

Definition dto_with_supportsInterrupt (v : option bool) (d : INotebookKernelDto2)
    : INotebookKernelDto2 :=
  {| dto_id := dto_id d; viewType := viewType d; extensionId := extensionId d;
     dto_extensionLocation := dto_extensionLocation d; label := label d; detail := detail d;
     description := description d; supportedLanguages := supportedLanguages d;
     hasExecutionOrder := hasExecutionOrder d; preloads := preloads d;
     supportsInterrupt := v |}.

(** ** The coalesced update *)

(** [_update]: nothing when disposed; otherwise take the next token and
    queue a continuation that remembers it. *)
Definition _update (c : nat) (w : ExtHostNotebookKernels) : ExtHostNotebookKernels :=
  match heap w !! c with
  | Some e =>
      if isDisposed e then w
      else
        let myToken := js_incr (tokenPool e) in
        with_microtasks (microtasks w ++ [{| k_controller := c; myToken := myToken |}])
          (update_env c (with_tokenPool myToken) w)
  | None => w
  end.

(** The continuation: push the dto as it is now, unless a later [_update]
    took a newer token. *)
Definition run_continuation (w : ExtHostNotebookKernels) (k : Continuation)
    : ExtHostNotebookKernels :=
  match heap w !! k_controller k with
  | Some e =>
      if decide (myToken k = tokenPool e)
      then proxy_call (updateKernel (env_handle e) (data e)) w
      else w
  | None => w
  end.

(** End of the synchronous call stack: every queued continuation runs, in
    the order it was queued.  None of them queues another one. *)
Definition run_microtasks (w : ExtHostNotebookKernels) : ExtHostNotebookKernels :=
  foldl run_continuation (with_microtasks [] w) (microtasks w).

(** ** The controller object *)

(** The six setters that write into the dto and call [_update]. *)
Inductive Setter :=
| set_label (value : option string)
| set_detail (value : option string)
| set_description (value : option string)
| set_supportedLanguages (value : option (list string))
| set_hasExecutionOrder (value : option bool)
| set_interruptHandler (value : option InterruptHandler).

(** [Boolean(value)] of a function or undefined. *)
Definition Boolean {A} (value : option A) : bool :=
  match value with Some _ => true | None => false end.

(** What a setter assigns before it calls [_update]. *)
Definition assign (s : Setter) (e : ControllerEnv) : ControllerEnv :=
  match s with
  | set_label value =>
      with_data (dto_with_label
        (default (default (name (env_extension e)) (displayName (env_extension e))) value)
        (data e)) e
  | set_detail value => with_data (dto_with_detail value (data e)) e
  | set_description value => with_data (dto_with_description value (data e)) e
  | set_supportedLanguages value => with_data (dto_with_supportedLanguages value (data e)) e
  | set_hasExecutionOrder value => with_data (dto_with_hasExecutionOrder value (data e)) e
  | set_interruptHandler value =>
      let e' := with_interruptHandler value e in
      with_data (dto_with_supportsInterrupt (Some (Boolean value)) (data e')) e'
  end.

Definition controller_set (c : nat) (s : Setter) (w : ExtHostNotebookKernels)
    : ExtHostNotebookKernels :=
  _update c (update_env c (assign s) w).

(** [set executeHandler(value)]: [value ?? _defaultExecutHandler], no update. *)
Definition set_executeHandler (c : nat) (value : option ExecuteHandler)
    (w : ExtHostNotebookKernels) : ExtHostNotebookKernels :=
  update_env c (with_executeHandler (Some (default (_defaultExecutHandler c) value))) w.

Definition get_label (e : ControllerEnv) : string := label (data e).
Definition get_detail (e : ControllerEnv) : string := default EmptyString (detail (data e)).
Definition get_description (e : ControllerEnv) : string := default EmptyString (description (data e)).
Definition get_supportedLanguages (e : ControllerEnv) : option (list string) :=
  supportedLanguages (data e).
Definition get_hasExecutionOrder (e : ControllerEnv) : bool :=
  default false (hasExecutionOrder (data e)).
Definition get_executeHandler (e : ControllerEnv) : option ExecuteHandler := _executeHandler e.
Definition get_interruptHandler (e : ControllerEnv) : option InterruptHandler :=
  _interruptHandler e.

Definition dispose (c : nat) (w : ExtHostNotebookKernels) : ExtHostNotebookKernels :=
  match heap w !! c with
  | Some e =>
      if isDisposed e then w
      else
        let w1 := update_env c (with_isDisposed true) w in
        let w2 := with_kernelData (delete (env_handle e) (_kernelData w1)) w1 in
        let w3 := update_env c (with_commandDisposables true) w2 in
        let w4 := update_env c (fun e => with_onDidChangeSelection
                                  (dispose_Emitter (onDidChangeSelection e)) e) w3 in
        let w5 := update_env c (fun e => with_onDidReceiveMessage
                                  (dispose_Emitter (onDidReceiveMessage e)) e) w4 in
        proxy_call (removeKernel (env_handle e)) w5
  | None => w
  end.

Definition updateNotebookAffinity (c : nat) (nb : NotebookDocument) (priority : option Z)
    (w : ExtHostNotebookKernels) : ExtHostNotebookKernels :=
  match heap w !! c with
  | Some e => proxy_call (updateNotebookPriority (env_handle e) (nb_uri nb) priority) w
  | None => w
  end.

Definition ERR_REMOVED : JsError :=
  Error "CANNOT execute cell that has been REMOVED from notebook".
Definition ERR_DISPOSED : JsError := Error "notebook controller is DISPOSED".
Definition ERR_NOT_ASSOCIATED (nb : URI) : JsError :=
  Error ("notebook controller is NOT associated to notebook: " +:+ nb).
Definition ERR_INVALID_CELL : JsError := Error "invalid cell".
Definition ERR_ALREADY_EXIST (id : string) : JsError :=
  Error ("notebook controller with id '" +:+ id +:+ "' ALREADY exist").
Definition ERR_UNKNOWN_EDITOR (editorId : string) : JsError :=
  Error ("send message for UNKNOWN editor: " +:+ editorId).

(** ** What extension code can do *)

Inductive Property :=
| p_id | p_viewType | p_label | p_detail | p_description | p_supportedLanguages
| p_hasExecutionOrder | p_preloads | p_executeHandler | p_interruptHandler.

Inductive ApiCall :=
| api_createNotebookController (extension : IExtensionDescription) (id viewType label : string)
    (handler : option ExecuteHandler) (preloads : option (list NotebookKernelPreload))
| api_get (c : nat) (p : Property)
| api_set (c : nat) (s : Setter)
| api_set_executeHandler (c : nat) (value : option ExecuteHandler)
| api_createNotebookCellExecutionTask (c : nat) (cell : NotebookCell)
| api_dispose (c : nat)
| api_postMessage (c : nat) (message : Message) (editor : option NotebookEditor)
| api_asWebviewUri (c : nat) (u : URI)
| api_updateNotebookAffinity (c : nat) (nb : NotebookDocument) (priority : option Z).

Inductive ApiResult :=
| r_undefined
| r_threw (e : JsError)
| r_controller (c : nat)
| r_string (s : string)
| r_strings (l : option (list string))
| r_bool (b : bool)
| r_preloads (l : list NotebookKernelPreload)
| r_executeHandler (h : option ExecuteHandler)
| r_interruptHandler (h : option InterruptHandler)
| r_task (t : option NotebookCellExecutionTask)
| r_uri (u : URI).

(** The body of a function of the extension: it calls the API, looks at what
    comes back, and in the end returns or throws (a rejected promise counts
    as a throw for the [await] that receives it). *)
Inductive Prog :=
| Return
| Throw (e : JsError)
| Call (a : ApiCall) (k : ApiResult -> Prog).

(** ** What this file is given

    The identifier comparison, the type converters, the webview helper and
    the notebook layer come from other files; the bodies of the handlers
    come from the extension. *)
Class Collaborators := {
  (** [ExtensionIdentifier.equals] *)
  ExtensionIdentifier_equals : ExtensionIdentifier -> ExtensionIdentifier -> bool;
  (** [extHostTypeConverters.NotebookKernelPreload.from] and [.to] *)
  NotebookKernelPreload_from : NotebookKernelPreload -> NotebookKernelPreloadDto;
  NotebookKernelPreload_to : NotebookKernelPreloadDto -> NotebookKernelPreload;
  (** [asWebviewUri(this._initData.environment, String(handle), uri)] *)
  asWebviewUri : N -> URI -> URI;
  _extHostNotebook : ExtHostNotebookController;
  (** The extension's execute handlers [(cells, notebook, controller)] and
      interrupt handlers [(this, notebook)], by reference. *)
  execute_handlers : nat -> list NotebookCell -> NotebookDocument -> nat -> Prog;
  interrupt_handlers : nat -> nat -> NotebookDocument -> Prog
}.

Section Registry.

Context {collaborators : Collaborators}.

Definition get_preloads (e : ControllerEnv) : list NotebookKernelPreload :=
  match preloads (data e) with
  | Some ps => map NotebookKernelPreload_to ps
  | None => []
  end.

Definition createNotebookCellExecutionTask (c : nat) (cell : NotebookCell)
    (w : ExtHostNotebookKernels)
    : ExtHostNotebookKernels * Completion (option NotebookCellExecutionTask) :=
  match heap w !! c with
  | Some e =>
      if (index cell <? 0)%Z then (w, Throws ERR_REMOVED)
      else if isDisposed e then (w, Throws ERR_DISPOSED)
      else if negb (bool_decide (is_Some (associatedNotebooks e !! nb_uri (notebook cell))))
      then (w, Throws (ERR_NOT_ASSOCIATED (nb_uri (notebook cell))))
      else
        match getNotebookDocument _extHostNotebook (nb_uri (notebook cell)) with
        | Throws err => (w, Throws err)
        | Normal notebook =>
            match getCellFromApiCell notebook cell with
            | None => (w, Throws ERR_INVALID_CELL)
            | Some cellObj =>
                (notebook_request (req_createNotebookCellExecution cellObj) w,
                 Normal (createNotebookCellExecution _extHostNotebook cellObj))
            end
        end
  | None => (w, Throws (TypeError "no such controller"))
  end.

Definition postMessage (c : nat) (message : Message) (editor : option NotebookEditor)
    (w : ExtHostNotebookKernels) : ExtHostNotebookKernels :=
  match heap w !! c with
  | Some e =>
      proxy_call (proxy_postMessage (env_handle e)
                    (getIdByEditor _extHostNotebook <$> editor) message) w
  | None => w
  end.

(** The scan of [createNotebookController]: does [d] hold a controller with
    this id that belongs to this extension? *)
Definition same_controller (w : ExtHostNotebookKernels)
    (extension : IExtensionDescription) (id : string) (d : IKernelData) : bool :=
  match heap w !! controller d with
  | Some e => bool_decide (env_id e = id)
  | None => false
  end && ExtensionIdentifier_equals (identifier extension) (kd_extensionId d).

(** The dto literal of [createNotebookController]. *)
Definition new_data (extension : IExtensionDescription) (id viewType label : string)
    (preloads : option (list NotebookKernelPreload)) : INotebookKernelDto2 :=
  {| dto_id := value (identifier extension) +:+ "/" +:+ id;
     viewType := viewType;
     extensionId := identifier extension;
     dto_extensionLocation := extensionLocation extension;
     label := if decide (label = EmptyString) then value (identifier extension) else label;
     detail := None; description := None; supportedLanguages := None;
     hasExecutionOrder := None;
     preloads := Some (match preloads with
                       | Some ps => map NotebookKernelPreload_from ps
                       | None => []
                       end);
     supportsInterrupt := None |}.

(** The variables of a call of [createNotebookController] as they stand
    when it returns; [c] is the controller object being built. *)
Definition new_env (extension : IExtensionDescription) (id viewType label : string)
    (handler : option ExecuteHandler) (preloads : option (list NotebookKernelPreload))
    (handle : N) (c : nat) : ControllerEnv :=
  {| env_extension := extension; env_id := id; env_handle := handle;
     isDisposed := false; commandDisposables := false;
     onDidChangeSelection := new_Emitter; onDidReceiveMessage := new_Emitter;
     data := new_data extension id viewType label preloads;
     _executeHandler := Some (default (_defaultExecutHandler c) handler);
     _interruptHandler := None; tokenPool := 0; associatedNotebooks := ∅ |}.

Definition createNotebookController (extension : IExtensionDescription)
    (id viewType label : string) (handler : option ExecuteHandler)
    (preloads : option (list NotebookKernelPreload)) (w : ExtHostNotebookKernels)
    : ExtHostNotebookKernels * Completion nat :=
  if existsb (same_controller w extension id) (map_to_list (_kernelData w)).*2
  then (w, Throws (ERR_ALREADY_EXIST id))
  else
    let handle := _handlePool w in
    let c := length (heap w) in
    let e := new_env extension id viewType label handler preloads handle c in
    let w1 := with_heap (heap w ++ [e]) (with_handlePool (js_incr handle) w) in
    let w2 := proxy_call (addKernel handle (data e)) w1 in
    (with_kernelData
       (<[handle := {| kd_extensionId := identifier extension; controller := c |}]>
          (_kernelData w2)) w2,
     Normal c).

(** The [catch] callback on the promise of [$addKernel], for the controller
    [c], when the main thread rejects the registration. *)
Definition addKernel_rejected (c : nat) (err : JsError) (w : ExtHostNotebookKernels)
    : ExtHostNotebookKernels :=
  update_env c (with_isDisposed true) (console_write (console_log err) w).

Definition get (p : Property) (e : ControllerEnv) : ApiResult :=
  match p with
  | p_id => r_string (env_id e)
  | p_viewType => r_string (viewType (data e))
  | p_label => r_string (get_label e)
  | p_detail => r_string (get_detail e)
  | p_description => r_string (get_description e)
  | p_supportedLanguages => r_strings (get_supportedLanguages e)
  | p_hasExecutionOrder => r_bool (get_hasExecutionOrder e)
  | p_preloads => r_preloads (get_preloads e)
  | p_executeHandler => r_executeHandler (get_executeHandler e)
  | p_interruptHandler => r_interruptHandler (get_interruptHandler e)
  end.

Definition of_completion {A} (f : A -> ApiResult) (r : Completion A) : ApiResult :=
  match r with Normal a => f a | Throws e => r_threw e end.

Definition api (a : ApiCall) (w : ExtHostNotebookKernels)
    : ExtHostNotebookKernels * ApiResult :=
  match a with
  | api_createNotebookController extension id viewType label handler preloads =>
      let '(w', r) := createNotebookController extension id viewType label handler preloads w in
      (w', of_completion r_controller r)
  | api_get c p => (w, from_option (get p) r_undefined (heap w !! c))
  | api_set c s => (controller_set c s w, r_undefined)
  | api_set_executeHandler c value => (set_executeHandler c value w, r_undefined)
  | api_createNotebookCellExecutionTask c cell =>
      let '(w', r) := createNotebookCellExecutionTask c cell w in
      (w', of_completion r_task r)
  | api_dispose c => (dispose c w, r_undefined)
  | api_postMessage c message editor => (postMessage c message editor w, r_undefined)
  | api_asWebviewUri c u =>
      (w, from_option (fun e => r_uri (asWebviewUri (env_handle e) u)) r_undefined (heap w !! c))
  | api_updateNotebookAffinity c nb priority =>
      (updateNotebookAffinity c nb priority w, r_undefined)
  end.

Fixpoint run (p : Prog) (w : ExtHostNotebookKernels)
    : ExtHostNotebookKernels * Completion unit :=
  match p with
  | Return => (w, Normal ())
  | Throw e => (w, Throws e)
  | Call a k => let '(w', r) := api a w in run (k r) w'
  end.

(** *** Entry points called by the main thread

    The two [async] entry points run the handler they [await] to its end
    before they go on; what other turns may do in between is not part of
    this model. *)

Definition acceptNotebookAssociation (handle : N) (u : URI) (value : bool)
    (w : ExtHostNotebookKernels) : ExtHostNotebookKernels * Completion unit :=
  match _kernelData w !! handle with
  | Some obj =>
      match getNotebookDocument _extHostNotebook u with
      | Throws err => (w, Throws err)
      | Normal notebook =>
          let w1 :=
            update_env (controller obj)
              (fun e => with_associatedNotebooks
                 (if value then <[uri notebook := true]> (associatedNotebooks e)
                  else delete (uri notebook) (associatedNotebooks e)) e) w in
          (update_env (controller obj)
             (fun e => with_onDidChangeSelection
                (fire (onDidChangeSelection e)
                   {| selected := value; sel_notebook := apiNotebook notebook |}) e) w1,
           Normal ())
      end
  | None => (w, Normal ())
  end.

(** [obj.controller.executeHandler.call(obj.controller, cells, notebook,
    obj.controller)] *)
Definition call_executeHandler (c : nat) (cells : list NotebookCell)
    (nb : NotebookDocument) (w : ExtHostNotebookKernels)
    : ExtHostNotebookKernels * Completion unit :=
  match get_executeHandler <$> heap w !! c with
  | Some (Some (_defaultExecutHandler owner)) =>
      match heap w !! owner with
      | Some o =>
          (console_write
             (console_warn_no_execute_handler (dto_id (data o))
                (identifier (env_extension o))) w,
           Normal ())
      | None => (w, Normal ())
      end
  | Some (Some (extension_function f)) => run (execute_handlers f cells nb c) w
  | _ => (w, Throws (TypeError "executeHandler is undefined"))
  end.

(** The cells of [handles] that the document still has, in order. *)
Definition existing_cells (document : ExtHostNotebookDocument) (handles : list N)
    : list ExtHostCell :=
  omap (getCell document) handles.

Definition executeCells (handle : N) (u : URI) (handles : list N)
    (w : ExtHostNotebookKernels) : ExtHostNotebookKernels * Completion unit :=
  match _kernelData w !! handle with
  | None => (w, Normal ())
  | Some obj =>
      match getNotebookDocument _extHostNotebook u with
      | Throws err => (w, Throws err)
      | Normal document =>
          let cells := apiCell <$> existing_cells document handles in
          match call_executeHandler (controller obj) cells (apiNotebook document) w with
          | (w', Normal _) => (w', Normal ())
          | (w', Throws err) => (console_write (console_error err) w', Normal ())
          end
      end
  end.

Definition cancel_one (document : ExtHostNotebookDocument)
    (w : ExtHostNotebookKernels) (cellHandle : N) : ExtHostNotebookKernels :=
  match getCell document cellHandle with
  | Some cell => notebook_request (req_cancelOneNotebookCellExecution cell) w
  | None => w
  end.

Definition cancelCells (handle : N) (u : URI) (handles : list N)
    (w : ExtHostNotebookKernels) : ExtHostNotebookKernels * Completion unit :=
  match _kernelData w !! handle with
  | None => (w, Normal ())
  | Some obj =>
      match getNotebookDocument _extHostNotebook u with
      | Throws err => (w, Throws err)
      | Normal document =>
          let interrupted :=
            match heap w !! controller obj ≫= get_interruptHandler with
            | Some f => run (interrupt_handlers f (controller obj) (apiNotebook document)) w
            | None => (w, Normal ())
            end in
          match interrupted with
          | (w', Throws err) => (w', Throws err)
          | (w', Normal _) => (foldl (cancel_one document) w' handles, Normal ())
          end
      end
  end.

Definition acceptKernelMessageFromRenderer (handle : N) (editorId : string)
    (message : Message) (w : ExtHostNotebookKernels)
    : ExtHostNotebookKernels * Completion unit :=
  match _kernelData w !! handle with
  | None => (w, Normal ())
  | Some obj =>
      match getEditorById _extHostNotebook editorId with
      | None => (w, Throws (ERR_UNKNOWN_EDITOR editorId))
      | Some editor =>
          (update_env (controller obj)
             (fun e => with_onDidReceiveMessage
                (fire (onDidReceiveMessage e)
                   (frozen {| msg_editor := apiEditor editor; msg_message := message |})) e)
             w,
           Normal ())
      end
  end.

(** *** Turns of the event loop *)

Inductive Task :=
| extension_code (p : Prog)
| addKernel_rejection (c : nat) (err : JsError)
| main_acceptNotebookAssociation (handle : N) (u : URI) (value : bool)
| main_executeCells (handle : N) (u : URI) (handles : list N)
| main_cancelCells (handle : N) (u : URI) (handles : list N)
| main_acceptKernelMessageFromRenderer (handle : N) (editorId : string) (message : Message).

Definition run_task (t : Task) (w : ExtHostNotebookKernels) : ExtHostNotebookKernels :=
  match t with
  | extension_code p => (run p w).1
  | addKernel_rejection c err => addKernel_rejected c err w
  | main_acceptNotebookAssociation handle u value =>
      (acceptNotebookAssociation handle u value w).1
  | main_executeCells handle u handles => (executeCells handle u handles w).1
  | main_cancelCells handle u handles => (cancelCells handle u handles w).1
  | main_acceptKernelMessageFromRenderer handle editorId message =>
      (acceptKernelMessageFromRenderer handle editorId message w).1
  end.

(** [reaches w w']: from [w], extension code and main-thread calls in any
    order, with the microtasks run at any point in between, lead to [w']. *)
Inductive reaches (w : ExtHostNotebookKernels) : ExtHostNotebookKernels -> Prop :=
| reaches_here : reaches w w
| reaches_api a w' : reaches w w' -> reaches w (api a w').1
| reaches_task t w' : reaches w w' -> reaches w (run_task t w')
| reaches_microtasks w' : reaches w w' -> reaches w (run_microtasks w').

Definition reachable : ExtHostNotebookKernels -> Prop := reaches initial.

(** ** Vocabulary of the statements *)

(** What the continuation [k] sends when it runs against the heap [h]. *)
Definition pushes (h : list ControllerEnv) (k : Continuation) : list ProxyCall :=
  match h !! k_controller k with
  | Some e => if decide (myToken k = tokenPool e)
              then [updateKernel (env_handle e) (data e)] else []
  | None => []
  end.

(** The continuations that [n] calls of [_update] queue for [c] when the
    token stands at [t]. *)
Fixpoint queued (c : nat) (t : N) (n : nat) : list Continuation :=
  match n with
  | O => []
  | S n => {| k_controller := c; myToken := t + 1 |} :: queued c (t + 1) n
  end.

(** The registry holds a record for a controller with this id that
    belongs to this extension. *)
Definition registered (w : ExtHostNotebookKernels) (extension : IExtensionDescription)
    (id : string) : Prop :=
  exists handle d, _kernelData w !! handle = Some d
                   /\ same_controller w extension id d = true.

(** The same, for a record whose controller is not marked disposed. *)
Definition registered_not_disposed (w : ExtHostNotebookKernels)
    (extension : IExtensionDescription) (id : string) : Prop :=
  exists handle d e, _kernelData w !! handle = Some d
                     /\ same_controller w extension id d = true
                     /\ heap w !! controller d = Some e
                     /\ isDisposed e = false.

(** Every record points to a controller that was built with the record's
    handle and extension, and every controller holds an execute handler. *)
Definition well_formed (w : ExtHostNotebookKernels) : Prop :=
  (forall handle d, _kernelData w !! handle = Some d ->
     exists e, heap w !! controller d = Some e
               /\ env_handle e = handle
               /\ kd_extensionId d = identifier (env_extension e))
  /\ (forall c e, heap w !! c = Some e -> is_Some (_executeHandler e)).

(** An assignment that leaves alone what [well_formed] looks at. *)
Definition benign (f : ControllerEnv -> ControllerEnv) : Prop :=
  forall e, env_handle (f e) = env_handle e
            /\ env_extension (f e) = env_extension e
            /\ env_id (f e) = env_id e
            /\ (is_Some (_executeHandler e) -> is_Some (_executeHandler (f e))).

(** A relation between the earlier and the later variables of one
    controller that every assignment of this file respects, association
    changes apart. *)
Record admits (R : ControllerEnv -> ControllerEnv -> Prop) : Prop := {
  admits_refl : forall e, R e e;
  admits_trans : forall e1 e2 e3, R e1 e2 -> R e2 e3 -> R e1 e3;
  admits_assign : forall s e, R e (assign s e);
  admits_tokenPool : forall e, R e (with_tokenPool (js_incr (tokenPool e)) e);
  admits_isDisposed : forall e, R e (with_isDisposed true e);
  admits_executeHandler : forall h e, R e (with_executeHandler h e);
  admits_commandDisposables : forall b e, R e (with_commandDisposables b e);
  admits_onDidChangeSelection : forall em e, R e (with_onDidChangeSelection em e);
  admits_onDidReceiveMessage : forall em e, R e (with_onDidReceiveMessage em e)
}.

(** Every controller of [w] is still there in [w'], related by [R]. *)
Definition evolves (R : ControllerEnv -> ControllerEnv -> Prop)
    (w w' : ExtHostNotebookKernels) : Prop :=
  forall c e, heap w !! c = Some e -> exists e', heap w' !! c = Some e' /\ R e e'.

Definition stays_disposed (e e' : ControllerEnv) : Prop :=
  env_handle e' = env_handle e /\ (isDisposed e = true -> isDisposed e' = true).

Definition same_associations (e e' : ControllerEnv) : Prop :=
  associatedNotebooks e' = associatedNotebooks e.

Definition token_grows (e e' : ControllerEnv) : Prop :=
  (tokenPool e <= tokenPool e')%N.

(** Every pending continuation holds a token its controller has handed
    out. *)
Definition tokens_in_order (w : ExtHostNotebookKernels) : Prop :=
  forall k, k ∈ microtasks w ->
    exists e, heap w !! k_controller k = Some e /\ (myToken k <= tokenPool e)%N.

(** From [w] to [w'] tokens only grew, and what [w'] has pending was pending
    in [w] or holds a token handed out since. *)
Definition advances (w w' : ExtHostNotebookKernels) : Prop :=
  evolves token_grows w w'
  /\ forall k, k ∈ microtasks w' ->
       k ∈ microtasks w
       \/ exists e', heap w' !! k_controller k = Some e' /\ (myToken k <= tokenPool e')%N.

(** The display name of an extension, as the [label] setter falls back to
    it: [extension.displayName ?? extension.name]. *)
Definition display_name (extension : IExtensionDescription) : string :=
  default (name extension) (displayName extension).

(** The association a list of events leaves for the notebook [k]: the
    value of the last event about [k], if there is one.  An event whose uri
    has no document is about no notebook. *)
Fixpoint last_association (k : URI) (events : list (URI * bool)) : option bool :=
  match events with
  | [] => None
  | (u, value) :: events =>
      match last_association k events with
      | Some b => Some b
      | None =>
          match getNotebookDocument _extHostNotebook u with
          | Normal notebook => if decide (uri notebook = k) then Some value else None
          | Throws _ => None
          end
      end
  end.

(** *** Vocabulary of the further statements *)

(** The property a setter writes. *)
Definition property_of (s : Setter) : Property :=
  match s with
  | set_label _ => p_label
  | set_detail _ => p_detail
  | set_description _ => p_description
  | set_supportedLanguages _ => p_supportedLanguages
  | set_hasExecutionOrder _ => p_hasExecutionOrder
  | set_interruptHandler _ => p_interruptHandler
  end.

(** What identifies a controller: nothing in this file assigns to it after
    creation. *)
Definition same_identity (e e' : ControllerEnv) : Prop :=
  env_id e' = env_id e
  /\ env_handle e' = env_handle e
  /\ env_extension e' = env_extension e
  /\ dto_id (data e') = dto_id (data e)
  /\ viewType (data e') = viewType (data e)
  /\ extensionId (data e') = extensionId (data e)
  /\ dto_extensionLocation (data e') = dto_extensionLocation (data e)
  /\ preloads (data e') = preloads (data e).

(** The handle argument of a call on the proxy. *)
Definition handle_of (call : ProxyCall) : N :=
  match call with
  | addKernel handle _ => handle
  | updateKernel handle _ => handle
  | removeKernel handle => handle
  | proxy_postMessage handle _ _ => handle
  | updateNotebookPriority handle _ _ => handle
  end.

Definition is_addKernel (call : ProxyCall) : bool :=
  match call with addKernel _ _ => true | _ => false end.

Definition is_updateKernel (call : ProxyCall) : bool :=
  match call with updateKernel _ _ => true | _ => false end.

Definition is_removeKernel (call : ProxyCall) : bool :=
  match call with removeKernel _ => true | _ => false end.

(** Every call other than [$addKernel] comes after an [$addKernel] with its
    handle. *)
Definition announced (calls : list ProxyCall) : Prop :=
  forall i call, calls !! i = Some call -> is_addKernel call = false ->
    exists j d, j < i /\ calls !! j = Some (addKernel (handle_of call) d).

(** The handle [_handlePool++] gives to the controller created as number
    [c]. *)
Definition handle_number (c : nat) : N := N.min (N.of_nat c) MAX_EXACT.

(** The pending continuations of [c] that hold its current token. *)
Definition current_continuations (c : nat) (e : ControllerEnv) (q : list Continuation)
    : list Continuation :=
  filter (fun k => k_controller k = c /\ myToken k = tokenPool e) q.

(** The calls of [$removeKernel] with this handle. *)
Definition removals (handle : N) (calls : list ProxyCall) : list ProxyCall :=
  filter (fun call => is_removeKernel call = true /\ handle_of call = handle) calls.

(** The calls of [$updateKernel] with this handle. *)
Definition updates (handle : N) (calls : list ProxyCall) : list ProxyCall :=
  filter (fun call => is_updateKernel call = true /\ handle_of call = handle) calls.

(** What holds between the registry, the controllers, the pending
    continuations and the calls made on the proxy, in every state this file
    can reach. *)
Record sound (w : ExtHostNotebookKernels) : Prop := {
  sound_handlePool : _handlePool w = handle_number (length (heap w));
  sound_handle : forall c e, heap w !! c = Some e -> env_handle e = handle_number c;
  sound_registered : forall c e,
    heap w !! c = Some e -> commandDisposables e = false -> (N.of_nat c < MAX_EXACT)%N ->
    _kernelData w !! env_handle e
    = Some {| kd_extensionId := identifier (env_extension e); controller := c |};
  sound_live : forall handle d e,
    _kernelData w !! handle = Some d -> heap w !! controller d = Some e ->
    commandDisposables e = false
    /\ disposed (onDidChangeSelection e) = false
    /\ disposed (onDidReceiveMessage e) = false;
  sound_disposed : forall c e,
    heap w !! c = Some e -> commandDisposables e = true ->
    isDisposed e = true
    /\ disposed (onDidChangeSelection e) = true
    /\ disposed (onDidReceiveMessage e) = true;
  sound_pending : forall c e,
    heap w !! c = Some e -> (tokenPool e < MAX_EXACT)%N ->
    length (current_continuations c e (microtasks w)) <= 1;
  sound_announced : announced (_proxy w);
  sound_calls : forall call, call ∈ _proxy w ->
    exists c e, heap w !! c = Some e /\ env_handle e = handle_of call;
  sound_added : forall c e, heap w !! c = Some e ->
    exists d, addKernel (env_handle e) d ∈ _proxy w;
  sound_removed : forall c e,
    heap w !! c = Some e -> (N.of_nat c < MAX_EXACT)%N ->
    length (removals (env_handle e) (_proxy w)) = if commandDisposables e then 1 else 0
}.

(** An assignment that leaves alone what [sound] looks at, the token apart,
    and does not clear [isDisposed]. *)
Definition similar (e e' : ControllerEnv) : Prop :=
  env_handle e' = env_handle e
  /\ env_extension e' = env_extension e
  /\ commandDisposables e' = commandDisposables e
  /\ disposed (onDidChangeSelection e') = disposed (onDidChangeSelection e)
  /\ disposed (onDidReceiveMessage e') = disposed (onDidReceiveMessage e)
  /\ (isDisposed e = true -> isDisposed e' = true).

Definition gentle (f : ControllerEnv -> ControllerEnv) : Prop :=
  forall e, similar e (f e).

End Registry.

(** ** A small concrete setting, for the examples *)

(** A notebook layer in which every notebook but [closed.ipynb] has a
    document, with the two cells 0 and 1, and there is one editor. *)
Definition demo_cell (u : URI) (cellHandle : N) : ExtHostCell :=
  {| cell_handle := cellHandle;
     apiCell := {| index := Z.of_N cellHandle; notebook := {| nb_uri := u |} |} |}.

Definition demo_document (u : URI) : ExtHostNotebookDocument :=
  {| uri := u;
     apiNotebook := {| nb_uri := u |};
     getCell := fun cellHandle =>
       if (cellHandle <? 2)%N then Some (demo_cell u cellHandle) else None;
     getCellFromApiCell := fun cell =>
       if (index cell <? 2)%Z
       then Some {| cell_handle := Z.to_N (index cell); apiCell := cell |}
       else None |}.

Definition demo_notebooks : ExtHostNotebookController :=
  {| getNotebookDocument := fun u =>
       if decide (u = "file:///closed.ipynb")
       then Throws (Error "NO notebook document for 'file:///closed.ipynb'")
       else Normal (demo_document u);
     getEditorById := fun editorId =>
       if decide (editorId = "editor-1")
       then Some {| apiEditor := {| editor_name := "editor-1" |} |} else None;
     getIdByEditor := editor_name;
     createNotebookCellExecution := fun cell => Some {| task_cell := apiCell cell |} |}.

(** Execute handler 0 renames its controller and then throws; interrupt
    handler 0 throws at once; all the others just return. *)
Definition demo : Collaborators :=
  {| ExtensionIdentifier_equals := fun a b => bool_decide (value a = value b);
     NotebookKernelPreload_from :=
       fun p => {| dto_uri := preload_uri p; dto_provides := provides p |};
     NotebookKernelPreload_to :=
       fun p => {| preload_uri := dto_uri p; provides := dto_provides p |};
     asWebviewUri := fun handle u => u;
     _extHostNotebook := demo_notebooks;
     execute_handlers := fun f cells nb c =>
       match f with
       | O => Call (api_set c (set_label (Some "running")))
                (fun _ => Throw (Error "execute failed"))
       | _ => Return
       end;
     interrupt_handlers := fun f this nb =>
       match f with
       | O => Throw (Error "interrupt failed")
       | _ => Return
       end |}.

Definition demo_extension : IExtensionDescription :=
  {| identifier := {| value := "acme.kernels" |};
     extensionLocation := "file:///extensions/acme.kernels";
     displayName := Some "Acme Kernels";
     name := "kernels" |}.

Definition other_extension : IExtensionDescription :=
  {| identifier := {| value := "other.kernels" |};
     extensionLocation := "file:///extensions/other.kernels";
     displayName := None;
     name := "kernels" |}.

(** One controller, created with an empty label and without a handler: it
    is controller 0 and has handle 0. *)
Definition demo_created : ExtHostNotebookKernels :=
  (createNotebookController (collaborators := demo)
     demo_extension "python" "jupyter-notebook" EmptyString None None initial).1.

(** The variables of that controller, as its creation leaves them. *)
Definition demo_controller : ControllerEnv :=
  new_env (collaborators := demo)
    demo_extension "python" "jupyter-notebook" EmptyString None None 0 0.

(** ... whose registration the main thread has rejected. *)
Definition demo_rejected : ExtHostNotebookKernels :=
  addKernel_rejected 0 (Error "kernel already registered") demo_created.

(** ... or, instead, which the notebook [a.ipynb] has selected. *)
Definition demo_associated : ExtHostNotebookKernels :=
  (acceptNotebookAssociation (collaborators := demo) 0 "file:///a.ipynb" true demo_created).1.

(** ... or which holds execute handler 0 and interrupt handler 0. *)
Definition demo_with_handlers : ExtHostNotebookKernels :=
  run_microtasks
    (controller_set 0 (set_interruptHandler (Some 0%nat))
       (set_executeHandler 0 (Some (extension_function 0)) demo_created)).

(** Extension code that creates a second controller, sets the label and the
    detail of controller 0 and disposes the new controller again. *)
Definition demo_session : Prog :=
  Call (api_createNotebookController other_extension "r" "jupyter-notebook" "R" None None)
    (fun r =>
       match r with
       | r_controller c =>
           Call (api_set 0 (set_label (Some "Python 3")))
             (fun _ => Call (api_set 0 (set_detail (Some "3.11")))
                (fun _ => Call (api_dispose c) (fun _ => Return)))
       | _ => Return
       end).

(** The state that code leaves when it runs after the creation of
    controller 0, its two updates still pending. *)
Definition demo_busy : ExtHostNotebookKernels :=
  run_task (collaborators := demo) (extension_code demo_session) demo_created.

Section Properties.

Context {collaborators : Collaborators}.

(** ** Properties *)

(** *** The coalesced update *)

Lemma run_continuation_heap w k : heap (run_continuation w k) = heap w.
Proof.
  unfold run_continuation. destruct (heap w !! k_controller k) as [e|]; [|done].
  by destruct (decide _).
Qed.

Lemma run_continuation_proxy w k :
  _proxy (run_continuation w k) = _proxy w ++ pushes (heap w) k.
Proof.
  unfold run_continuation, pushes.
  destruct (heap w !! k_controller k) as [e|]; [|by rewrite app_nil_r].
  destruct (decide _); [done | by rewrite app_nil_r].
Qed.

Lemma run_continuations_heap ks w : heap (foldl run_continuation w ks) = heap w.
Proof.
  revert w. induction ks as [|k ks IH]; intros w; [done|].
  simpl. by rewrite IH, run_continuation_heap.
Qed.

Lemma run_continuations_proxy ks w :
  _proxy (foldl run_continuation w ks) = _proxy w ++ (ks ≫= pushes (heap w)).
Proof.
  revert w. induction ks as [|k ks IH]; intros w; simpl.
  - by rewrite app_nil_r.
  - rewrite IH, run_continuation_proxy, run_continuation_heap.
    by rewrite <- app_assoc.
Qed.

Lemma run_microtasks_proxy w :
  _proxy (run_microtasks w) = _proxy w ++ (microtasks w ≫= pushes (heap w)).
Proof. unfold run_microtasks. by rewrite run_continuations_proxy. Qed.

Lemma run_microtasks_heap w : heap (run_microtasks w) = heap w.
Proof. unfold run_microtasks. by rewrite run_continuations_heap. Qed.

Lemma js_incr_exact n : (n < MAX_EXACT)%N -> js_incr n = (n + 1)%N.
Proof.
  intros H. unfold js_incr.
  destruct (N.ltb_spec n MAX_EXACT); [done | lia].
Qed.

Lemma assign_isDisposed s e : isDisposed (assign s e) = isDisposed e.
Proof. by destruct s. Qed.

Lemma assign_tokenPool s e : tokenPool (assign s e) = tokenPool e.
Proof. by destruct s. Qed.

Lemma assign_env_handle s e : env_handle (assign s e) = env_handle e.
Proof. by destruct s. Qed.

Lemma alter_known {A} (f : A -> A) (l : list A) i x :
  l !! i = Some x -> alter f i l = <[i := f x]> l.
Proof.
  intros H. apply list_eq. intros j. destruct (decide (i = j)) as [<-|Hne].
  - rewrite list_lookup_alter_eq, H. simpl.
    by rewrite list_lookup_insert_eq by (by eapply lookup_lt_Some).
  - by rewrite list_lookup_alter_ne, list_lookup_insert_ne.
Qed.

(** One setter on a controller that is not disposed. *)
Lemma controller_set_live c s w e :
  heap w !! c = Some e ->
  isDisposed e = false ->
  let w' := controller_set c s w in
  heap w' = <[c := with_tokenPool (js_incr (tokenPool e)) (assign s e)]> (heap w)
  /\ microtasks w' =
       microtasks w ++ [{| k_controller := c; myToken := js_incr (tokenPool e) |}]
  /\ _proxy w' = _proxy w
  /\ _kernelData w' = _kernelData w.
Proof.
  intros He Hd. unfold controller_set, _update, update_env. simpl.
  rewrite list_lookup_alter_eq, He. simpl.
  rewrite assign_isDisposed, Hd, assign_tokenPool. simpl.
  split; [|done].
  rewrite (alter_known _ _ _ _ He).
  erewrite alter_known; [by rewrite list_insert_insert_eq|].
  apply list_lookup_insert_eq. by eapply lookup_lt_Some.
Qed.

Lemma assign_with_tokenPool s t e :
  assign s (with_tokenPool t e) = with_tokenPool t (assign s e).
Proof. by destruct s. Qed.

Lemma assign_all_with_tokenPool ss t t' e :
  with_tokenPool t' (foldl (fun e s => assign s e) (with_tokenPool t e) ss)
  = with_tokenPool t' (foldl (fun e s => assign s e) e ss).
Proof.
  revert e. induction ss as [|s ss IH]; intros e; simpl; [done|].
  by rewrite assign_with_tokenPool, IH.
Qed.

Lemma assign_all_isDisposed ss e :
  isDisposed (foldl (fun e s => assign s e) e ss) = isDisposed e.
Proof.
  revert e. induction ss as [|s ss IH]; intros e; simpl; [done|].
  by rewrite IH, assign_isDisposed.
Qed.

Lemma assign_all_env_handle ss e :
  env_handle (foldl (fun e s => assign s e) e ss) = env_handle e.
Proof.
  revert e. induction ss as [|s ss IH]; intros e; simpl; [done|].
  by rewrite IH, assign_env_handle.
Qed.

(** Any number of setters, one after the other, on a controller that is
    not disposed: the dto holds what they assigned, every call queued one
    continuation, and nothing was sent yet. *)
Lemma setters_live c ss : forall w e,
  heap w !! c = Some e ->
  isDisposed e = false ->
  (tokenPool e + N.of_nat (length ss) <= MAX_EXACT)%N ->
  let w' := foldl (fun w s => controller_set c s w) w ss in
  heap w' = <[c := with_tokenPool (tokenPool e + N.of_nat (length ss))
                      (foldl (fun e s => assign s e) e ss)]> (heap w)
  /\ microtasks w' = microtasks w ++ queued c (tokenPool e) (length ss)
  /\ _proxy w' = _proxy w
  /\ _kernelData w' = _kernelData w.
Proof.
  induction ss as [|s ss IH]; intros w e He Hd Hb; simpl.
  - rewrite app_nil_r, N.add_0_r. split; [|done].
    symmetry. apply list_insert_id. rewrite He. by destruct e.
  - simpl in Hb.
    destruct (controller_set_live c s w e He Hd) as (Hh & Hq & Hp & Hk).
    rewrite js_incr_exact in Hh, Hq by lia.
    set (e1 := with_tokenPool (tokenPool e + 1) (assign s e)) in *.
    assert (He1 : heap (controller_set c s w) !! c = Some e1).
    { rewrite Hh. apply list_lookup_insert_eq. by eapply lookup_lt_Some. }
    destruct (IH (controller_set c s w) e1 He1) as (Hh' & Hq' & Hp' & Hk').
    { subst e1. simpl. by rewrite assign_isDisposed. }
    { subst e1. simpl. lia. }
    rewrite Hh', Hq', Hp', Hk', Hh, Hq, Hp, Hk.
    rewrite list_insert_insert_eq, <- app_assoc. simpl.
    split; [|done].
    subst e1. simpl. rewrite assign_all_with_tokenPool.
    do 2 f_equal. lia.
Qed.

(** Of the continuations that [n >= 1] calls queued, only the last one
    still holds the current token. *)
Lemma queued_pushes c n : forall t h e,
  h !! c = Some e ->
  n <> O ->
  tokenPool e = (t + N.of_nat n)%N ->
  queued c t n ≫= pushes h = [updateKernel (env_handle e) (data e)].
Proof.
  induction n as [|n IH]; intros t h e He Hn Ht; [done|].
  cbn [queued]. rewrite bind_cons. unfold pushes at 1. simpl. rewrite He.
  destruct n as [|n].
  - simpl. rewrite decide_True by (rewrite Ht; lia). done.
  - rewrite decide_False by (rewrite Ht; lia).
    rewrite (IH (t + 1)%N h e He); [done | done | lia].
Qed.

(** Continuations queued before the setters ran: those of [c] are stale,
    those of other controllers see the heap they would have seen. *)
Lemma earlier_pushes c e' h ks : forall t,
  (forall k, k ∈ ks -> k_controller k = c -> (myToken k <= t)%N) ->
  (t < tokenPool e')%N ->
  ks ≫= pushes (<[c := e']> h)
  = filter (fun k => k_controller k <> c) ks ≫= pushes h.
Proof.
  intros t Hks Ht. induction ks as [|k ks IH]; [done|].
  rewrite bind_cons, IH by (intros; apply Hks; [by right | done]).
  destruct (decide (k_controller k = c)) as [Hc|Hc].
  - rewrite filter_cons_False by (intros ?; done).
    assert (Hk : (myToken k <= t)%N) by (apply Hks; [by left | done]).
    unfold pushes at 1. rewrite Hc.
    destruct (decide (c < length h)) as [Hlt|Hge].
    + rewrite list_lookup_insert_eq by done.
      by rewrite decide_False by lia.
    + rewrite list_insert_ge by lia.
      by rewrite lookup_ge_None_2 by lia.
  - rewrite filter_cons_True by done. rewrite bind_cons. f_equal.
    unfold pushes. by rewrite list_lookup_insert_ne.
Qed.

(** The coalescing, for any state in which the continuations of [c] that
    are pending hold tokens [c] has handed out. *)
Lemma setters_coalesce c w e ss :
  heap w !! c = Some e ->
  isDisposed e = false ->
  ss <> [] ->
  (tokenPool e + N.of_nat (length ss) <= MAX_EXACT)%N ->
  (forall k, k ∈ microtasks w -> k_controller k = c -> (myToken k <= tokenPool e)%N) ->
  let w' := foldl (fun w s => controller_set c s w) w ss in
  let final := foldl (fun e s => assign s e) e ss in
  data <$> heap w' !! c = Some (data final)
  /\ _proxy w' = _proxy w
  /\ _proxy (run_microtasks w')
     = _proxy (run_microtasks
                 (with_microtasks
                    (filter (fun k => k_controller k <> c) (microtasks w)) w))
       ++ [updateKernel (env_handle e) (data final)]
  /\ (microtasks w = [] ->
      _proxy (run_microtasks w') = _proxy w ++ [updateKernel (env_handle e) (data final)])
  /\ (forall k e', heap w' !! c = Some e' -> k_controller k = c ->
        myToken k <> tokenPool e' -> run_continuation w' k = w').
Proof.
  intros He Hd Hss Hb Hq w' final.
  destruct (setters_live c ss w e He Hd Hb) as (Hh & Hm & Hp & _).
  fold w' in Hh, Hm, Hp. fold final in Hh.
  set (e' := with_tokenPool (tokenPool e + N.of_nat (length ss)) final) in *.
  assert (Hlen : length ss <> O) by (by destruct ss).
  assert (He' : heap w' !! c = Some e').
  { rewrite Hh. apply list_lookup_insert_eq. by eapply lookup_lt_Some. }
  assert (Hmain : _proxy (run_microtasks w')
     = _proxy (run_microtasks
                 (with_microtasks
                    (filter (fun k => k_controller k <> c) (microtasks w)) w))
       ++ [updateKernel (env_handle e) (data final)]).
  { rewrite !run_microtasks_proxy, Hp, Hm, bind_app. simpl.
    rewrite <- app_assoc. f_equal.
    rewrite (queued_pushes c (length ss) (tokenPool e) (heap w') e' He' Hlen eq_refl).
    rewrite Hh. rewrite (earlier_pushes c e' (heap w) (microtasks w) (tokenPool e) Hq).
    - subst e' final. simpl. by rewrite assign_all_env_handle.
    - subst e'. simpl. lia. }
  split; [by rewrite He'|]. split; [done|]. split; [done|]. split.
  - intros Hnil. rewrite Hmain, run_microtasks_proxy, Hnil. simpl.
    by rewrite app_nil_r.
  - intros k e'' He'' Hk Hne. unfold run_continuation.
    rewrite Hk, He''. by rewrite decide_False.
Qed.

(** *** Well-formedness is invariant *)

Lemma well_formed_initial : well_formed initial.
Proof. split; [intros h d H | intros c e H]; by simpl in H. Qed.

Lemma well_formed_same w w' :
  heap w' = heap w -> _kernelData w' = _kernelData w ->
  well_formed w -> well_formed w'.
Proof. intros Hh Hk. unfold well_formed. by rewrite Hh, Hk. Qed.

Lemma well_formed_update_env c f w :
  benign f -> well_formed w -> well_formed (update_env c f w).
Proof.
  intros Hf [Hk He]. split.
  - intros h d Hd. simpl in Hd. destruct (Hk h d Hd) as (e & Hl & Hh & Hx).
    unfold update_env. simpl.
    destruct (decide (c = controller d)) as [->|Hne].
    + exists (f e). rewrite list_lookup_alter_eq, Hl. simpl.
      destruct (Hf e) as (-> & -> & _). done.
    + exists e. by rewrite list_lookup_alter_ne.
  - intros c' e. unfold update_env. simpl.
    destruct (decide (c = c')) as [->|Hne].
    + rewrite list_lookup_alter_eq. intros Hl.
      destruct (heap w !! c') as [e0|] eqn:E; [|done]. simpl in Hl.
      injection Hl as <-. apply Hf. by eapply He.
    + rewrite list_lookup_alter_ne by done. apply He.
Qed.

Lemma well_formed_delete handle w :
  well_formed w -> well_formed (with_kernelData (delete handle (_kernelData w)) w).
Proof.
  intros [Hk He]. split; [|done].
  intros h d. simpl. intros Hd. apply lookup_delete_Some in Hd as [_ Hd]. by apply Hk.
Qed.

Lemma benign_assign s : benign (assign s).
Proof. intros e. by destruct s. Qed.

Lemma well_formed__update c w : well_formed w -> well_formed (_update c w).
Proof.
  intros Hw. unfold _update. destruct (heap w !! c) as [e|]; [|done].
  destruct (isDisposed e); [done|].
  eapply well_formed_same; [done|done|].
  by apply well_formed_update_env.
Qed.

Lemma well_formed_controller_set c s w :
  well_formed w -> well_formed (controller_set c s w).
Proof.
  intros Hw. apply well_formed__update, well_formed_update_env; [|done].
  apply benign_assign.
Qed.

Lemma well_formed_set_executeHandler c value w :
  well_formed w -> well_formed (set_executeHandler c value w).
Proof. intros Hw. apply well_formed_update_env; [|done]. by intros e. Qed.

Lemma well_formed_dispose c w : well_formed w -> well_formed (dispose c w).
Proof.
  intros Hw. unfold dispose. destruct (heap w !! c) as [e|]; [|done].
  destruct (isDisposed e); [done|].
  eapply well_formed_same; [done|done|].
  do 3 (apply well_formed_update_env; [done|]).
  apply (well_formed_delete _ (update_env c (with_isDisposed true) w)).
  by apply well_formed_update_env.
Qed.

Lemma well_formed_createNotebookController extension id vt lbl handler pre w :
  well_formed w ->
  well_formed (createNotebookController extension id vt lbl handler pre w).1.
Proof.
  intros [Hk He]. unfold createNotebookController.
  destruct (existsb _ _); [done|]. simpl. split.
  - intros h d. simpl. intros Hd. apply lookup_insert_Some in Hd as [[<- <-]|[Hne Hd]].
    + eexists. simpl. split; [apply list_lookup_middle; done|done].
    + destruct (Hk h d Hd) as (e & Hl & Hh & Hx). exists e.
      split; [|done]. by apply lookup_app_l_Some.
  - intros c e. simpl. intros Hl.
    apply lookup_app_Some in Hl as [Hl|[_ Hl]]; [by eapply He|].
    apply list_lookup_singleton_Some in Hl as [_ <-]. done.
Qed.

Lemma well_formed_createNotebookCellExecutionTask c cell w :
  well_formed w -> well_formed (createNotebookCellExecutionTask c cell w).1.
Proof.
  intros Hw. unfold createNotebookCellExecutionTask.
  repeat case_match; simpl; try done.
Qed.

Lemma well_formed_api a w : well_formed w -> well_formed (api a w).1.
Proof.
  intros Hw. destruct a; simpl.
  - pose proof (well_formed_createNotebookController extension id viewType0 label0
                  handler preloads0 w Hw) as H.
    by destruct (createNotebookController _ _ _ _ _ _ _).
  - done.
  - by apply well_formed_controller_set.
  - by apply well_formed_set_executeHandler.
  - pose proof (well_formed_createNotebookCellExecutionTask c cell w Hw) as H.
    by destruct (createNotebookCellExecutionTask _ _ _).
  - by apply well_formed_dispose.
  - unfold postMessage. by destruct (heap w !! c).
  - done.
  - unfold updateNotebookAffinity. by destruct (heap w !! c).
Qed.

Lemma well_formed_run p : forall w, well_formed w -> well_formed (run p w).1.
Proof.
  induction p as [| |a k IH]; intros w Hw; simpl; [done|done|].
  pose proof (well_formed_api a w Hw) as Ha.
  destruct (api a w) as [w' r]. by apply IH.
Qed.

Lemma well_formed_acceptNotebookAssociation handle u value w :
  well_formed w -> well_formed (acceptNotebookAssociation handle u value w).1.
Proof.
  intros Hw. unfold acceptNotebookAssociation.
  destruct (_kernelData w !! handle); [|done].
  destruct (getNotebookDocument _ u); [|done].
  by do 2 (apply well_formed_update_env; [done|]).
Qed.

Lemma well_formed_call_executeHandler c cells nb w :
  well_formed w -> well_formed (call_executeHandler c cells nb w).1.
Proof.
  intros Hw. unfold call_executeHandler.
  destruct (get_executeHandler <$> heap w !! c) as [[[owner|f]|]|]; try done.
  - by destruct (heap w !! owner).
  - by apply well_formed_run.
Qed.

Lemma well_formed_executeCells handle u handles w :
  well_formed w -> well_formed (executeCells handle u handles w).1.
Proof.
  intros Hw. unfold executeCells. destruct (_kernelData w !! handle) as [obj|]; [|done].
  destruct (getNotebookDocument _ u) as [document|]; [|done].
  pose proof (well_formed_call_executeHandler (controller obj)
    (apiCell <$> existing_cells document handles) (apiNotebook document) w Hw) as H.
  destruct (call_executeHandler _ _ _ _) as [w' [[]|err]]; [done|].
  by eapply well_formed_same.
Qed.

Lemma cancel_all_same document handles : forall w,
  heap (foldl (cancel_one document) w handles) = heap w
  /\ _kernelData (foldl (cancel_one document) w handles) = _kernelData w
  /\ _proxy (foldl (cancel_one document) w handles) = _proxy w
  /\ microtasks (foldl (cancel_one document) w handles) = microtasks w
  /\ console (foldl (cancel_one document) w handles) = console w.
Proof.
  induction handles as [|h hs IH]; intros w; [done|].
  simpl. destruct (IH (cancel_one document w h)) as (-> & -> & -> & -> & ->).
  unfold cancel_one. by destruct (getCell document h).
Qed.

Lemma well_formed_cancelCells handle u handles w :
  well_formed w -> well_formed (cancelCells handle u handles w).1.
Proof.
  intros Hw. unfold cancelCells. destruct (_kernelData w !! handle) as [obj|]; [|done].
  destruct (getNotebookDocument _ u) as [document|]; [|done].
  destruct (heap w !! controller obj ≫= get_interruptHandler) as [f|].
  - pose proof (well_formed_run
      (interrupt_handlers f (controller obj) (apiNotebook document)) w Hw) as H.
    destruct (run _ _) as [w' [[]|err]]; [|done].
    eapply well_formed_same; [..|exact H]; apply cancel_all_same.
  - eapply well_formed_same; [..|exact Hw]; apply cancel_all_same.
Qed.

Lemma well_formed_acceptKernelMessageFromRenderer handle editorId message w :
  well_formed w ->
  well_formed (acceptKernelMessageFromRenderer handle editorId message w).1.
Proof.
  intros Hw. unfold acceptKernelMessageFromRenderer.
  destruct (_kernelData w !! handle); [|done].
  destruct (getEditorById _ _); [|done].
  by apply well_formed_update_env.
Qed.

Lemma well_formed_run_task t w : well_formed w -> well_formed (run_task t w).
Proof.
  intros Hw. destruct t; simpl.
  - by apply well_formed_run.
  - apply well_formed_update_env; [done|]. by eapply well_formed_same.
  - by apply well_formed_acceptNotebookAssociation.
  - by apply well_formed_executeCells.
  - by apply well_formed_cancelCells.
  - by apply well_formed_acceptKernelMessageFromRenderer.
Qed.

Lemma run_continuations_kernelData ks : forall w,
  _kernelData (foldl run_continuation w ks) = _kernelData w.
Proof.
  induction ks as [|k ks IH]; intros w; [done|]. simpl. rewrite IH.
  unfold run_continuation. destruct (heap w !! k_controller k); [|done].
  by destruct (decide _).
Qed.

Lemma well_formed_run_microtasks w : well_formed w -> well_formed (run_microtasks w).
Proof.
  intros Hw. eapply well_formed_same; [apply run_microtasks_heap| |exact Hw].
  unfold run_microtasks. by rewrite run_continuations_kernelData.
Qed.

Lemma reaches_well_formed w w' : reaches w w' -> well_formed w -> well_formed w'.
Proof.
  intros H Hw. induction H.
  - done.
  - by apply well_formed_api.
  - by apply well_formed_run_task.
  - by apply well_formed_run_microtasks.
Qed.

Lemma reachable_well_formed w : reachable w -> well_formed w.
Proof. intros H. eapply reaches_well_formed; [exact H|apply well_formed_initial]. Qed.

(** *** Creation and the duplicate check *)

Lemma scan_registered w extension id :
  existsb (same_controller w extension id) (map_to_list (_kernelData w)).*2 = true
  <-> registered w extension id.
Proof.
  rewrite existsb_exists. unfold registered. split.
  - intros (d & Hin & Hd). apply list_elem_of_In, list_elem_of_fmap in Hin.
    destruct Hin as ([h d'] & -> & Hin). apply elem_of_map_to_list in Hin. eauto.
  - intros (h & d & Hl & Hd). exists d. split; [|done].
    apply list_elem_of_In, list_elem_of_fmap. exists (h, d). split; [done|].
    by apply elem_of_map_to_list.
Qed.

Lemma createNotebookController_duplicate extension id vt lbl handler pre w :
  registered w extension id ->
  createNotebookController extension id vt lbl handler pre w
  = (w, Throws (ERR_ALREADY_EXIST id)).
Proof.
  intros H. unfold createNotebookController.
  apply scan_registered in H. by rewrite H.
Qed.

Lemma createNotebookController_fresh extension id vt lbl handler pre w :
  ~ registered w extension id ->
  let handle := _handlePool w in
  let c := length (heap w) in
  let e := new_env extension id vt lbl handler pre handle c in
  createNotebookController extension id vt lbl handler pre w
  = (with_kernelData
       (<[handle := {| kd_extensionId := identifier extension; controller := c |}]>
          (_kernelData w))
       (proxy_call (addKernel handle (data e))
          (with_heap (heap w ++ [e]) (with_handlePool (js_incr handle) w))),
     Normal c).
Proof.
  intros H. unfold createNotebookController.
  destruct (existsb _ _) eqn:E; [|done].
  by apply scan_registered in E.
Qed.

Lemma createNotebookController_Normal extension id vt lbl handler pre w w' c :
  createNotebookController extension id vt lbl handler pre w = (w', Normal c) ->
  ~ registered w extension id.
Proof.
  intros H Hr.
  rewrite (createNotebookController_duplicate _ _ vt lbl handler pre _ Hr) in H.
  discriminate.
Qed.

(** What the scan sees in a record does not change when controllers are
    added behind the one the record points to. *)
Lemma same_controller_app w extension id d h' es :
  controller d < length (heap w) ->
  heap h' = heap w ++ es ->
  same_controller h' extension id d = same_controller w extension id d.
Proof.
  intros Hlt Hh. unfold same_controller. by rewrite Hh, lookup_app_l.
Qed.

Lemma well_formed_controller_lt w handle d :
  well_formed w -> _kernelData w !! handle = Some d -> controller d < length (heap w).
Proof.
  intros [Hk _] Hd. destruct (Hk handle d Hd) as (e & He & _).
  by eapply lookup_lt_Some.
Qed.

(** A controller that is not disposed: what [dispose] leaves. *)
Lemma dispose_live c w e :
  heap w !! c = Some e ->
  isDisposed e = false ->
  _kernelData (dispose c w) = delete (env_handle e) (_kernelData w)
  /\ _proxy (dispose c w) = _proxy w ++ [removeKernel (env_handle e)]
  /\ (forall c', c' <> c -> heap (dispose c w) !! c' = heap w !! c')
  /\ (exists e', heap (dispose c w) !! c = Some e'
                 /\ isDisposed e' = true /\ env_id e' = env_id e
                 /\ disposed (onDidChangeSelection e') = true
                 /\ disposed (onDidReceiveMessage e') = true).
Proof.
  intros He Hd. unfold dispose. rewrite He, Hd. simpl.
  split; [done|]. split; [done|]. split.
  - intros c' Hne. by rewrite !list_lookup_alter_ne.
  - rewrite !list_lookup_alter_eq, He. simpl. by eexists.
Qed.

Lemma dispose_disposed c w e :
  heap w !! c = Some e -> isDisposed e = true -> dispose c w = w.
Proof. intros He Hd. unfold dispose. by rewrite He, Hd. Qed.

Lemma createNotebookController_throws_iff extension id vt lbl handler pre w :
  (createNotebookController extension id vt lbl handler pre w).2
    = Throws (ERR_ALREADY_EXIST id)
  <-> registered w extension id.
Proof.
  split.
  - intros H. apply scan_registered. unfold createNotebookController in H.
    by destruct (existsb _ _).
  - intros H. by rewrite createNotebookController_duplicate.
Qed.

Lemma same_controller_dispose c w extension id d :
  same_controller (dispose c w) extension id d = same_controller w extension id d.
Proof.
  destruct (heap w !! c) as [e|] eqn:He; [|unfold dispose; by rewrite He].
  destruct (isDisposed e) eqn:Hd; [by rewrite (dispose_disposed c w e)|].
  destruct (dispose_live c w e He Hd) as (_ & _ & Hne & e' & He' & _ & Hid & _).
  unfold same_controller. destruct (decide (controller d = c)) as [->|Hc].
  - by rewrite He', He, Hid.
  - by rewrite Hne.
Qed.

(** Disposing the one controller that holds an id of an extension frees
    the pair. *)
Lemma dispose_frees c w e extension id :
  heap w !! c = Some e ->
  isDisposed e = false ->
  (forall handle d, _kernelData w !! handle = Some d ->
     same_controller w extension id d = true -> handle = env_handle e) ->
  ~ registered (dispose c w) extension id.
Proof.
  intros He Hd Honly (h & d & Hl & Hs).
  rewrite same_controller_dispose in Hs.
  destruct (dispose_live c w e He Hd) as (Hk & _).
  rewrite Hk in Hl. apply lookup_delete_Some in Hl as [Hne Hl].
  by specialize (Honly h d Hl Hs).
Qed.

Lemma heap_dispose_length c w : length (heap (dispose c w)) = length (heap w).
Proof.
  unfold dispose. destruct (heap w !! c) as [e|]; [|done].
  destruct (isDisposed e); [done|]. simpl. by rewrite !length_alter.
Qed.

(** C2, amended.  In a well-formed state [createNotebookController] throws
    the duplicate error whenever the registry holds a record with this id
    for this extension whose controller is not disposed, and only when it
    holds a record with this id for this extension at all; without such a
    record it returns a new controller.  After a successful creation, a
    second one with the same id fails for any extension that
    [ExtensionIdentifier.equals] identifies with the first, one for an
    extension it tells apart succeeds (if that extension did not hold the id
    before), and once [dispose] has removed the new controller's record the
    pair can be created again; so it can, in any state, once [dispose] has
    removed the record of the one controller that held it. *)
Theorem C2_duplicate_controller_error w extension id vt lbl handler pre :
  well_formed w ->
  (registered_not_disposed w extension id ->
     createNotebookController extension id vt lbl handler pre w
     = (w, Throws (ERR_ALREADY_EXIST id)))
  /\ ((createNotebookController extension id vt lbl handler pre w).2
        = Throws (ERR_ALREADY_EXIST id) ->
      registered w extension id)
  /\ (~ registered w extension id ->
      (createNotebookController extension id vt lbl handler pre w).2
      = Normal (length (heap w)))
  /\ (forall w1 c,
        createNotebookController extension id vt lbl handler pre w = (w1, Normal c) ->
        (forall extension' vt' lbl' handler' pre',
           ExtensionIdentifier_equals (identifier extension') (identifier extension) = true ->
           createNotebookController extension' id vt' lbl' handler' pre' w1
           = (w1, Throws (ERR_ALREADY_EXIST id)))
        /\ (forall extension' vt' lbl' handler' pre',
              ExtensionIdentifier_equals (identifier extension') (identifier extension)
              = false ->
              ~ registered w extension' id ->
              (createNotebookController extension' id vt' lbl' handler' pre' w1).2
              = Normal (length (heap w1)))
        /\ (forall vt' lbl' handler' pre',
              (createNotebookController extension id vt' lbl' handler' pre'
                 (dispose c w1)).2
              = Normal (length (heap w1))))
  /\ (forall c e vt' lbl' handler' pre',
        heap w !! c = Some e ->
        isDisposed e = false ->
        (forall handle d, _kernelData w !! handle = Some d ->
           same_controller w extension id d = true -> handle = env_handle e) ->
        (createNotebookController extension id vt' lbl' handler' pre' (dispose c w)).2
        = Normal (length (heap w))).
Proof.
  intros Hw. split; [|split; [apply createNotebookController_throws_iff|split; [|split]]].
  { intros (handle & d & e & Hl & Hs & _). apply createNotebookController_duplicate.
    by exists handle, d. }
  { intros Hfree. by rewrite createNotebookController_fresh. }
  2:{ intros c e vt' lbl' handler' pre' He Hd Honly.
      rewrite createNotebookController_fresh; [by rewrite heap_dispose_length|].
      by apply (dispose_frees _ _ e). }
  intros w1 c Hc.
  pose proof (createNotebookController_Normal _ _ _ _ _ _ _ _ _ Hc) as Hfree.
  rewrite createNotebookController_fresh in Hc by done.
  injection Hc as <- <-.
  set (e := new_env extension id vt lbl handler pre (_handlePool w) (length (heap w))).
  set (w1 := with_kernelData _ _).
  assert (Hnew : heap w1 !! length (heap w) = Some e) by (by apply list_lookup_middle).
  assert (Hold : forall ext' h d, h <> _handlePool w ->
            _kernelData w1 !! h = Some d ->
            same_controller w1 ext' id d = true -> registered w ext' id).
  { intros ext' h d Hne Hl Hs. exists h, d. simpl in Hl.
    rewrite lookup_insert_ne in Hl by done. split; [done|].
    rewrite <- Hs. symmetry. eapply same_controller_app; [|done].
    by eapply well_formed_controller_lt. }
  split; [|split].
  - intros ext' vt' lbl' handler' pre' Heq.
    apply createNotebookController_duplicate.
    exists (_handlePool w), {| kd_extensionId := identifier extension;
                              controller := length (heap w) |}.
    split; [apply lookup_insert_eq|].
    unfold same_controller. simpl controller. rewrite Hnew. simpl.
    by rewrite bool_decide_eq_true_2.
  - intros ext' vt' lbl' handler' pre' Hneq Hfree'.
    rewrite createNotebookController_fresh; [done|].
    intros (h & d & Hl & Hs).
    destruct (decide (h = _handlePool w)) as [->|Hne]; [|by eauto].
    simpl in Hl. rewrite lookup_insert_eq in Hl. injection Hl as <-.
    unfold same_controller in Hs. simpl in Hs.
    apply andb_true_iff in Hs as [_ Hs]. congruence.
  - intros vt' lbl' handler' pre'.
    rewrite createNotebookController_fresh; [by rewrite heap_dispose_length|].
    apply (dispose_frees _ _ e); [done|done|].
    intros h d Hl Hs. destruct (decide (h = _handlePool w)) as [->|Hne]; [done|].
    exfalso. by eauto.
Qed.

(** *** Creating an execution task *)

Lemma errors_distinct nb :
  NoDup [ERR_REMOVED; ERR_DISPOSED; ERR_NOT_ASSOCIATED nb; ERR_INVALID_CELL].
Proof.
  unfold ERR_REMOVED, ERR_DISPOSED, ERR_NOT_ASSOCIATED, ERR_INVALID_CELL.
  repeat constructor; rewrite ?elem_of_cons, ?elem_of_nil; simpl;
    intros H; repeat destruct H as [H|H]; try done; discriminate H.
Qed.

(** C4.  [createNotebookCellExecutionTask] checks, in this order: the cell
    is still in its notebook; the controller is not disposed; the cell's
    notebook is associated with the controller; the document knows the
    cell.  The first check that fails decides the error, so a call that
    violates just one precondition gets that precondition's error, and the
    four errors are different from one another.  When all four hold the
    cell is handed to [createNotebookCellExecution] and the result of that
    call is returned.  No failing call changes any state.  The document is
    the one the notebook layer has for the cell's notebook; when it has
    none, the first three checks still decide as before, and a call that
    passes them throws what the lookup throws. *)
Theorem C4_execution_task_preconditions c e cell w :
  heap w !! c = Some e ->
  let nb := nb_uri (notebook cell) in
  let r := createNotebookCellExecutionTask c cell w in
  ((index cell < 0)%Z -> r = (w, Throws ERR_REMOVED))
  /\ ((0 <= index cell)%Z -> isDisposed e = true -> r = (w, Throws ERR_DISPOSED))
  /\ ((0 <= index cell)%Z -> isDisposed e = false ->
      associatedNotebooks e !! nb = None ->
      r = (w, Throws (ERR_NOT_ASSOCIATED nb)))
  /\ (forall document,
        getNotebookDocument _extHostNotebook nb = Normal document ->
        (0 <= index cell)%Z -> isDisposed e = false ->
        is_Some (associatedNotebooks e !! nb) ->
        getCellFromApiCell document cell = None ->
        r = (w, Throws ERR_INVALID_CELL))
  /\ (forall document cellObj,
        getNotebookDocument _extHostNotebook nb = Normal document ->
        (0 <= index cell)%Z -> isDisposed e = false ->
        is_Some (associatedNotebooks e !! nb) ->
        getCellFromApiCell document cell = Some cellObj ->
        r = (notebook_request (req_createNotebookCellExecution cellObj) w,
             Normal (createNotebookCellExecution _extHostNotebook cellObj)))
  /\ (forall err,
        getNotebookDocument _extHostNotebook nb = Throws err ->
        (0 <= index cell)%Z -> isDisposed e = false ->
        is_Some (associatedNotebooks e !! nb) ->
        r = (w, Throws err))
  /\ NoDup [ERR_REMOVED; ERR_DISPOSED; ERR_NOT_ASSOCIATED nb; ERR_INVALID_CELL].
Proof.
  intros He nb r. subst r. unfold createNotebookCellExecutionTask.
  rewrite He. fold nb.
  repeat split.
  - intros H. by rewrite (proj2 (Z.ltb_lt _ _) H).
  - intros H ->. by rewrite (proj2 (Z.ltb_ge _ _) H).
  - intros H -> Hn. rewrite (proj2 (Z.ltb_ge _ _) H), Hn.
    rewrite bool_decide_eq_false_2; [done|]. by intros [? ?].
  - intros document Hdoc H -> Hs Hc. rewrite (proj2 (Z.ltb_ge _ _) H).
    rewrite bool_decide_eq_true_2 by done. simpl. by rewrite Hdoc, Hc.
  - intros document cellObj Hdoc H -> Hs Hc. rewrite (proj2 (Z.ltb_ge _ _) H).
    rewrite bool_decide_eq_true_2 by done. simpl. by rewrite Hdoc, Hc.
  - intros err Hdoc H -> Hs. rewrite (proj2 (Z.ltb_ge _ _) H).
    rewrite bool_decide_eq_true_2 by done. simpl. by rewrite Hdoc.
  - apply errors_distinct.
Qed.

(** *** Executing cells *)

Lemma existing_cells_cons document h handles :
  existing_cells document (h :: handles)
  = match getCell document h with
    | Some cell => cell :: existing_cells document handles
    | None => existing_cells document handles
    end.
Proof. done. Qed.

Lemma elem_of_existing_cells document handles cell :
  cell ∈ existing_cells document handles
  <-> exists h, h ∈ handles /\ getCell document h = Some cell.
Proof. unfold existing_cells. apply list_elem_of_omap. Qed.

Lemma existing_cells_length document handles :
  length (existing_cells document handles)
  = length (filter (fun h => is_Some (getCell document h)) handles).
Proof.
  induction handles as [|h hs IH]; [done|].
  rewrite existing_cells_cons.
  destruct (getCell document h) as [cell|] eqn:E.
  - rewrite filter_cons_True by (by rewrite E). simpl. by rewrite IH.
  - rewrite filter_cons_False by (rewrite E; by intros [? ?]). done.
Qed.

(** C5, amended.  For a handle the registry does not hold, [$executeCells]
    does nothing and raises nothing, whatever the uri.  For a handle it
    holds, the document is looked up before the [try]: if the notebook
    layer has no document for the uri, what the lookup throws leaves
    [$executeCells], no handler is called and nothing changes.  If it has
    one, [$executeCells] completes normally: the controller's execute
    handler is called once, with the api cells of exactly those handles the
    document still resolves (in the order given), the api notebook and the
    controller; if the handler throws, the error goes to [console.error]
    and every other part of the state is as the handler left it. *)
Theorem C5_executeCells_catches_handler_errors handle u handles w :
  (_kernelData w !! handle = None -> executeCells handle u handles w = (w, Normal ()))
  /\ (forall obj err,
        _kernelData w !! handle = Some obj ->
        getNotebookDocument _extHostNotebook u = Throws err ->
        executeCells handle u handles w = (w, Throws err))
  /\ (forall document,
        getNotebookDocument _extHostNotebook u = Normal document ->
        let cells := apiCell <$> omap (getCell document) handles in
        (executeCells handle u handles w).2 = Normal ()
        /\ existing_cells document handles = omap (getCell document) handles
        /\ (forall cell, cell ∈ existing_cells document handles
                         <-> exists h, h ∈ handles /\ getCell document h = Some cell)
        /\ length cells = length (filter (fun h => is_Some (getCell document h)) handles)
        /\ (forall obj e f,
              _kernelData w !! handle = Some obj ->
              heap w !! controller obj = Some e ->
              get_executeHandler e = Some (extension_function f) ->
              forall w' r,
                run (execute_handlers f cells (apiNotebook document) (controller obj)) w
                = (w', r) ->
                match r with
                | Normal _ => executeCells handle u handles w = (w', Normal ())
                | Throws err =>
                    let w'' := (executeCells handle u handles w).1 in
                    executeCells handle u handles w
                      = (console_write (console_error err) w', Normal ())
                    /\ heap w'' = heap w' /\ _kernelData w'' = _kernelData w'
                    /\ _handlePool w'' = _handlePool w' /\ _proxy w'' = _proxy w'
                    /\ microtasks w'' = microtasks w'
                    /\ notebook_requests w'' = notebook_requests w'
                end)).
Proof.
  split; [|split].
  - intros H. unfold executeCells. by rewrite H.
  - intros obj err Hobj Hdoc. unfold executeCells. by rewrite Hobj, Hdoc.
  - intros document Hdoc cells. split; [|split; [|split; [|split]]].
    + unfold executeCells. destruct (_kernelData w !! handle); [|done].
      rewrite Hdoc. by destruct (call_executeHandler _ _ _ _) as [w' [[]|err]].
    + done.
    + intros cell. apply elem_of_existing_cells.
    + subst cells. rewrite length_fmap. apply existing_cells_length.
    + intros obj e f Hobj He Hf w' r Hrun.
      unfold executeCells. rewrite Hobj, Hdoc.
      change (apiCell <$> existing_cells document handles) with cells.
      unfold call_executeHandler. rewrite He. simpl. rewrite Hf, Hrun.
      by destruct r as [[]|err].
Qed.

(** *** Messages from a renderer *)

(** C7, amended.  [$acceptKernelMessageFromRenderer] looks the handle up
    first: for a handle the registry does not hold it returns at once,
    whatever the editor id, and raises nothing.  For a handle it holds, it
    raises the unknown-editor error exactly when the editor id does not
    resolve, and otherwise fires the controller's message emitter once,
    with the frozen pair of the api editor and the message. *)
Theorem C7_renderer_message handle editorId message w :
  (_kernelData w !! handle = None ->
     acceptKernelMessageFromRenderer handle editorId message w = (w, Normal ()))
  /\ (forall obj, _kernelData w !! handle = Some obj ->
        ((acceptKernelMessageFromRenderer handle editorId message w).2
           = Throws (ERR_UNKNOWN_EDITOR editorId)
         <-> getEditorById _extHostNotebook editorId = None)
        /\ (getEditorById _extHostNotebook editorId = None ->
            acceptKernelMessageFromRenderer handle editorId message w
            = (w, Throws (ERR_UNKNOWN_EDITOR editorId)))
        /\ (forall editor e,
              getEditorById _extHostNotebook editorId = Some editor ->
              heap w !! controller obj = Some e ->
              let w' := (acceptKernelMessageFromRenderer handle editorId message w).1 in
              (acceptKernelMessageFromRenderer handle editorId message w).2 = Normal ()
              /\ exists e', heap w' !! controller obj = Some e'
                 /\ fired (onDidReceiveMessage e')
                    = fired (onDidReceiveMessage e)
                      ++ [frozen {| msg_editor := apiEditor editor;
                                    msg_message := message |}])).
Proof.
  split.
  - intros H. unfold acceptKernelMessageFromRenderer. by rewrite H.
  - intros obj Hobj. unfold acceptKernelMessageFromRenderer. rewrite Hobj.
    split; [|split].
    + by destruct (getEditorById _ _).
    + by intros ->.
    + intros editor e -> He. simpl. split; [done|].
      eexists. rewrite list_lookup_alter_eq, He. simpl. done.
Qed.

(** *** The label at creation *)

(** C9, amended.  A successful [createNotebookController] with the empty
    string as label stores the value of the extension's identifier as the
    label of the dto: the [label] getter returns it, and the dto handed to
    [$addKernel], the last call on the proxy, carries it.  The display name
    of the extension is what the [label] setter stores when it is assigned
    undefined. *)
Theorem C9_empty_label_defaults extension id vt handler pre w w' c :
  createNotebookController extension id vt EmptyString handler pre w = (w', Normal c) ->
  get_label <$> heap w' !! c = Some (value (identifier extension))
  /\ (exists d, last (_proxy w') = Some (addKernel (_handlePool w) d)
                /\ data <$> heap w' !! c = Some d
                /\ label d = value (identifier extension))
  /\ get_label <$> heap (controller_set c (set_label None) w') !! c
     = Some (display_name extension).
Proof.
  intros Hc.
  pose proof (createNotebookController_Normal _ _ _ _ _ _ _ _ _ Hc) as Hfree.
  rewrite createNotebookController_fresh in Hc by done.
  injection Hc as <- <-.
  set (e := new_env extension id vt EmptyString handler pre (_handlePool w) (length (heap w))).
  set (w' := with_kernelData _ _).
  assert (He : heap w' !! length (heap w) = Some e) by (by apply list_lookup_middle).
  rewrite He. split; [done|]. split.
  - exists (data e). split; [apply last_snoc|done].
  - destruct (controller_set_live (length (heap w)) (set_label None) w' e He eq_refl)
      as (Hh & _).
    rewrite Hh, list_lookup_insert_eq by (by eapply lookup_lt_Some). done.
Qed.

(** *** The execute handler *)

(** C10.  In every reachable state every controller holds an execute
    handler, so the getter never returns undefined and [$executeCells]
    finds a function to call for every record.  A controller created
    without a handler, or assigned a null or undefined one, holds its own
    default handler, and calling that one only writes a warning to the
    console. *)
Theorem C10_executeHandler_always_defined w :
  reachable w ->
  (forall c e, heap w !! c = Some e -> is_Some (get_executeHandler e))
  /\ (forall handle obj, _kernelData w !! handle = Some obj ->
        exists e h, heap w !! controller obj = Some e
                    /\ get_executeHandler e = Some h)
  /\ (forall extension id vt lbl pre w' c,
        createNotebookController extension id vt lbl None pre w = (w', Normal c) ->
        get_executeHandler <$> heap w' !! c = Some (Some (_defaultExecutHandler c)))
  /\ (forall c e, heap w !! c = Some e ->
        get_executeHandler <$> heap (set_executeHandler c None w) !! c
        = Some (Some (_defaultExecutHandler c)))
  /\ (forall c e cells nb,
        heap w !! c = Some e ->
        get_executeHandler e = Some (_defaultExecutHandler c) ->
        call_executeHandler c cells nb w
        = (console_write
             (console_warn_no_execute_handler (dto_id (data e))
                (identifier (env_extension e))) w,
           Normal ())).
Proof.
  intros Hr. destruct (reachable_well_formed w Hr) as [Hk He].
  split; [exact He|]. split; [|split; [|split]].
  - intros handle obj Hobj. destruct (Hk handle obj Hobj) as (e & Hl & _).
    destruct (He _ _ Hl) as [h Hh]. by exists e, h.
  - intros extension id vt lbl pre w' c H.
    pose proof (createNotebookController_Normal _ _ _ _ _ _ _ _ _ H) as Hfree.
    rewrite createNotebookController_fresh in H by done.
    injection H as <- <-. simpl. by rewrite list_lookup_middle.
  - intros c e Hl. unfold set_executeHandler, update_env. simpl.
    by rewrite list_lookup_alter_eq, Hl.
  - intros c e cells nb Hl Hh. unfold call_executeHandler.
    rewrite Hl. simpl. by rewrite Hh, Hl.
Qed.

(** *** What no operation undoes *)

Lemma createNotebookCellExecutionTask_heap c cell w :
  heap (createNotebookCellExecutionTask c cell w).1 = heap w.
Proof. unfold createNotebookCellExecutionTask. by repeat case_match. Qed.

Lemma createNotebookCellExecutionTask_microtasks c cell w :
  microtasks (createNotebookCellExecutionTask c cell w).1 = microtasks w.
Proof. unfold createNotebookCellExecutionTask. by repeat case_match. Qed.

Section Frame.

Variable R : ControllerEnv -> ControllerEnv -> Prop.
Hypothesis HR : admits R.

Lemma evolves_refl w : evolves R w w.
Proof. intros c e He. exists e. split; [done|]. by apply admits_refl. Qed.

Lemma evolves_trans w1 w2 w3 : evolves R w1 w2 -> evolves R w2 w3 -> evolves R w1 w3.
Proof.
  intros H12 H23 c e He. destruct (H12 c e He) as (e2 & He2 & HR2).
  destruct (H23 c e2 He2) as (e3 & He3 & HR3). exists e3. split; [done|].
  by eapply admits_trans.
Qed.

Lemma evolves_same w w' : heap w' = heap w -> evolves R w w'.
Proof. intros Hh c e He. exists e. rewrite Hh. split; [done|]. by apply admits_refl. Qed.

Lemma evolves_update_env c f w :
  (forall e, R e (f e)) -> evolves R w (update_env c f w).
Proof.
  intros Hf c' e He. unfold update_env. simpl.
  destruct (decide (c = c')) as [->|Hne].
  - exists (f e). by rewrite list_lookup_alter_eq, He.
  - exists e. rewrite list_lookup_alter_ne by done. split; [done|].
    by apply admits_refl.
Qed.

Lemma evolves_update_env_at c f w e :
  heap w !! c = Some e -> R e (f e) -> evolves R w (update_env c f w).
Proof.
  intros He Hf c' e' He'. unfold update_env. simpl.
  destruct (decide (c = c')) as [->|Hne].
  - exists (f e'). rewrite list_lookup_alter_eq, He'. split; [done|]. congruence.
  - exists e'. rewrite list_lookup_alter_ne by done. split; [done|].
    by apply admits_refl.
Qed.

Lemma evolves__update c w : evolves R w (_update c w).
Proof.
  unfold _update. destruct (heap w !! c) as [e|] eqn:He; [|apply evolves_refl].
  destruct (isDisposed e); [apply evolves_refl|].
  eapply evolves_trans; [|by apply evolves_same].
  eapply evolves_update_env_at; [exact He|]. by apply admits_tokenPool.
Qed.

Lemma evolves_controller_set c s w : evolves R w (controller_set c s w).
Proof.
  eapply evolves_trans; [apply (evolves_update_env c)|apply evolves__update].
  intros e. by apply admits_assign.
Qed.

Lemma evolves_dispose c w : evolves R w (dispose c w).
Proof.
  unfold dispose. destruct (heap w !! c) as [e|]; [|apply evolves_refl].
  destruct (isDisposed e); [apply evolves_refl|].
  eapply evolves_trans; [|by apply evolves_same].
  eapply evolves_trans; [|apply evolves_update_env; intros e';
                           by apply admits_onDidReceiveMessage].
  eapply evolves_trans; [|apply evolves_update_env; intros e';
                           by apply admits_onDidChangeSelection].
  eapply evolves_trans; [|apply evolves_update_env; intros e';
                           by apply admits_commandDisposables].
  eapply evolves_trans; [|by apply evolves_same].
  apply evolves_update_env. intros e'. by apply admits_isDisposed.
Qed.

Lemma evolves_createNotebookController extension id vt lbl handler pre w :
  evolves R w (createNotebookController extension id vt lbl handler pre w).1.
Proof.
  unfold createNotebookController. destruct (existsb _ _); [apply evolves_refl|].
  intros c e He. exists e. simpl. split; [by apply lookup_app_l_Some|].
  by apply admits_refl.
Qed.

Lemma evolves_api a w : evolves R w (api a w).1.
Proof.
  destruct a; simpl.
  - pose proof (evolves_createNotebookController extension id viewType0 label0
                  handler preloads0 w) as H.
    by destruct (createNotebookController _ _ _ _ _ _ _).
  - apply evolves_refl.
  - apply evolves_controller_set.
  - apply evolves_update_env. intros e. by apply admits_executeHandler.
  - pose proof (createNotebookCellExecutionTask_heap c cell w) as H.
    destruct (createNotebookCellExecutionTask _ _ _). by apply evolves_same.
  - apply evolves_dispose.
  - unfold postMessage. destruct (heap w !! c); by apply evolves_same.
  - apply evolves_refl.
  - unfold updateNotebookAffinity. destruct (heap w !! c); by apply evolves_same.
Qed.

Lemma evolves_run p : forall w, evolves R w (run p w).1.
Proof.
  induction p as [| |a k IH]; intros w; simpl; [apply evolves_refl..|].
  pose proof (evolves_api a w) as Ha.
  destruct (api a w) as [w' r]. eapply evolves_trans; [exact Ha|apply IH].
Qed.

Lemma evolves_executeCells handle u handles w :
  evolves R w (executeCells handle u handles w).1.
Proof.
  unfold executeCells. destruct (_kernelData w !! handle) as [obj|]; [|apply evolves_refl].
  destruct (getNotebookDocument _ u) as [document|]; [|apply evolves_refl].
  unfold call_executeHandler.
  destruct (get_executeHandler <$> heap w !! controller obj) as [[[owner|f]|]|];
    simpl; try by apply evolves_same.
  - destruct (heap w !! owner); by apply evolves_same.
  - match goal with |- context [run ?p w] => pose proof (evolves_run p w) as H end.
    destruct (run _ _) as [w' [[]|err]]; [done|].
    eapply evolves_trans; [exact H|by apply evolves_same].
Qed.

Lemma evolves_cancelCells handle u handles w :
  evolves R w (cancelCells handle u handles w).1.
Proof.
  unfold cancelCells. destruct (_kernelData w !! handle) as [obj|]; [|apply evolves_refl].
  destruct (getNotebookDocument _ u) as [document|]; [|apply evolves_refl].
  destruct (heap w !! controller obj ≫= get_interruptHandler) as [f|].
  - match goal with |- context [run ?p w] => pose proof (evolves_run p w) as H end.
    destruct (run _ _) as [w' [[]|err]]; [|done].
    eapply evolves_trans; [exact H|]. apply evolves_same, cancel_all_same.
  - apply evolves_same, cancel_all_same.
Qed.

Lemma evolves_acceptKernelMessageFromRenderer handle editorId message w :
  evolves R w (acceptKernelMessageFromRenderer handle editorId message w).1.
Proof.
  unfold acceptKernelMessageFromRenderer.
  destruct (_kernelData w !! handle); [|apply evolves_refl].
  destruct (getEditorById _ _); [|apply evolves_refl].
  apply evolves_update_env. intros e'. by apply admits_onDidReceiveMessage.
Qed.

Lemma evolves_addKernel_rejected c err w : evolves R w (addKernel_rejected c err w).
Proof.
  unfold addKernel_rejected.
  eapply evolves_trans; [|apply evolves_update_env; intros e; by apply admits_isDisposed].
  by apply evolves_same.
Qed.

Lemma evolves_run_microtasks w : evolves R w (run_microtasks w).
Proof. apply evolves_same, run_microtasks_heap. Qed.

Lemma evolves_acceptNotebookAssociation handle u value w :
  (forall m e, R e (with_associatedNotebooks m e)) ->
  evolves R w (acceptNotebookAssociation handle u value w).1.
Proof.
  intros Hm. unfold acceptNotebookAssociation.
  destruct (_kernelData w !! handle); [|apply evolves_refl].
  destruct (getNotebookDocument _ u) as [notebook|]; [|apply evolves_refl].
  eapply evolves_trans; apply evolves_update_env; intros e;
    [apply Hm | by apply admits_onDidChangeSelection].
Qed.

(** A task other than an association event. *)
Lemma evolves_run_task t w :
  (forall handle u value, t <> main_acceptNotebookAssociation handle u value) ->
  evolves R w (run_task t w).
Proof.
  intros Ht. destruct t; simpl.
  - apply evolves_run.
  - apply evolves_addKernel_rejected.
  - exfalso. by eapply Ht.
  - apply evolves_executeCells.
  - apply evolves_cancelCells.
  - apply evolves_acceptKernelMessageFromRenderer.
Qed.

Lemma evolves_reaches w w' :
  (forall m e, R e (with_associatedNotebooks m e)) ->
  reaches w w' -> evolves R w w'.
Proof.
  intros Hm H. induction H as [|a w' _ IH|t w' _ IH|w' _ IH].
  - apply evolves_refl.
  - eapply evolves_trans; [exact IH|apply evolves_api].
  - eapply evolves_trans; [exact IH|].
    destruct t; try (apply evolves_run_task; intros; discriminate).
    by apply evolves_acceptNotebookAssociation.
  - eapply evolves_trans; [exact IH|apply evolves_run_microtasks].
Qed.

End Frame.

Lemma admits_stays_disposed : admits stays_disposed.
Proof.
  split; unfold stays_disposed; try done.
  - intros e1 e2 e3 [H1 H2] [H3 H4]. split; [congruence|auto].
  - intros s e. by rewrite assign_isDisposed, assign_env_handle.
Qed.

Lemma admits_same_associations : admits same_associations.
Proof.
  split; unfold same_associations; try done.
  - congruence.
  - intros s e. by destruct s.
Qed.

Lemma admits_token_grows : admits token_grows.
Proof.
  split; unfold token_grows; simpl; try (intros; lia).
  - intros s e. rewrite assign_tokenPool. lia.
  - intros e. unfold js_incr. destruct (N.ltb_spec (tokenPool e) MAX_EXACT); lia.
Qed.

(** *** Tokens of pending continuations *)

Lemma advances_refl w : advances w w.
Proof. split; [apply evolves_refl, admits_token_grows|]. intros k Hk. by left. Qed.

Lemma advances_trans w1 w2 w3 : advances w1 w2 -> advances w2 w3 -> advances w1 w3.
Proof.
  intros [He12 Hq12] [He23 Hq23]. split.
  - eapply evolves_trans; [apply admits_token_grows|done..].
  - intros k Hk. destruct (Hq23 k Hk) as [Hk2|Hnew]; [|by right].
    destruct (Hq12 k Hk2) as [Hk1|(e2 & He2 & Hle)]; [by left|right].
    destruct (He23 _ _ He2) as (e3 & He3 & Hg). exists e3. split; [done|].
    unfold token_grows in Hg. lia.
Qed.

Lemma advances_same_queue w w' :
  evolves token_grows w w' -> microtasks w' = microtasks w -> advances w w'.
Proof. intros He Hq. split; [done|]. intros k Hk. left. by rewrite <- Hq. Qed.

Lemma advances__update c w : advances w (_update c w).
Proof.
  split; [apply evolves__update, admits_token_grows|].
  unfold _update. destruct (heap w !! c) as [e|] eqn:He; [|by left].
  destruct (isDisposed e); [by left|].
  intros k Hk. simpl in Hk. apply elem_of_app in Hk as [Hk|Hk]; [by left|right].
  apply list_elem_of_singleton in Hk as ->. simpl.
  rewrite list_lookup_alter_eq, He. simpl. by eexists.
Qed.

Lemma advances_controller_set c s w : advances w (controller_set c s w).
Proof.
  eapply advances_trans; [|apply advances__update].
  apply advances_same_queue; [|done].
  apply evolves_update_env; [apply admits_token_grows|].
  intros e. apply admits_assign, admits_token_grows.
Qed.

Lemma advances_api a w : advances w (api a w).1.
Proof.
  assert (Hsame : microtasks (api a w).1 = microtasks w -> advances w (api a w).1).
  { intros Hq. apply advances_same_queue; [apply evolves_api, admits_token_grows|done]. }
  destruct a;
    [apply Hsame | apply Hsame | idtac | apply Hsame | apply Hsame | apply Hsame
    | apply Hsame | apply Hsame | apply Hsame]; clear Hsame; simpl.
  - unfold createNotebookController. by destruct (existsb _ _).
  - done.
  - apply advances_controller_set.
  - done.
  - pose proof (createNotebookCellExecutionTask_microtasks c cell w) as Hq.
    by destruct (createNotebookCellExecutionTask _ _ _).
  - unfold dispose. destruct (heap w !! c) as [e|]; [|done]. by destruct (isDisposed e).
  - unfold postMessage. by destruct (heap w !! c).
  - done.
  - unfold updateNotebookAffinity. by destruct (heap w !! c).
Qed.

Lemma advances_run p : forall w, advances w (run p w).1.
Proof.
  induction p as [| |a k IH]; intros w; simpl; [apply advances_refl..|].
  pose proof (advances_api a w) as Ha.
  destruct (api a w) as [w' r]. eapply advances_trans; [exact Ha|apply IH].
Qed.

Lemma advances_run_task t w : advances w (run_task t w).
Proof.
  destruct t; simpl.
  - apply advances_run.
  - apply advances_same_queue; [apply evolves_addKernel_rejected, admits_token_grows|done].
  - apply advances_same_queue.
    + apply evolves_acceptNotebookAssociation; [apply admits_token_grows|].
      intros m e. unfold token_grows. simpl. lia.
    + unfold acceptNotebookAssociation. destruct (_kernelData w !! handle); [|done].
      by destruct (getNotebookDocument _ u).
  - unfold executeCells. destruct (_kernelData w !! handle) as [obj|]; [|apply advances_refl].
    destruct (getNotebookDocument _ u) as [document|]; [|apply advances_refl].
    unfold call_executeHandler.
    destruct (get_executeHandler <$> heap w !! controller obj) as [[[owner|f]|]|];
      simpl; try apply advances_refl.
    + destruct (heap w !! owner); [|apply advances_refl].
      apply advances_same_queue; [|done]. by apply evolves_same; [apply admits_token_grows|].
    + match goal with |- context [run ?p w] => pose proof (advances_run p w) as Hr end.
      destruct (run _ _) as [w' [[]|err]]; [done|].
      eapply advances_trans; [exact Hr|].
      apply advances_same_queue; [|done]. by apply evolves_same; [apply admits_token_grows|].
    + apply advances_same_queue; [|done]. by apply evolves_same; [apply admits_token_grows|].
    + apply advances_same_queue; [|done]. by apply evolves_same; [apply admits_token_grows|].
  - unfold cancelCells. destruct (_kernelData w !! handle) as [obj|]; [|apply advances_refl].
    destruct (getNotebookDocument _ u) as [document|]; [|apply advances_refl].
    destruct (heap w !! controller obj ≫= get_interruptHandler) as [f|].
    + match goal with |- context [run ?p w] => pose proof (advances_run p w) as Hr end.
      destruct (run _ _) as [w' [[]|err]]; [|done].
      eapply advances_trans; [exact Hr|].
      apply advances_same_queue; [|apply cancel_all_same].
      apply evolves_same; [apply admits_token_grows|apply cancel_all_same].
    + apply advances_same_queue; [|apply cancel_all_same].
      apply evolves_same; [apply admits_token_grows|apply cancel_all_same].
  - apply advances_same_queue;
      [apply evolves_acceptKernelMessageFromRenderer, admits_token_grows|].
    unfold acceptKernelMessageFromRenderer.
    destruct (_kernelData w !! handle); [|done]. by destruct (getEditorById _ _).
Qed.

Lemma run_continuations_microtasks ks : forall w,
  microtasks (foldl run_continuation w ks) = microtasks w.
Proof.
  induction ks as [|k ks IH]; intros w; [done|]. simpl. rewrite IH.
  unfold run_continuation. destruct (heap w !! k_controller k); [|done].
  by destruct (decide _).
Qed.

Lemma run_microtasks_microtasks w : microtasks (run_microtasks w) = [].
Proof. unfold run_microtasks. by rewrite run_continuations_microtasks. Qed.

Lemma advances_run_microtasks w : advances w (run_microtasks w).
Proof.
  split; [apply evolves_run_microtasks, admits_token_grows|].
  intros k Hk. rewrite run_microtasks_microtasks in Hk. by apply elem_of_nil in Hk.
Qed.

Lemma advances_reaches w w' : reaches w w' -> advances w w'.
Proof.
  induction 1 as [|a w' _ IH|t w' _ IH|w' _ IH].
  - apply advances_refl.
  - eapply advances_trans; [exact IH|apply advances_api].
  - eapply advances_trans; [exact IH|apply advances_run_task].
  - eapply advances_trans; [exact IH|apply advances_run_microtasks].
Qed.

Lemma tokens_in_order_advances w w' :
  tokens_in_order w -> advances w w' -> tokens_in_order w'.
Proof.
  intros Hw [He Hq] k Hk. destruct (Hq k Hk) as [Hk'|Hnew]; [|done].
  destruct (Hw k Hk') as (e & Hl & Hle).
  destruct (He _ _ Hl) as (e' & Hl' & Hg). exists e'. split; [done|].
  unfold token_grows in Hg. lia.
Qed.

Lemma reachable_tokens_in_order w : reachable w -> tokens_in_order w.
Proof.
  intros Hr. apply (tokens_in_order_advances initial); [|by apply advances_reaches].
  intros k Hk. by apply elem_of_nil in Hk.
Qed.

(** *** A rejected registration *)

(** A setter on a controller marked disposed: the assignment is made and
    that is all. *)
Lemma controller_set_disposed c s w e :
  heap w !! c = Some e ->
  isDisposed e = true ->
  let w' := controller_set c s w in
  heap w' !! c = Some (assign s e)
  /\ _proxy w' = _proxy w /\ microtasks w' = microtasks w
  /\ _kernelData w' = _kernelData w.
Proof.
  intros He Hd. unfold controller_set, _update, update_env. simpl.
  rewrite list_lookup_alter_eq, He. simpl. rewrite assign_isDisposed, Hd. simpl.
  by rewrite list_lookup_alter_eq, He.
Qed.

(** C3, amended.  When [$addKernel] is rejected, the callback logs the
    error and marks the controller disposed; the call of
    [createNotebookController] has long returned and gets nothing of it,
    and the record stays in the registry.  In every state reached from
    there the controller is still marked disposed, and on it: a metadata
    setter assigns its value but sends and queues nothing; [dispose] does
    nothing; [createNotebookCellExecutionTask] throws (the removed-cell or
    the disposed error); [postMessage] and [updateNotebookAffinity] still
    call the proxy. *)
Theorem C3_rejected_registration c err w e :
  heap w !! c = Some e ->
  let w' := addKernel_rejected c err w in
  (heap w' !! c = Some (with_isDisposed true e)
   /\ _kernelData w' = _kernelData w
   /\ _proxy w' = _proxy w
   /\ microtasks w' = microtasks w
   /\ console w' = console w ++ [console_log err])
  /\ forall w'', reaches w' w'' ->
       exists e'', heap w'' !! c = Some e'' /\ isDisposed e'' = true
         /\ (forall s,
               heap (controller_set c s w'') !! c = Some (assign s e'')
               /\ _proxy (controller_set c s w'') = _proxy w''
               /\ microtasks (controller_set c s w'') = microtasks w'')
         /\ dispose c w'' = w''
         /\ (forall cell,
               createNotebookCellExecutionTask c cell w''
               = (w'', Throws (if (index cell <? 0)%Z then ERR_REMOVED else ERR_DISPOSED)))
         /\ (forall message editor,
               postMessage c message editor w''
               = proxy_call (proxy_postMessage (env_handle e)
                               (getIdByEditor _extHostNotebook <$> editor) message) w'')
         /\ (forall nb priority,
               updateNotebookAffinity c nb priority w''
               = proxy_call (updateNotebookPriority (env_handle e) (nb_uri nb) priority) w'').
Proof.
  intros He w'.
  assert (He' : heap w' !! c = Some (with_isDisposed true e)).
  { subst w'. unfold addKernel_rejected, update_env. simpl.
    by rewrite list_lookup_alter_eq, He. }
  split; [done|].
  intros w'' Hreach.
  assert (Hev : evolves stays_disposed w' w'').
  { apply evolves_reaches; [apply admits_stays_disposed|by intros m e0|done]. }
  destruct (Hev c _ He') as (e'' & He'' & Hh & Hd).
  simpl in Hh. specialize (Hd eq_refl).
  exists e''. split; [done|]. split; [done|]. split; [|split; [|split; [|split]]].
  - intros s. destruct (controller_set_disposed c s w'' e'' He'' Hd) as (? & ? & ? & _).
    done.
  - by apply (dispose_disposed c w'' e'').
  - intros cell. unfold createNotebookCellExecutionTask. rewrite He'', Hd.
    by destruct (index cell <? 0)%Z.
  - intros message editor. unfold postMessage. by rewrite He'', Hh.
  - intros nb priority. unfold updateNotebookAffinity. by rewrite He'', Hh.
Qed.

(** *** Notebook associations *)

Lemma acceptNotebookAssociation_live handle u value w obj e notebook :
  _kernelData w !! handle = Some obj ->
  heap w !! controller obj = Some e ->
  getNotebookDocument _extHostNotebook u = Normal notebook ->
  let w' := (acceptNotebookAssociation handle u value w).1 in
  (acceptNotebookAssociation handle u value w).2 = Normal ()
  /\ _kernelData w' = _kernelData w
  /\ exists e', heap w' !! controller obj = Some e'
       /\ associatedNotebooks e'
          = (if value then <[uri notebook := true]> (associatedNotebooks e)
             else delete (uri notebook) (associatedNotebooks e))
       /\ fired (onDidChangeSelection e')
          = fired (onDidChangeSelection e)
            ++ [{| selected := value; sel_notebook := apiNotebook notebook |}].
Proof.
  intros Hobj He Hdoc. unfold acceptNotebookAssociation. rewrite Hobj, Hdoc. simpl.
  split; [done|]. split; [done|]. eexists. rewrite !list_lookup_alter_eq, He. simpl. done.
Qed.

Lemma acceptNotebookAssociation_unknown handle u value w obj err :
  _kernelData w !! handle = Some obj ->
  getNotebookDocument _extHostNotebook u = Throws err ->
  acceptNotebookAssociation handle u value w = (w, Throws err).
Proof. intros Hobj Hdoc. unfold acceptNotebookAssociation. by rewrite Hobj, Hdoc. Qed.

Lemma acceptNotebookAssociation_all handle obj events : forall w e,
  _kernelData w !! handle = Some obj ->
  heap w !! controller obj = Some e ->
  let w' := foldl (fun w ev => (acceptNotebookAssociation handle ev.1 ev.2 w).1) w events in
  exists e', heap w' !! controller obj = Some e'
    /\ forall k, associatedNotebooks e' !! k
                 = match last_association k events with
                   | Some true => Some true
                   | Some false => None
                   | None => associatedNotebooks e !! k
                   end.
Proof.
  induction events as [|[u v] events IH]; intros w e Hobj He; simpl.
  - by exists e.
  - destruct (getNotebookDocument _extHostNotebook u) as [notebook|err] eqn:Hdoc.
    + destruct (acceptNotebookAssociation_live handle u v w obj e notebook Hobj He Hdoc)
        as (_ & Hk & e1 & He1 & Ha & _).
      rewrite <- Hk in Hobj.
      destruct (IH _ e1 Hobj He1) as (e' & He' & Hlast).
      exists e'. split; [done|]. intros k. rewrite Hlast.
      destruct (last_association k events) as [b|]; [done|].
      rewrite Ha. destruct (decide _) as [->|Hne].
      * destruct v; [by rewrite lookup_insert_eq | by rewrite lookup_delete_eq].
      * destruct v; [by rewrite lookup_insert_ne | by rewrite lookup_delete_ne].
    + rewrite (acceptNotebookAssociation_unknown handle u v w obj err Hobj Hdoc). simpl.
      destruct (IH w e Hobj He) as (e' & He' & Hlast).
      exists e'. split; [done|]. intros k. rewrite Hlast.
      by destruct (last_association k events) as [b|].
Qed.

(** C8, amended.  For a handle the registry holds and a uri the notebook
    layer has a document for, the association event [(handle, u, true)]
    followed by [(handle, u, false)] leaves the controller's
    [associatedNotebooks] as it was, without the notebook of [u] (so empty
    if no other notebook was associated) and fires the selection emitter
    twice, first with [selected = true], then with [selected = false]; both
    calls complete normally.  An event for a uri without a document throws
    what the lookup throws and changes nothing.  After any list of
    association events the map holds a notebook exactly if the last event
    about it said [true] (notebooks without an event keep their entry), and
    neither an api call, nor any other task, nor the microtasks change the
    map. *)
Theorem C8_association_toggle handle u obj e w :
  _kernelData w !! handle = Some obj ->
  heap w !! controller obj = Some e ->
  (forall notebook,
     getNotebookDocument _extHostNotebook u = Normal notebook ->
     let w1 := (acceptNotebookAssociation handle u true w).1 in
     let w2 := (acceptNotebookAssociation handle u false w1).1 in
     (acceptNotebookAssociation handle u true w).2 = Normal ()
     /\ (acceptNotebookAssociation handle u false w1).2 = Normal ()
     /\ exists e2, heap w2 !! controller obj = Some e2
          /\ associatedNotebooks e2 = delete (uri notebook) (associatedNotebooks e)
          /\ ((forall k, k <> uri notebook -> associatedNotebooks e !! k = None) ->
              associatedNotebooks e2 = ∅)
          /\ fired (onDidChangeSelection e2)
             = fired (onDidChangeSelection e)
               ++ [{| selected := true; sel_notebook := apiNotebook notebook |};
                   {| selected := false; sel_notebook := apiNotebook notebook |}])
  /\ (forall err value,
        getNotebookDocument _extHostNotebook u = Throws err ->
        acceptNotebookAssociation handle u value w = (w, Throws err))
  /\ (forall events,
        exists e', heap (foldl (fun w ev => (acceptNotebookAssociation handle ev.1 ev.2 w).1)
                           w events) !! controller obj = Some e'
          /\ forall k, associatedNotebooks e' !! k
                       = match last_association k events with
                         | Some true => Some true
                         | Some false => None
                         | None => associatedNotebooks e !! k
                         end)
  /\ (forall a, evolves same_associations w (api a w).1)
  /\ (forall t, (forall handle' u' value', t <> main_acceptNotebookAssociation handle' u' value') ->
                evolves same_associations w (run_task t w))
  /\ evolves same_associations w (run_microtasks w).
Proof.
  intros Hobj He. split; [|split; [|split; [|split; [|split]]]].
  - intros notebook Hdoc w1 w2.
    destruct (acceptNotebookAssociation_live handle u true w obj e notebook Hobj He Hdoc)
      as (Hr1 & Hk & e1 & He1 & Ha1 & Hf1).
    rewrite <- Hk in Hobj.
    destruct (acceptNotebookAssociation_live handle u false _ obj e1 notebook Hobj He1 Hdoc)
      as (Hr2 & _ & e2 & He2 & Ha2 & Hf2).
    split; [done|]. split; [done|]. exists e2.
    assert (Hdel : associatedNotebooks e2 = delete (uri notebook) (associatedNotebooks e)).
    { rewrite Ha2, Ha1. apply delete_insert_eq. }
    split; [done|]. split; [done|]. split.
    + intros Hother. rewrite Hdel. apply map_eq. intros k.
      rewrite lookup_empty. destruct (decide (k = uri notebook)) as [->|Hne].
      * apply lookup_delete_eq.
      * rewrite lookup_delete_ne by done. by apply Hother.
    + rewrite Hf2, Hf1. by rewrite <- app_assoc.
  - intros err value Hdoc. by eapply acceptNotebookAssociation_unknown.
  - intros events. by apply acceptNotebookAssociation_all.
  - intros a. apply evolves_api, admits_same_associations.
  - intros t Ht. apply evolves_run_task; [apply admits_same_associations|done].
  - apply evolves_run_microtasks, admits_same_associations.
Qed.

(** *** Cancelling cells *)

Lemma cancel_all_requests document handles : forall w,
  notebook_requests (foldl (cancel_one document) w handles)
  = notebook_requests w
    ++ (req_cancelOneNotebookCellExecution <$> existing_cells document handles).
Proof.
  induction handles as [|h hs IH]; intros w.
  - simpl. by rewrite app_nil_r.
  - cbn [foldl]. rewrite IH, existing_cells_cons. unfold cancel_one.
    destruct (getCell document h) as [cell|]; [|done].
    simpl. by rewrite <- app_assoc.
Qed.

(** What [$cancelCells] does.  For a handle the registry does not hold,
    nothing.  For a handle it holds, the document is looked up first: if
    the notebook layer has none for the uri, what the lookup throws leaves
    [$cancelCells], no handler is called and nothing is requested.  If it
    has one: without an interrupt handler, or with one that returns, every
    handle the document resolves gets one cancellation request, in the
    order given; with an interrupt handler that throws, the error leaves
    [$cancelCells] and no cancellation is requested. *)
Lemma cancelCells_dispatch handle u handles w :
  (_kernelData w !! handle = None -> cancelCells handle u handles w = (w, Normal ()))
  /\ (forall obj err,
        _kernelData w !! handle = Some obj ->
        getNotebookDocument _extHostNotebook u = Throws err ->
        cancelCells handle u handles w = (w, Throws err))
  /\ (forall obj e document,
        _kernelData w !! handle = Some obj ->
        heap w !! controller obj = Some e ->
        getNotebookDocument _extHostNotebook u = Normal document ->
        (get_interruptHandler e = None ->
           (cancelCells handle u handles w).2 = Normal ()
           /\ heap (cancelCells handle u handles w).1 = heap w
           /\ notebook_requests (cancelCells handle u handles w).1
              = notebook_requests w
                ++ (req_cancelOneNotebookCellExecution <$> omap (getCell document) handles))
        /\ (forall f w' r,
              get_interruptHandler e = Some f ->
              run (interrupt_handlers f (controller obj) (apiNotebook document)) w = (w', r) ->
              match r with
              | Normal _ =>
                  (cancelCells handle u handles w).2 = Normal ()
                  /\ heap (cancelCells handle u handles w).1 = heap w'
                  /\ notebook_requests (cancelCells handle u handles w).1
                     = notebook_requests w'
                       ++ (req_cancelOneNotebookCellExecution
                             <$> omap (getCell document) handles)
              | Throws err => cancelCells handle u handles w = (w', Throws err)
              end)).
Proof.
  split; [|split].
  - intros H. unfold cancelCells. by rewrite H.
  - intros obj err Hobj Hdoc. unfold cancelCells. by rewrite Hobj, Hdoc.
  - intros obj e document Hobj He Hdoc. unfold cancelCells. rewrite Hobj, Hdoc, He. simpl.
    split.
    + intros ->. simpl. split; [done|]. split; [apply cancel_all_same|].
      apply cancel_all_requests.
    + intros f w' r -> ->. destruct r as [[]|err]; [|done]. simpl.
      split; [done|]. split; [apply cancel_all_same|]. apply cancel_all_requests.
Qed.

(** *** Coalescing, in reachable states *)

(** C1.  In a reachable state, a controller [c] that is not disposed
    receives [ss], one or more calls of its metadata setters, in one
    synchronous run, its token counter staying where a JS number counts
    exactly.  Then: the setters send nothing themselves; when the microtasks
    run, the remote side sees what the pending continuations of other
    controllers send and, after that, exactly one [$updateKernel] for [c],
    with the dto as the last setter left it (so one call and nothing else
    when nothing was pending); and a continuation of [c] whose token is not
    the current one changes nothing. *)
Theorem C1_setters_coalesce_into_one_update c w e ss :
  reachable w ->
  heap w !! c = Some e ->
  isDisposed e = false ->
  ss <> [] ->
  (tokenPool e + N.of_nat (length ss) <= MAX_EXACT)%N ->
  let w' := foldl (fun w s => controller_set c s w) w ss in
  let final := foldl (fun e s => assign s e) e ss in
  data <$> heap w' !! c = Some (data final)
  /\ _proxy w' = _proxy w
  /\ _proxy (run_microtasks w')
     = _proxy (run_microtasks
                 (with_microtasks
                    (filter (fun k => k_controller k <> c) (microtasks w)) w))
       ++ [updateKernel (env_handle e) (data final)]
  /\ (microtasks w = [] ->
      _proxy (run_microtasks w') = _proxy w ++ [updateKernel (env_handle e) (data final)])
  /\ (forall k e', heap w' !! c = Some e' -> k_controller k = c ->
        myToken k <> tokenPool e' -> run_continuation w' k = w').
Proof.
  intros Hr He Hd Hss Hb. apply setters_coalesce; try done.
  intros k Hk Hc. destruct (reachable_tokens_in_order w Hr k Hk) as (e0 & He0 & Hle).
  rewrite Hc, He in He0. by injection He0 as <-.
Qed.

(** ** Further properties *)

(** *** Disposal *)

(** [dispose] a second time changes nothing; in particular no second
    [$removeKernel] is sent. *)
Theorem dispose_idempotent c w : dispose c (dispose c w) = dispose c w.
Proof.
  destruct (heap w !! c) as [e|] eqn:He.
  - destruct (isDisposed e) eqn:Hd.
    + by rewrite !(dispose_disposed c w e).
    + destruct (dispose_live c w e He Hd) as (_ & _ & _ & e' & He' & Hd' & _).
      by apply (dispose_disposed c _ e').
  - assert (Hw : dispose c w = w) by (unfold dispose; by rewrite He).
    by rewrite !Hw.
Qed.

Lemma dispose_microtasks c w : microtasks (dispose c w) = microtasks w.
Proof.
  unfold dispose. destruct (heap w !! c) as [e|]; [|done]. by destruct (isDisposed e).
Qed.

(** Disposing a controller that is not disposed sends one [$removeKernel],
    closes its two emitters and takes its handle out of the registry: each
    of the four calls of the main thread for that handle then leaves the
    state as it is and raises nothing. *)
Theorem dispose_ends_dispatch c e w :
  heap w !! c = Some e ->
  isDisposed e = false ->
  let w' := dispose c w in
  let handle := env_handle e in
  _proxy w' = _proxy w ++ [removeKernel handle]
  /\ _kernelData w' !! handle = None
  /\ (exists e', heap w' !! c = Some e'
        /\ isDisposed e' = true
        /\ disposed (onDidChangeSelection e') = true
        /\ disposed (onDidReceiveMessage e') = true)
  /\ (forall u value, acceptNotebookAssociation handle u value w' = (w', Normal ()))
  /\ (forall u handles, executeCells handle u handles w' = (w', Normal ()))
  /\ (forall u handles, cancelCells handle u handles w' = (w', Normal ()))
  /\ (forall editorId message,
        acceptKernelMessageFromRenderer handle editorId message w' = (w', Normal ())).
Proof.
  intros He Hd w' handle.
  destruct (dispose_live c w e He Hd) as (Hk & Hp & _ & e' & He' & Hd' & _ & Hs & Hm).
  assert (Hnone : _kernelData w' !! handle = None).
  { subst w'. rewrite Hk. apply lookup_delete_eq. }
  split; [done|]. split; [done|]. split; [by exists e'|].
  split; [|split; [|split]].
  - intros u v. unfold acceptNotebookAssociation. by rewrite Hnone.
  - intros u hs. unfold executeCells. by rewrite Hnone.
  - intros u hs. unfold cancelCells. by rewrite Hnone.
  - intros ed m. unfold acceptKernelMessageFromRenderer. by rewrite Hnone.
Qed.

(** *** Setters and getters *)

Lemma with_tokenPool_same e : with_tokenPool (tokenPool e) e = e.
Proof. by destruct e. Qed.

Lemma get_with_tokenPool p t e : get p (with_tokenPool t e) = get p e.
Proof. by destruct p. Qed.

(** After a setter the controller holds what the setter assigned, up to the
    token. *)
Lemma controller_set_lookup c s w e :
  heap w !! c = Some e ->
  exists t, heap (controller_set c s w) !! c = Some (with_tokenPool t (assign s e)).
Proof.
  intros He. destruct (isDisposed e) eqn:Hd.
  - destruct (controller_set_disposed c s w e He Hd) as (Hl & _).
    exists (tokenPool (assign s e)). by rewrite with_tokenPool_same.
  - destruct (controller_set_live c s w e He Hd) as (Hh & _).
    eexists. rewrite Hh. apply list_lookup_insert_eq. by eapply lookup_lt_Some.
Qed.

(** What a setter stores is what the getter of the same property returns
    afterwards, with the getter's or the setter's fallback for undefined;
    the other getters return what they returned before.  This is so whether
    or not the controller is disposed. *)
Theorem setter_then_getter c e s w :
  heap w !! c = Some e ->
  exists e', heap (controller_set c s w) !! c = Some e'
    /\ get (property_of s) e'
       = match s with
         | set_label value => r_string (default (display_name (env_extension e)) value)
         | set_detail value => r_string (default EmptyString value)
         | set_description value => r_string (default EmptyString value)
         | set_supportedLanguages value => r_strings value
         | set_hasExecutionOrder value => r_bool (default false value)
         | set_interruptHandler value => r_interruptHandler value
         end
    /\ (forall p, p <> property_of s -> get p e' = get p e)
    /\ (forall value, s = set_interruptHandler value ->
          supportsInterrupt (data e') = Some (Boolean value)).
Proof.
  intros He. destruct (controller_set_lookup c s w e He) as (t & Hl).
  eexists. split; [exact Hl|]. split; [|split].
  - rewrite get_with_tokenPool. by destruct s.
  - intros p Hp. rewrite get_with_tokenPool. destruct s, p; done.
  - by intros value ->.
Qed.

(** A setter and then [dispose], in one synchronous run that started with
    nothing pending: the continuation of the setter does not look at
    [isDisposed], so the remote side gets the [$removeKernel] first and the
    [$updateKernel] for the removed handle after it. *)
Theorem update_after_removal c e s w :
  heap w !! c = Some e ->
  isDisposed e = false ->
  microtasks w = [] ->
  _proxy (run_microtasks (dispose c (controller_set c s w)))
  = _proxy w ++ [removeKernel (env_handle e); updateKernel (env_handle e) (data (assign s e))].
Proof.
  intros He Hd Hq.
  destruct (controller_set_live c s w e He Hd) as (Hh & Hm & Hp & _).
  set (w1 := controller_set c s w) in *.
  set (e1 := with_tokenPool (js_incr (tokenPool e)) (assign s e)) in *.
  assert (He1 : heap w1 !! c = Some e1).
  { rewrite Hh. apply list_lookup_insert_eq. by eapply lookup_lt_Some. }
  assert (Hd1 : isDisposed e1 = false) by (subst e1; simpl; by rewrite assign_isDisposed).
  rewrite run_microtasks_proxy, dispose_microtasks, Hm, Hq.
  destruct (dispose_live c w1 e1 He1 Hd1) as (_ & Hp' & _).
  rewrite Hp', Hp. rewrite <- app_assoc. f_equal. simpl.
  unfold pushes. simpl. unfold dispose. rewrite He1, Hd1. simpl.
  rewrite !list_lookup_alter_eq, He1. simpl.
  rewrite decide_True by done. simpl.
  by rewrite assign_env_handle.
Qed.

(** *** Association and execution tasks *)

(** Once the main thread has associated a notebook with a registered
    controller that is not disposed, an execution task can be created for a
    cell of that notebook; once it has taken the association back, the same
    call fails with the not-associated error.  The notebook is the one the
    notebook layer has for the uri of the event; for the task, the cell's
    own notebook uri is looked up again, and if that lookup throws, its
    error is what the call throws. *)
Theorem association_enables_task handle u obj e cell target w :
  _kernelData w !! handle = Some obj ->
  heap w !! controller obj = Some e ->
  isDisposed e = false ->
  (0 <= index cell)%Z ->
  getNotebookDocument _extHostNotebook u = Normal target ->
  nb_uri (notebook cell) = uri target ->
  let associated := (acceptNotebookAssociation handle u true w).1 in
  let withdrawn := (acceptNotebookAssociation handle u false w).1 in
  (forall document cellObj,
     getNotebookDocument _extHostNotebook (nb_uri (notebook cell)) = Normal document ->
     getCellFromApiCell document cell = Some cellObj ->
     (createNotebookCellExecutionTask (controller obj) cell associated).2
     = Normal (createNotebookCellExecution _extHostNotebook cellObj))
  /\ (forall document,
        getNotebookDocument _extHostNotebook (nb_uri (notebook cell)) = Normal document ->
        getCellFromApiCell document cell = None ->
        (createNotebookCellExecutionTask (controller obj) cell associated).2
        = Throws ERR_INVALID_CELL)
  /\ (forall err,
        getNotebookDocument _extHostNotebook (nb_uri (notebook cell)) = Throws err ->
        (createNotebookCellExecutionTask (controller obj) cell associated).2 = Throws err)
  /\ (createNotebookCellExecutionTask (controller obj) cell withdrawn).2
     = Throws (ERR_NOT_ASSOCIATED (nb_uri (notebook cell))).
Proof.
  intros Hobj He Hd Hi Hdoc Hu associated withdrawn.
  assert (Hlt : (index cell <? 0)%Z = false) by (by apply Z.ltb_ge).
  assert (Hl : forall value,
    heap (acceptNotebookAssociation handle u value w).1 !! controller obj
    = Some (with_onDidChangeSelection
              (fire (onDidChangeSelection e)
                 {| selected := value; sel_notebook := apiNotebook target |})
              (with_associatedNotebooks
                 (if value
                  then <[uri target := true]> (associatedNotebooks e)
                  else delete (uri target) (associatedNotebooks e)) e))).
  { intros value. unfold acceptNotebookAssociation. rewrite Hobj, Hdoc. simpl.
    by rewrite !list_lookup_alter_eq, He. }
  assert (Hpass : forall r,
    (match getNotebookDocument _extHostNotebook (nb_uri (notebook cell)) with
     | Throws err => (associated, Throws err)
     | Normal document =>
         match getCellFromApiCell document cell with
         | None => (associated, Throws ERR_INVALID_CELL)
         | Some cellObj =>
             (notebook_request (req_createNotebookCellExecution cellObj) associated,
              Normal (createNotebookCellExecution _extHostNotebook cellObj))
         end
     end).2 = r ->
    (createNotebookCellExecutionTask (controller obj) cell associated).2 = r).
  { intros r <-. unfold createNotebookCellExecutionTask. subst associated.
    rewrite Hl, Hlt. simpl. rewrite Hd.
    rewrite bool_decide_eq_true_2; [done|]. rewrite Hu, lookup_insert_eq. by eexists. }
  split; [|split; [|split]].
  - intros document cellObj Hdoc' Hc. apply Hpass. by rewrite Hdoc', Hc.
  - intros document Hdoc' Hc. apply Hpass. by rewrite Hdoc', Hc.
  - intros err Hdoc'. apply Hpass. by rewrite Hdoc'.
  - unfold createNotebookCellExecutionTask. subst withdrawn.
    rewrite Hl, Hlt. simpl. rewrite Hd, Hu, lookup_delete_eq.
    rewrite bool_decide_eq_false_2 by (by intros [? ?]). done.
Qed.

(** *** What identifies a controller *)

Lemma admits_same_identity : admits same_identity.
Proof.
  split; unfold same_identity; try done.
  - intros e1 e2 e3 H12 H23. destruct_and!. repeat split; congruence.
  - intros s e. by destruct s.
Qed.

(** Whatever happens between two states, a controller keeps its id, its
    handle, its extension, its view type and its preloads: the getters [id],
    [viewType] and [preloads] return the same values for good. *)
Theorem identity_is_for_good w w' c e :
  reaches w w' ->
  heap w !! c = Some e ->
  exists e', heap w' !! c = Some e'
    /\ same_identity e e'
    /\ get p_id e' = get p_id e
    /\ get p_viewType e' = get p_viewType e
    /\ get p_preloads e' = get p_preloads e.
Proof.
  intros Hr He.
  assert (Hev : evolves same_identity w w').
  { apply evolves_reaches; [apply admits_same_identity|by intros m e0|done]. }
  destruct (Hev c e He) as (e' & He' & Hs). exists e'. split; [done|]. split; [done|].
  destruct Hs as (Hid & _ & _ & _ & Hv & _ & _ & Hp). simpl.
  unfold get_preloads. by rewrite Hid, Hv, Hp.
Qed.

(** *** Soundness of the reachable states *)

Lemma handle_number_S n : js_incr (handle_number n) = handle_number (S n).
Proof.
  unfold js_incr, handle_number.
  destruct (N.ltb_spec (N.min (N.of_nat n) MAX_EXACT) MAX_EXACT); lia.
Qed.

Lemma handle_number_inj c c' :
  (N.of_nat c < MAX_EXACT)%N -> handle_number c = handle_number c' -> c = c'.
Proof. unfold handle_number. lia. Qed.

Lemma announced_snoc_addKernel calls handle d :
  announced calls -> announced (calls ++ [addKernel handle d]).
Proof.
  intros Ha i call Hi Hc. destruct (decide (i < length calls)) as [Hlt|Hge].
  - rewrite lookup_app_l in Hi by done. destruct (Ha i call Hi Hc) as (j & d' & Hj & Hl).
    exists j, d'. split; [done|]. rewrite lookup_app_l by lia. done.
  - rewrite lookup_app_r in Hi by lia.
    apply list_lookup_singleton_Some in Hi as [_ <-]. done.
Qed.

Lemma announced_snoc calls call :
  announced calls ->
  (exists d, addKernel (handle_of call) d ∈ calls) ->
  announced (calls ++ [call]).
Proof.
  intros Ha (d & Hd) i call' Hi Hc. destruct (decide (i < length calls)) as [Hlt|Hge].
  - rewrite lookup_app_l in Hi by done. destruct (Ha i call' Hi Hc) as (j & d' & Hj & Hl).
    exists j, d'. split; [done|]. rewrite lookup_app_l by lia. done.
  - rewrite lookup_app_r in Hi by lia.
    apply list_lookup_singleton_Some in Hi as [Hi <-].
    apply list_elem_of_lookup in Hd as (j & Hj).
    exists j, d. pose proof (lookup_lt_Some _ _ _ Hj).
    split; [lia|]. by rewrite lookup_app_l by lia.
Qed.

Lemma removals_snoc handle calls call :
  removals handle (calls ++ [call])
  = removals handle calls
    ++ (if decide (is_removeKernel call = true /\ handle_of call = handle)
        then [call] else []).
Proof.
  unfold removals. by rewrite filter_app.
Qed.

Lemma removals_snoc_other handle calls call :
  is_removeKernel call = false ->
  removals handle (calls ++ [call]) = removals handle calls.
Proof.
  intros Hc. rewrite removals_snoc, decide_False, app_nil_r; [done|].
  intros [Hr _]. congruence.
Qed.

Lemma similar_refl e : similar e e.
Proof. by repeat split. Qed.

Lemma sound_initial : sound initial.
Proof.
  split; simpl; try (intros; by rewrite ?lookup_nil in * ).
  intros call Hc. by apply elem_of_nil in Hc.
Qed.

(** What [alter] leaves of a lookup. *)
Lemma alter_lookup_Some (f : ControllerEnv -> ControllerEnv) c (l : list ControllerEnv) c' e' :
  alter f c l !! c' = Some e' ->
  exists e, l !! c' = Some e /\ (e' = e \/ (c' = c /\ e' = f e)).
Proof.
  destruct (decide (c = c')) as [->|Hne].
  - rewrite list_lookup_alter_eq. destruct (l !! c') as [e|]; [|done].
    simpl. intros [= <-]. exists e. split; [done|]. by right.
  - rewrite list_lookup_alter_ne by done. intros He. exists e'. split; [done|]. by left.
Qed.

Lemma alter_lookup_similar f c (l : list ControllerEnv) c' e' :
  gentle f -> alter f c l !! c' = Some e' ->
  exists e, l !! c' = Some e /\ similar e e'.
Proof.
  intros Hf He'. destruct (alter_lookup_Some f c l c' e' He') as (e & He & [->|[_ ->]]).
  - exists e. split; [done|apply similar_refl].
  - exists e. split; [done|apply Hf].
Qed.

Lemma alter_lookup_forward f c (l : list ControllerEnv) c' e :
  gentle f -> l !! c' = Some e ->
  exists e', alter f c l !! c' = Some e' /\ similar e e'.
Proof.
  intros Hf He. destruct (decide (c = c')) as [->|Hne].
  - exists (f e). rewrite list_lookup_alter_eq, He. split; [done|apply Hf].
  - exists e. rewrite list_lookup_alter_ne by done. split; [done|apply similar_refl].
Qed.

(** A state that differs from a sound one by a gentle assignment to one
    controller, and by what is pending, is sound if what is pending is in
    order. *)
Lemma sound_alter c f w w' :
  heap w' = alter f c (heap w) ->
  _kernelData w' = _kernelData w ->
  _handlePool w' = _handlePool w ->
  _proxy w' = _proxy w ->
  gentle f ->
  (forall c0 e0, heap w' !! c0 = Some e0 -> (tokenPool e0 < MAX_EXACT)%N ->
     length (current_continuations c0 e0 (microtasks w')) <= 1) ->
  sound w -> sound w'.
Proof.
  intros Hh Hk Hn Hp Hf Hq Hs. split.
  - rewrite Hn, Hh, length_alter. apply Hs.
  - intros c0 e0 He0. rewrite Hh in He0.
    destruct (alter_lookup_similar f c _ c0 e0 Hf He0) as (e & He & Hsim).
    destruct Hsim as (-> & _). by eapply sound_handle.
  - intros c0 e0 He0 Hd Hb. rewrite Hh in He0.
    destruct (alter_lookup_similar f c _ c0 e0 Hf He0) as (e & He & Hsim).
    destruct Hsim as (-> & -> & Hcd & _). rewrite Hk.
    eapply sound_registered; [done|done|congruence|done].
  - intros handle d e0 Hd He0. rewrite Hk in Hd. rewrite Hh in He0.
    destruct (alter_lookup_similar f c _ _ e0 Hf He0) as (e & He & Hsim).
    destruct Hsim as (_ & _ & -> & -> & -> & _). by eapply sound_live.
  - intros c0 e0 He0 Hc. rewrite Hh in He0.
    destruct (alter_lookup_similar f c _ c0 e0 Hf He0) as (e & He & Hsim).
    destruct Hsim as (_ & _ & Hcd & -> & -> & Hmono). rewrite Hcd in Hc.
    destruct (sound_disposed w Hs c0 e He Hc) as (Hd & ? & ?). auto.
  - exact Hq.
  - rewrite Hp. apply Hs.
  - intros call Hc. rewrite Hp in Hc.
    destruct (sound_calls w Hs call Hc) as (c0 & e & He & Hhd).
    destruct (alter_lookup_forward f c _ c0 e Hf He) as (e' & He' & Hsim).
    exists c0, e'. rewrite Hh. split; [done|]. destruct Hsim as (-> & _). done.
  - intros c0 e0 He0. rewrite Hh in He0. rewrite Hp.
    destruct (alter_lookup_similar f c _ c0 e0 Hf He0) as (e & He & Hsim).
    destruct Hsim as (-> & _). by eapply sound_added.
  - intros c0 e0 He0 Hb. rewrite Hh in He0. rewrite Hp.
    destruct (alter_lookup_similar f c _ c0 e0 Hf He0) as (e & He & Hsim).
    destruct Hsim as (-> & _ & -> & _). by eapply sound_removed.
Qed.

Lemma filter_none {A} (P : A -> Prop) `{forall x, Decision (P x)} (l : list A) :
  (forall x, x ∈ l -> ~ P x) -> filter P l = [].
Proof.
  induction l as [|x l IH]; intros Hl; [done|].
  rewrite filter_cons_False by (apply Hl; by left).
  apply IH. intros y Hy. apply Hl. by right.
Qed.

Lemma current_continuations_token c e e' q :
  tokenPool e' = tokenPool e ->
  current_continuations c e' q = current_continuations c e q.
Proof. intros Ht. unfold current_continuations. by rewrite Ht. Qed.

Lemma sound_inert w w' :
  heap w' = heap w ->
  _kernelData w' = _kernelData w ->
  _handlePool w' = _handlePool w ->
  _proxy w' = _proxy w ->
  microtasks w' = microtasks w ->
  sound w -> sound w'.
Proof.
  intros Hh Hk Hn Hp Hq Hs.
  apply (sound_alter 0 (fun e => e) w w'); try done.
  - rewrite Hh. symmetry. by apply list_alter_id.
  - intros c0 e0 He0 Hb. rewrite Hq. rewrite Hh in He0. by eapply sound_pending.
Qed.

Lemma sound_update_env c f w :
  gentle f -> (forall e, tokenPool (f e) = tokenPool e) ->
  sound w -> sound (update_env c f w).
Proof.
  intros Hf Ht Hs. apply (sound_alter c f w); try done.
  intros c0 e0 He0 Hb. simpl in *.
  destruct (alter_lookup_Some f c _ c0 e0 He0) as (e & He & [->|[_ ->]]).
  - by eapply sound_pending.
  - rewrite (current_continuations_token c0 e (f e)) by apply Ht.
    rewrite Ht in Hb. by eapply sound_pending.
Qed.

(** A call on the proxy, other than [$addKernel] and [$removeKernel], with
    the handle of a controller. *)
Lemma sound_proxy_call call c e w :
  heap w !! c = Some e ->
  handle_of call = env_handle e ->
  is_addKernel call = false ->
  is_removeKernel call = false ->
  sound w -> sound (proxy_call call w).
Proof.
  intros He Hh Ha Hr Hs. split; simpl; try apply Hs.
  - apply announced_snoc; [apply Hs|]. rewrite Hh. by eapply sound_added.
  - intros call' Hc. apply elem_of_app in Hc as [Hc|Hc]; [by apply Hs|].
    apply list_elem_of_singleton in Hc as ->. by exists c, e.
  - intros c0 e0 He0. destruct (sound_added w Hs c0 e0 He0) as (d & Hd).
    exists d. apply elem_of_app. by left.
  - intros c0 e0 He0 Hb. rewrite removals_snoc_other by done. by eapply sound_removed.
Qed.

Lemma sound_queue_reset w : sound w -> sound (with_microtasks [] w).
Proof. intros Hs. split; simpl; try apply Hs. intros. unfold current_continuations. simpl. lia. Qed.

Lemma sound_run_continuation w k : sound w -> sound (run_continuation w k).
Proof.
  intros Hs. unfold run_continuation.
  destruct (heap w !! k_controller k) as [e|] eqn:He; [|done].
  destruct (decide _); [|done]. by eapply sound_proxy_call.
Qed.

Lemma sound_run_microtasks w : sound w -> sound (run_microtasks w).
Proof.
  intros Hs. unfold run_microtasks.
  assert (Hgen : forall ks w0, sound w0 -> sound (foldl run_continuation w0 ks)).
  { induction ks as [|k ks IH]; intros w0 Hw0; [done|].
    simpl. by apply IH, sound_run_continuation. }
  by apply Hgen, sound_queue_reset.
Qed.

Lemma similar_assign s : gentle (assign s).
Proof. intros e. by destruct s. Qed.

(** [_update]: the one new continuation holds the new token, which no
    earlier one holds. *)
Lemma sound__update c w : tokens_in_order w -> sound w -> sound (_update c w).
Proof.
  intros Ht Hs. unfold _update. destruct (heap w !! c) as [e|] eqn:He; [|done].
  destruct (isDisposed e) eqn:Hd; [done|].
  set (t := js_incr (tokenPool e)).
  eapply (sound_alter c (with_tokenPool t) w); try done.
  intros c0 e0 He0 Hb. simpl in *.
  unfold current_continuations. rewrite filter_app, length_app.
  destruct (decide (c = c0)) as [<-|Hne].
  - rewrite list_lookup_alter_eq, He in He0. injection He0 as <-. simpl in *.
    assert (Hold : filter (fun k => k_controller k = c /\ myToken k = t) (microtasks w) = []).
    { apply filter_none. intros k Hk [Hkc Hkt].
      destruct (Ht k Hk) as (e1 & He1 & Hle). rewrite Hkc, He in He1.
      injection He1 as <-. subst t. unfold js_incr in Hb, Hkt.
      destruct (N.ltb_spec (tokenPool e) MAX_EXACT); lia. }
    rewrite Hold. simpl. rewrite filter_cons_True by done. simpl. lia.
  - rewrite list_lookup_alter_ne in He0 by done.
    rewrite filter_cons_False by (simpl; intros [? _]; done).
    simpl. rewrite Nat.add_0_r. by eapply sound_pending.
Qed.

Lemma sound_controller_set c s w :
  tokens_in_order w -> sound w -> sound (controller_set c s w).
Proof.
  intros Ht Hs. apply sound__update.
  - eapply tokens_in_order_advances; [exact Ht|].
    apply advances_same_queue; [|done].
    apply evolves_update_env; [apply admits_token_grows|].
    intros e. apply admits_assign, admits_token_grows.
  - apply sound_update_env; [apply similar_assign| |done].
    intros e. apply assign_tokenPool.
Qed.

Lemma dispose_live_shape c w e :
  heap w !! c = Some e ->
  isDisposed e = false ->
  exists f, heap (dispose c w) = alter f c (heap w)
    /\ (forall x, env_handle (f x) = env_handle x
                  /\ env_extension (f x) = env_extension x
                  /\ tokenPool (f x) = tokenPool x
                  /\ isDisposed (f x) = true
                  /\ commandDisposables (f x) = true
                  /\ disposed (onDidChangeSelection (f x)) = true
                  /\ disposed (onDidReceiveMessage (f x)) = true)
    /\ _kernelData (dispose c w) = delete (env_handle e) (_kernelData w)
    /\ _proxy (dispose c w) = _proxy w ++ [removeKernel (env_handle e)]
    /\ _handlePool (dispose c w) = _handlePool w
    /\ microtasks (dispose c w) = microtasks w.
Proof.
  intros He Hd. unfold dispose. rewrite He, Hd. simpl.
  rewrite !list_alter_alter_eq. eexists. split; [reflexivity|]. by split.
Qed.

Lemma sound_dispose c w : well_formed w -> sound w -> sound (dispose c w).
Proof.
  intros Hw Hs. destruct (heap w !! c) as [e|] eqn:He;
    [|unfold dispose; by rewrite He].
  destruct (isDisposed e) eqn:Hd; [by rewrite (dispose_disposed c w e)|].
  destruct (dispose_live_shape c w e He Hd) as (f & Hh & Hf & Hk & Hp & Hn & Hq).
  assert (Hcd : commandDisposables e = false).
  { destruct (commandDisposables e) eqn:E; [|done].
    destruct (sound_disposed w Hs c e He E) as (Hd' & _). congruence. }
  assert (Hlook : forall c0 e0, heap (dispose c w) !! c0 = Some e0 ->
            (c0 = c /\ e0 = f e) \/ (c0 <> c /\ heap w !! c0 = Some e0)).
  { intros c0 e0. rewrite Hh. destruct (decide (c0 = c)) as [->|Hne].
    - rewrite list_lookup_alter_eq, He. simpl. intros [= <-]. by left.
    - rewrite list_lookup_alter_ne by done. by right. }
  split.
  - rewrite Hn, Hh, length_alter. apply Hs.
  - intros c0 e0 He0. destruct (Hlook c0 e0 He0) as [[-> ->]|[_ Hold]].
    + destruct (Hf e) as (-> & _). by eapply sound_handle.
    + by eapply sound_handle.
  - intros c0 e0 He0 Hd0 Hb. destruct (Hlook c0 e0 He0) as [[-> ->]|[Hne Hold]].
    + destruct (Hf e) as (_ & _ & _ & _ & Hd' & _). congruence.
    + rewrite Hk, lookup_delete_ne; [by eapply sound_registered|].
      rewrite (sound_handle w Hs c e He), (sound_handle w Hs c0 e0 Hold).
      intros Heq. symmetry in Heq. by apply handle_number_inj in Heq.
  - intros handle d e0 Hd0 He0. rewrite Hk in Hd0.
    apply lookup_delete_Some in Hd0 as [Hne Hd0].
    destruct (Hlook _ e0 He0) as [[Hc ->]|[_ Hold]]; [|by eapply sound_live].
    destruct Hw as [Hw _]. destruct (Hw handle d Hd0) as (e1 & He1 & Hh1 & _).
    rewrite Hc, He in He1. injection He1 as <-. congruence.
  - intros c0 e0 He0 Hc0. destruct (Hlook c0 e0 He0) as [[-> ->]|[_ Hold]].
    + destruct (Hf e) as (_ & _ & _ & ? & _ & ? & ?). done.
    + by eapply sound_disposed.
  - intros c0 e0 He0 Hb. rewrite Hq. destruct (Hlook c0 e0 He0) as [[-> ->]|[_ Hold]].
    + destruct (Hf e) as (_ & _ & Ht & _).
      rewrite (current_continuations_token c e (f e)) by done.
      rewrite Ht in Hb. by eapply sound_pending.
    + by eapply sound_pending.
  - rewrite Hp. apply announced_snoc; [apply Hs|]. simpl. by eapply sound_added.
  - intros call Hc. rewrite Hp in Hc.
    assert (Hfwd : forall c0 e0, heap w !! c0 = Some e0 ->
              exists e0', heap (dispose c w) !! c0 = Some e0' /\ env_handle e0' = env_handle e0).
    { intros c0 e0 He0. rewrite Hh. destruct (decide (c0 = c)) as [->|Hne].
      - exists (f e0). rewrite list_lookup_alter_eq, He0. split; [done|apply Hf].
      - exists e0. by rewrite list_lookup_alter_ne. }
    apply elem_of_app in Hc as [Hc|Hc].
    + destruct (sound_calls w Hs call Hc) as (c0 & e0 & He0 & Hh0).
      destruct (Hfwd c0 e0 He0) as (e0' & He0' & Hh0'). exists c0, e0'.
      split; [done|congruence].
    + apply list_elem_of_singleton in Hc as ->.
      destruct (Hfwd c e He) as (e' & He' & Hh'). by exists c, e'.
  - intros c0 e0 He0. rewrite Hp.
    assert (exists e1, heap w !! c0 = Some e1 /\ env_handle e0 = env_handle e1) as (e1 & He1 & ->).
    { destruct (Hlook c0 e0 He0) as [[-> ->]|[_ Hold]].
      - exists e. split; [done|apply Hf].
      - by exists e0. }
    destruct (sound_added w Hs c0 e1 He1) as (d & Hd0). exists d.
    apply elem_of_app. by left.
  - intros c0 e0 He0 Hb. rewrite Hp, removals_snoc.
    destruct (Hlook c0 e0 He0) as [[-> ->]|[Hne Hold]].
    + destruct (Hf e) as (-> & _ & _ & _ & -> & _).
      rewrite decide_True by done. rewrite length_app.
      rewrite (sound_removed w Hs c e He Hb), Hcd. done.
    + rewrite decide_False, app_nil_r; [by eapply sound_removed|].
      simpl. intros [_ Heq].
      rewrite (sound_handle w Hs c e He), (sound_handle w Hs c0 e0 Hold) in Heq.
      symmetry in Heq. by apply handle_number_inj in Heq.
Qed.

Lemma sound_createNotebookController extension id vt lbl handler pre w :
  tokens_in_order w -> sound w ->
  sound (createNotebookController extension id vt lbl handler pre w).1.
Proof.
  intros Ht Hs. unfold createNotebookController.
  destruct (existsb _ _); [done|]. simpl.
  set (h := _handlePool w). set (len := length (heap w)).
  set (e_new := new_env extension id vt lbl handler pre h len).
  assert (Hh : h = handle_number len) by apply Hs.
  assert (Hold : forall c e, heap w !! c = Some e ->
            c < len /\ env_handle e = handle_number c
            /\ ((N.of_nat c < MAX_EXACT)%N \/ (N.of_nat len < MAX_EXACT)%N ->
                env_handle e <> h)).
  { intros c e He. pose proof (lookup_lt_Some _ _ _ He) as Hlt.
    pose proof (sound_handle w Hs c e He) as Hc. repeat split; [done..|].
    rewrite Hc, Hh. intros [Hb|Hb] Heq.
    - apply handle_number_inj in Heq; [|done]. subst len. lia.
    - symmetry in Heq. apply handle_number_inj in Heq; [|done]. subst len. lia. }
  split; simpl.
  - rewrite length_app. simpl. rewrite Nat.add_1_r. fold len. fold h.
    rewrite Hh. apply handle_number_S.
  - intros c e He. apply lookup_snoc_Some in He as [[_ He]|[-> <-]]; [by apply Hold|done].
  - intros c e He Hd Hb. apply lookup_snoc_Some in He as [[_ He]|[-> <-]].
    + destruct (Hold c e He) as (_ & _ & Hne).
      rewrite lookup_insert_ne by (intros Heq; apply Hne; [by left|done]).
      by eapply sound_registered.
    + simpl. by rewrite lookup_insert_eq.
  - intros handle d e Hd He.
    apply lookup_snoc_Some in He as [[_ He]|[_ <-]]; [|done].
    apply lookup_insert_Some in Hd as [[_ <-]|[_ Hd]]; [|by eapply sound_live].
    simpl in He. fold len in He. apply lookup_lt_Some in He. lia.
  - intros c e He Hc. apply lookup_snoc_Some in He as [[_ He]|[_ <-]]; [|done].
    by eapply sound_disposed.
  - intros c e He Hb. apply lookup_snoc_Some in He as [[_ He]|[-> <-]].
    + by eapply sound_pending.
    + unfold current_continuations. rewrite filter_none; [simpl; lia|].
      intros k Hk [Hkc _]. destruct (Ht k Hk) as (e1 & He1 & _).
      rewrite Hkc in He1. apply lookup_lt_Some in He1. lia.
  - apply announced_snoc_addKernel, Hs.
  - intros call Hc. apply elem_of_app in Hc as [Hc|Hc].
    + destruct (sound_calls w Hs call Hc) as (c & e & He & Hhd).
      exists c, e. split; [by apply lookup_app_l_Some|done].
    + apply list_elem_of_singleton in Hc as ->. exists len, e_new.
      split; [apply list_lookup_middle; done|done].
  - intros c e He. apply lookup_snoc_Some in He as [[_ He]|[-> <-]].
    + destruct (sound_added w Hs c e He) as (d & Hd). exists d.
      apply elem_of_app. by left.
    + eexists. apply elem_of_app. right. apply list_elem_of_singleton. reflexivity.
  - intros c e He Hb. rewrite removals_snoc_other by done.
    apply lookup_snoc_Some in He as [[_ He]|[-> <-]]; [by eapply sound_removed|].
    simpl. unfold removals. rewrite filter_none; [done|].
    intros call Hc [_ Hhd].
    destruct (sound_calls w Hs call Hc) as (c & e & He & Heq).
    destruct (Hold c e He) as (_ & _ & Hne). apply Hne; [by right|congruence].
Qed.

Lemma sound_set_executeHandler c value w : sound w -> sound (set_executeHandler c value w).
Proof. intros Hs. by apply sound_update_env. Qed.

Lemma sound_createNotebookCellExecutionTask c cell w :
  sound w -> sound (createNotebookCellExecutionTask c cell w).1.
Proof.
  intros Hs. unfold createNotebookCellExecutionTask.
  repeat case_match; simpl; try done. by apply (sound_inert w).
Qed.

Lemma sound_postMessage c message editor w : sound w -> sound (postMessage c message editor w).
Proof.
  intros Hs. unfold postMessage. destruct (heap w !! c) as [e|] eqn:He; [|done].
  by eapply sound_proxy_call.
Qed.

Lemma sound_updateNotebookAffinity c nb priority w :
  sound w -> sound (updateNotebookAffinity c nb priority w).
Proof.
  intros Hs. unfold updateNotebookAffinity. destruct (heap w !! c) as [e|] eqn:He; [|done].
  by eapply sound_proxy_call.
Qed.

Lemma tokens_in_order_api a w : tokens_in_order w -> tokens_in_order (api a w).1.
Proof. intros Ht. eapply tokens_in_order_advances; [exact Ht|apply advances_api]. Qed.

Lemma sound_api a w :
  well_formed w -> tokens_in_order w -> sound w -> sound (api a w).1.
Proof.
  intros Hw Ht Hs. destruct a; simpl; try done.
  - pose proof (sound_createNotebookController extension id viewType0 label0 handler
                  preloads0 w Ht Hs) as H.
    by destruct (createNotebookController _ _ _ _ _ _ _).
  - by apply sound_controller_set.
  - by apply sound_set_executeHandler.
  - pose proof (sound_createNotebookCellExecutionTask c cell w Hs) as H.
    by destruct (createNotebookCellExecutionTask _ _ _).
  - by apply sound_dispose.
  - by apply sound_postMessage.
  - by apply sound_updateNotebookAffinity.
Qed.

Lemma sound_run p :
  forall w, well_formed w -> tokens_in_order w -> sound w -> sound (run p w).1.
Proof.
  induction p as [| |a k IH]; intros w Hw Ht Hs; [done..|]. simpl.
  pose proof (well_formed_api a w Hw) as Hw'.
  pose proof (tokens_in_order_api a w Ht) as Ht'.
  pose proof (sound_api a w Hw Ht Hs) as Hs'.
  destruct (api a w) as [w' r]. by apply IH.
Qed.

Lemma sound_addKernel_rejected c err w : sound w -> sound (addKernel_rejected c err w).
Proof.
  intros Hs. unfold addKernel_rejected. apply sound_update_env; [done..|].
  by apply (sound_inert w).
Qed.

Lemma sound_acceptNotebookAssociation handle u value w :
  sound w -> sound (acceptNotebookAssociation handle u value w).1.
Proof.
  intros Hs. unfold acceptNotebookAssociation.
  destruct (_kernelData w !! handle); [|done].
  destruct (getNotebookDocument _ u) as [document|]; [|done].
  apply sound_update_env; [|done|by apply sound_update_env].
  intros e. by repeat split.
Qed.

Lemma sound_call_executeHandler c cells nb w :
  well_formed w -> tokens_in_order w -> sound w ->
  sound (call_executeHandler c cells nb w).1.
Proof.
  intros Hw Ht Hs. unfold call_executeHandler.
  destruct (get_executeHandler <$> heap w !! c) as [[[owner|f]|]|]; try done.
  - destruct (heap w !! owner); [|done]. by apply (sound_inert w).
  - by apply sound_run.
Qed.

Lemma sound_executeCells handle u handles w :
  well_formed w -> tokens_in_order w -> sound w ->
  sound (executeCells handle u handles w).1.
Proof.
  intros Hw Ht Hs. unfold executeCells. destruct (_kernelData w !! handle) as [obj|]; [|done].
  destruct (getNotebookDocument _ u) as [document|]; [|done].
  pose proof (sound_call_executeHandler (controller obj)
    (apiCell <$> existing_cells document handles) (apiNotebook document) w Hw Ht Hs) as H.
  destruct (call_executeHandler _ _ _ _) as [w' [[]|err]]; [done|].
  by apply (sound_inert w').
Qed.

Lemma cancel_all_handlePool document handles : forall w,
  _handlePool (foldl (cancel_one document) w handles) = _handlePool w.
Proof.
  induction handles as [|h hs IH]; intros w; [done|].
  simpl. rewrite IH. unfold cancel_one. by destruct (getCell document h).
Qed.

Lemma sound_cancelCells handle u handles w :
  well_formed w -> tokens_in_order w -> sound w ->
  sound (cancelCells handle u handles w).1.
Proof.
  intros Hw Ht Hs. unfold cancelCells. destruct (_kernelData w !! handle) as [obj|]; [|done].
  destruct (getNotebookDocument _ u) as [document|]; [|done].
  destruct (heap w !! controller obj ≫= get_interruptHandler) as [f|].
  - pose proof (sound_run
      (interrupt_handlers f (controller obj) (apiNotebook document)) w Hw Ht Hs) as H.
    destruct (run _ _) as [w' [[]|err]]; [|done]. simpl.
    destruct (cancel_all_same document handles w') as (? & ? & ? & ? & _).
    apply (sound_inert w'); try done. apply cancel_all_handlePool.
  - simpl.
    destruct (cancel_all_same document handles w) as (? & ? & ? & ? & _).
    apply (sound_inert w); try done. apply cancel_all_handlePool.
Qed.

Lemma sound_acceptKernelMessageFromRenderer handle editorId message w :
  sound w -> sound (acceptKernelMessageFromRenderer handle editorId message w).1.
Proof.
  intros Hs. unfold acceptKernelMessageFromRenderer.
  destruct (_kernelData w !! handle); [|done].
  destruct (getEditorById _ _); [|done].
  apply sound_update_env; [|done..].
  intros x. by repeat split.
Qed.

Lemma sound_run_task t w :
  well_formed w -> tokens_in_order w -> sound w -> sound (run_task t w).
Proof.
  intros Hw Ht Hs. destruct t; simpl.
  - by apply sound_run.
  - by apply sound_addKernel_rejected.
  - by apply sound_acceptNotebookAssociation.
  - by apply sound_executeCells.
  - by apply sound_cancelCells.
  - by apply sound_acceptKernelMessageFromRenderer.
Qed.

Lemma reachable_sound w : reachable w -> sound w.
Proof.
  intros Hr. induction Hr as [|a w' Hr IH|t w' Hr IH|w' Hr IH].
  - apply sound_initial.
  - apply sound_api; [by apply reachable_well_formed|by apply reachable_tokens_in_order|done].
  - apply sound_run_task;
      [by apply reachable_well_formed|by apply reachable_tokens_in_order|done].
  - by apply sound_run_microtasks.
Qed.

(** *** What every reachable state has *)

Lemma sound_unique w c e c' e' :
  sound w -> heap w !! c = Some e -> heap w !! c' = Some e' ->
  (N.of_nat c < MAX_EXACT)%N -> env_handle e' = env_handle e -> c' = c.
Proof.
  intros Hs He He' Hb Heq.
  rewrite (sound_handle w Hs c e He), (sound_handle w Hs c' e' He') in Heq.
  symmetry in Heq. symmetry. by apply handle_number_inj.
Qed.

Lemma sound_unregistered w c e :
  well_formed w -> sound w -> heap w !! c = Some e -> (N.of_nat c < MAX_EXACT)%N ->
  commandDisposables e = true -> _kernelData w !! env_handle e = None.
Proof.
  intros [Hw _] Hs He Hb Hcd.
  destruct (_kernelData w !! env_handle e) as [d|] eqn:Hd; [|done].
  destruct (Hw _ d Hd) as (e1 & He1 & Hh1 & _).
  pose proof (sound_unique w c e _ e1 Hs He He1 Hb Hh1) as Hc.
  rewrite Hc, He in He1. injection He1 as <-.
  rewrite <- Hc in He. destruct (sound_live w Hs _ d e Hd He) as (Hcd' & _). congruence.
Qed.

(** Handles count the controllers.  In a reachable state the controller
    that was created as number [c] holds the handle [c] (2^53 from there
    on, where [_handlePool++] stops counting), the pool stands at the number
    of controllers created, and below 2^53 no other controller holds the
    same handle. *)
Theorem handles_count_controllers w c e :
  reachable w ->
  heap w !! c = Some e ->
  env_handle e = handle_number c
  /\ _handlePool w = handle_number (length (heap w))
  /\ ((N.of_nat c < MAX_EXACT)%N ->
      env_handle e = N.of_nat c
      /\ forall c' e', heap w !! c' = Some e' -> env_handle e' = env_handle e -> c' = c).
Proof.
  intros Hr He. pose proof (reachable_sound w Hr) as Hs.
  split; [by eapply sound_handle|]. split; [apply Hs|]. intros Hb. split.
  - rewrite (sound_handle w Hs c e He). unfold handle_number. lia.
  - intros c' e' He' Heq. by eapply sound_unique.
Qed.

(** The registry follows [dispose].  In a reachable state, for a controller
    created among the first 2^53: as long as the body of its [dispose] has
    not run, the registry holds it under its handle, with its extension,
    and its emitters are live, whatever [isDisposed] says; once it has run,
    the registry has nothing under the handle, [isDisposed] is set and both
    emitters are disposed. *)
Theorem registry_follows_dispose w c e :
  reachable w ->
  heap w !! c = Some e ->
  (N.of_nat c < MAX_EXACT)%N ->
  if commandDisposables e
  then _kernelData w !! env_handle e = None
       /\ isDisposed e = true
       /\ disposed (onDidChangeSelection e) = true
       /\ disposed (onDidReceiveMessage e) = true
  else _kernelData w !! env_handle e
       = Some {| kd_extensionId := identifier (env_extension e); controller := c |}
       /\ disposed (onDidChangeSelection e) = false
       /\ disposed (onDidReceiveMessage e) = false.
Proof.
  intros Hr He Hb. pose proof (reachable_sound w Hr) as Hs.
  pose proof (reachable_well_formed w Hr) as Hw.
  destruct (commandDisposables e) eqn:Hcd.
  - split; [by eapply sound_unregistered|]. by eapply sound_disposed.
  - pose proof (sound_registered w Hs c e He Hcd Hb) as Hd.
    split; [done|]. by destruct (sound_live w Hs _ _ e Hd He) as (_ & ? & ?).
Qed.

(** A controller that is not disposed is one the main thread can reach:
    in a reachable state, each of the first 2^53 controllers whose
    [isDisposed] is false is in the registry under its own handle. *)
Theorem live_controller_is_registered w c e :
  reachable w ->
  heap w !! c = Some e ->
  (N.of_nat c < MAX_EXACT)%N ->
  isDisposed e = false ->
  _kernelData w !! env_handle e
  = Some {| kd_extensionId := identifier (env_extension e); controller := c |}.
Proof.
  intros Hr He Hb Hd. pose proof (reachable_sound w Hr) as Hs.
  eapply sound_registered; [done..| |done].
  destruct (commandDisposables e) eqn:Hcd; [|done].
  destruct (sound_disposed w Hs c e He Hcd) as (Hd' & _). congruence.
Qed.

(** [$removeKernel] goes out once.  In a reachable state, for a controller
    created among the first 2^53, the calls made on the proxy hold no
    [$removeKernel] with its handle while the registry holds the
    controller, and exactly one when it does not. *)
Theorem removeKernel_is_sent_once w c e :
  reachable w ->
  heap w !! c = Some e ->
  (N.of_nat c < MAX_EXACT)%N ->
  length (removals (env_handle e) (_proxy w))
  = match _kernelData w !! env_handle e with Some _ => 0 | None => 1 end.
Proof.
  intros Hr He Hb. pose proof (reachable_sound w Hr) as Hs.
  pose proof (reachable_well_formed w Hr) as Hw.
  rewrite (sound_removed w Hs c e He Hb). destruct (commandDisposables e) eqn:Hcd.
  - by rewrite (sound_unregistered w c e Hw Hs He Hb Hcd).
  - by rewrite (sound_registered w Hs c e He Hcd Hb).
Qed.

(** The main thread hears of a kernel first through [$addKernel].  In a
    reachable state every call made on the proxy carries the handle of a
    controller this file created, and every call other than [$addKernel]
    comes after an [$addKernel] with the same handle. *)
Theorem calls_follow_addKernel w :
  reachable w ->
  forall i call, _proxy w !! i = Some call ->
    (exists c e, heap w !! c = Some e /\ env_handle e = handle_of call)
    /\ (is_addKernel call = false ->
        exists j d, j < i /\ _proxy w !! j = Some (addKernel (handle_of call) d)).
Proof.
  intros Hr i call Hi. pose proof (reachable_sound w Hr) as Hs. split.
  - eapply sound_calls; [done|]. by eapply list_elem_of_lookup_2.
  - intros Hc. by apply (sound_announced w Hs).
Qed.

Lemma updates_pushes c e h q :
  h !! c = Some e ->
  (forall c' e', h !! c' = Some e' -> env_handle e' = env_handle e -> c' = c) ->
  updates (env_handle e) (q ≫= pushes h)
  = (fun _ => updateKernel (env_handle e) (data e)) <$> current_continuations c e q.
Proof.
  intros He Hu. unfold updates, current_continuations.
  induction q as [|k q IH]; [done|].
  cbn [mbind list_bind]. rewrite filter_app. fold (mbind (M := list) (pushes h) q).
  rewrite IH. clear IH. unfold pushes at 1.
  destruct (h !! k_controller k) as [e'|] eqn:He'.
  - destruct (decide (myToken k = tokenPool e')) as [Ht|Ht].
    + destruct (decide (env_handle e' = env_handle e)) as [Hh|Hh].
      * pose proof (Hu _ e' He' Hh) as Hc. rewrite Hc, He in He'. injection He' as <-.
        rewrite filter_cons_True by done. rewrite (filter_cons_True _ k) by done. done.
      * rewrite filter_cons_False by (simpl; intros [_ ?]; done).
        rewrite (filter_cons_False _ k); [done|].
        intros [Hc _]. rewrite Hc, He in He'. by injection He' as <-.
    + rewrite (filter_cons_False _ k); [done|].
      intros [Hc Hk]. rewrite Hc, He in He'. injection He' as <-. done.
  - rewrite (filter_cons_False _ k); [done|].
    intros [Hc _]. rewrite Hc, He in He'. done.
Qed.

(** One update per controller and run of the microtasks.  In a reachable
    state, whatever calls led to it, running the pending continuations
    makes only calls of [$updateKernel]; for a controller created among the
    first 2^53 whose token counter is below 2^53, at most one of them
    carries its handle, and that one carries the dto as it stands. *)
Theorem one_update_per_run w c e :
  reachable w ->
  heap w !! c = Some e ->
  (N.of_nat c < MAX_EXACT)%N ->
  (tokenPool e < MAX_EXACT)%N ->
  exists sent,
    _proxy (run_microtasks w) = _proxy w ++ sent
    /\ (forall call, call ∈ sent -> is_updateKernel call = true)
    /\ length (updates (env_handle e) sent) <= 1
    /\ (forall call, call ∈ updates (env_handle e) sent ->
          call = updateKernel (env_handle e) (data e)).
Proof.
  intros Hr He Hb Ht. pose proof (reachable_sound w Hr) as Hs.
  exists (microtasks w ≫= pushes (heap w)). split; [apply run_microtasks_proxy|].
  split.
  { intros call Hc. apply list_elem_of_bind in Hc as (k & Hc & _).
    unfold pushes in Hc. destruct (heap w !! k_controller k); [|by apply elem_of_nil in Hc].
    destruct (decide _); [|by apply elem_of_nil in Hc].
    by apply list_elem_of_singleton in Hc as ->. }
  rewrite (updates_pushes c e) by (try done; intros c' e' He' Heq; by eapply sound_unique).
  split.
  - rewrite length_fmap. by eapply sound_pending.
  - intros call Hc. by apply list_elem_of_fmap in Hc as (k & -> & _).
Qed.

(** What a new controller reports.  A creation that succeeds adds one
    controller and nothing else to the heap, makes the one call
    [$addKernel] with the pool's handle and the new dto, and queues no
    update.  The getters of the new controller give back the id and the
    view type as passed, the preloads as they come back through the two
    converters, and the values of a dto without the optional fields; the
    dto's id is the extension's identifier, a slash and the id; no notebook
    is associated and the controller is not disposed. *)
Theorem creation_then_getters extension id vt lbl handler pre w w' c :
  createNotebookController extension id vt lbl handler pre w = (w', Normal c) ->
  exists e,
    heap w' = heap w ++ [e]
    /\ c = length (heap w)
    /\ _proxy w' = _proxy w ++ [addKernel (_handlePool w) (data e)]
    /\ microtasks w' = microtasks w
    /\ env_handle e = _handlePool w
    /\ dto_id (data e) = value (identifier extension) +:+ "/" +:+ id
    /\ get p_id e = r_string id
    /\ get p_viewType e = r_string vt
    /\ get p_detail e = r_string EmptyString
    /\ get p_description e = r_string EmptyString
    /\ get p_supportedLanguages e = r_strings None
    /\ get p_hasExecutionOrder e = r_bool false
    /\ get p_interruptHandler e = r_interruptHandler None
    /\ get p_preloads e
       = r_preloads ((fun p => NotebookKernelPreload_to (NotebookKernelPreload_from p))
                       <$> default [] pre)
    /\ associatedNotebooks e = ∅
    /\ isDisposed e = false.
Proof.
  intros H. unfold createNotebookController in H.
  destruct (existsb _ _); [done|]. injection H as <- <-.
  eexists. split; [reflexivity|]. repeat split.
  simpl. unfold get_preloads. simpl. f_equal. destruct pre as [ps|]; [|done].
  simpl. by rewrite <- list_fmap_compose.
Qed.

(** The main thread reaches live controllers only.  In a reachable state
    every record of the registry points to a controller that was created
    with the record's handle and extension, on which the body of [dispose]
    has not run and whose two emitters are not disposed: the events that
    [$acceptNotebookAssociation] and [$acceptKernelMessageFromRenderer]
    fire never go to a disposed emitter. *)
Theorem registry_records_are_live w handle obj :
  reachable w ->
  _kernelData w !! handle = Some obj ->
  exists e, heap w !! controller obj = Some e
    /\ env_handle e = handle
    /\ kd_extensionId obj = identifier (env_extension e)
    /\ commandDisposables e = false
    /\ disposed (onDidChangeSelection e) = false
    /\ disposed (onDidReceiveMessage e) = false.
Proof.
  intros Hr Hobj. pose proof (reachable_sound w Hr) as Hs.
  destruct (reachable_well_formed w Hr) as [Hw _].
  destruct (Hw handle obj Hobj) as (e & He & Hh & Hx).
  exists e. split; [done|]. split; [done|]. split; [done|]. by eapply sound_live.
Qed.

End Properties.

(** ** The statements at work

    Each statement above that has premises, applied in the concrete setting;
    and, for the statements of the specification that the code does not
    bear out, a state in which they fail. *)

#[local] Existing Instance demo.

Lemma demo_created_kernelData :
  _kernelData demo_created
  = {[ 0%N := {| kd_extensionId := identifier demo_extension; controller := 0 |} ]}.
Proof. reflexivity. Qed.

Lemma demo_created_reachable : reachable demo_created.
Proof.
  exact (reaches_api initial
           (api_createNotebookController demo_extension "python" "jupyter-notebook"
              EmptyString None None)
           initial (reaches_here initial)).
Qed.

(** Three setters in a row on the new controller: one [$updateKernel], with
    the label, the detail and the interrupt flag they set. *)
Lemma C1_three_setters_one_update :
  let ss := [set_label (Some "Python 3"); set_detail (Some "3.11");
             set_interruptHandler (Some 1%nat)] in
  let w' := foldl (fun w s => controller_set 0 s w) demo_created ss in
  _proxy (run_microtasks w')
  = _proxy demo_created
    ++ [updateKernel 0 (data (foldl (fun e s => assign s e) demo_controller ss))].
Proof.
  intros ss w'.
  refine (proj1 (proj2 (proj2 (proj2
            (C1_setters_coalesce_into_one_update 0 demo_created demo_controller ss
               demo_created_reachable _ _ _ _)))) _).
  - reflexivity.
  - reflexivity.
  - discriminate.
  - vm_compute. discriminate.
  - reflexivity.
Defined.

(** The id of the new controller is taken for its extension, free for
    another one, and free again once the controller is disposed. *)
Lemma C2_same_id_again :
  createNotebookController demo_extension "python" "jupyter-notebook" EmptyString
    None None initial
  = (demo_created, Normal 0)
  /\ createNotebookController demo_extension "python" "interactive" "Python" None None
       demo_created
     = (demo_created, Throws (ERR_ALREADY_EXIST "python"))
  /\ (createNotebookController other_extension "python" "jupyter-notebook" EmptyString
        None None demo_created).2 = Normal 1
  /\ (createNotebookController demo_extension "python" "jupyter-notebook" EmptyString
        None None (dispose 0 demo_created)).2 = Normal 1.
Proof.
  assert (Hfree : forall extension, ~ registered initial extension "python").
  { intros extension (handle & d & Hl & _). simpl in Hl. by rewrite lookup_empty in Hl. }
  destruct (C2_duplicate_controller_error initial demo_extension "python"
              "jupyter-notebook" EmptyString None None well_formed_initial)
    as (_ & _ & _ & Hnext & _).
  destruct (Hnext demo_created 0 eq_refl) as (Hsame & Hother & Hreuse).
  split; [reflexivity|]. split; [|split].
  - apply Hsame. reflexivity.
  - apply (Hother other_extension); [reflexivity|apply Hfree].
  - apply Hreuse.
Defined.

(** After a rejected registration the registry holds no record of a
    controller that is not disposed, and yet the id cannot be created again;
    [dispose] does not help. *)
Lemma C2_rejected_controller_still_blocks :
  (createNotebookController demo_extension "python" "jupyter-notebook" EmptyString
     None None demo_rejected).2 = Throws (ERR_ALREADY_EXIST "python")
  /\ ~ registered_not_disposed demo_rejected demo_extension "python"
  /\ dispose 0 demo_rejected = demo_rejected.
Proof.
  split; [reflexivity|]. split; [|reflexivity].
  intros (handle & d & e & Hl & _ & He & Hd).
  change (_kernelData demo_rejected) with (_kernelData demo_created) in Hl.
  rewrite demo_created_kernelData in Hl.
  apply lookup_singleton_Some in Hl as [_ <-].
  vm_compute in He. injection He as <-. discriminate Hd.
Qed.

(** After a rejected registration [postMessage] is not a no-op: it calls the
    proxy; and [createNotebookCellExecutionTask] throws. *)
Lemma C3_postMessage_after_rejection :
  isDisposed <$> heap demo_rejected !! 0%nat = Some true
  /\ _proxy (postMessage 0 "ping" None demo_rejected)
     = _proxy demo_rejected ++ [proxy_postMessage 0 None "ping"]
  /\ postMessage 0 "ping" None demo_rejected <> demo_rejected
  /\ (createNotebookCellExecutionTask 0
        {| index := 0; notebook := {| nb_uri := "file:///a.ipynb" |} |} demo_rejected).2
     = Throws ERR_DISPOSED.
Proof.
  split; [reflexivity|]. split; [reflexivity|]. split; [|reflexivity].
  intros Heq. apply (f_equal (fun w => length (_proxy w))) in Heq.
  vm_compute in Heq. discriminate Heq.
Qed.

(** The rejection is logged and leaves the record; afterwards a setter sends
    and queues nothing, [dispose] does nothing, [postMessage] sends. *)
Lemma C3_rejected_then_used :
  heap demo_created !! 0%nat = Some demo_controller
  /\ _kernelData demo_rejected = _kernelData demo_created
  /\ console demo_rejected = [console_log (Error "kernel already registered")]
  /\ _proxy (controller_set 0 (set_label (Some "Python 3")) demo_rejected)
     = _proxy demo_rejected
  /\ microtasks (controller_set 0 (set_label (Some "Python 3")) demo_rejected) = []
  /\ dispose 0 demo_rejected = demo_rejected
  /\ postMessage 0 "ping" None demo_rejected
     = proxy_call (proxy_postMessage 0 None "ping") demo_rejected.
Proof.
  destruct (C3_rejected_registration 0 (Error "kernel already registered") demo_created
              demo_controller eq_refl) as ((_ & Hk & _ & _ & Hc) & Hlater).
  destruct (Hlater demo_rejected (reaches_here _))
    as (e' & _ & _ & Hset & Hdispose & _ & Hpost & _).
  destruct (Hset (set_label (Some "Python 3"))) as (_ & Hp & Hm).
  split; [reflexivity|]. split; [exact Hk|]. split; [exact Hc|].
  split; [exact Hp|]. split; [exact Hm|]. split; [exact Hdispose|]. apply Hpost.
Defined.

(** The controller that [a.ipynb] selected: a task for cell 1 of that
    notebook, and the error of each precondition that fails alone; the
    disposed error on the controller whose registration was rejected. *)
Lemma C4_task_for_an_associated_cell :
  let e := with_associatedNotebooks {[ "file:///a.ipynb" := true ]}
             (with_onDidChangeSelection
                (fire new_Emitter
                   {| selected := true; sel_notebook := {| nb_uri := "file:///a.ipynb" |} |})
                demo_controller) in
  let cell n := {| index := n; notebook := {| nb_uri := "file:///a.ipynb" |} |} in
  heap demo_associated !! 0%nat = Some e
  /\ createNotebookCellExecutionTask 0 (cell 1%Z) demo_associated
     = (notebook_request
          (req_createNotebookCellExecution {| cell_handle := 1; apiCell := cell 1%Z |})
          demo_associated,
        Normal (Some {| task_cell := cell 1%Z |}))
  /\ createNotebookCellExecutionTask 0 (cell (-1)%Z) demo_associated
     = (demo_associated, Throws ERR_REMOVED)
  /\ createNotebookCellExecutionTask 0 (cell 5%Z) demo_associated
     = (demo_associated, Throws ERR_INVALID_CELL)
  /\ createNotebookCellExecutionTask 0
       {| index := 0; notebook := {| nb_uri := "file:///b.ipynb" |} |} demo_associated
     = (demo_associated, Throws (ERR_NOT_ASSOCIATED "file:///b.ipynb"))
  /\ createNotebookCellExecutionTask 0 (cell 1%Z) demo_rejected
     = (demo_rejected, Throws ERR_DISPOSED).
Proof.
  intros e cell.
  assert (He : heap demo_associated !! 0%nat = Some e) by reflexivity.
  split; [exact He|]. split; [|split; [|split; [|split]]].
  - refine (proj1 (proj2 (proj2 (proj2 (proj2
              (C4_execution_task_preconditions 0 e (cell 1%Z) demo_associated He)))))
              (demo_document "file:///a.ipynb")
              {| cell_handle := 1; apiCell := cell 1%Z |} eq_refl _ _ _ _);
      [by vm_compute | reflexivity | by eexists | reflexivity].
  - refine (proj1 (C4_execution_task_preconditions 0 e (cell (-1)%Z) demo_associated He) _).
    reflexivity.
  - refine (proj1 (proj2 (proj2 (proj2
              (C4_execution_task_preconditions 0 e (cell 5%Z) demo_associated He))))
              (demo_document "file:///a.ipynb") eq_refl _ _ _ _);
      [by vm_compute | reflexivity | by eexists | reflexivity].
  - refine (proj1 (proj2 (proj2
              (C4_execution_task_preconditions 0 e
                 {| index := 0; notebook := {| nb_uri := "file:///b.ipynb" |} |}
                 demo_associated He))) _ _ _);
      [by vm_compute | reflexivity | reflexivity].
  - refine (proj1 (proj2
              (C4_execution_task_preconditions 0 (with_isDisposed true demo_controller)
                 (cell 1%Z) demo_rejected eq_refl)) _ _);
      [by vm_compute | reflexivity].
Defined.

(** Execute handler 0 is called with the cells 0 and 1 (handle 5 resolves
    to nothing), renames the controller and throws: the error is logged, the
    new label stays, the call completes. *)
Lemma C5_throwing_handler_is_logged :
  let cells := [apiCell (demo_cell "file:///a.ipynb" 0);
                apiCell (demo_cell "file:///a.ipynb" 1)] in
  let w' := (run (execute_handlers 0 cells {| nb_uri := "file:///a.ipynb" |} 0)
               demo_with_handlers).1 in
  apiCell <$> existing_cells (demo_document "file:///a.ipynb") [0; 5; 1]%N = cells
  /\ label <$> (data <$> heap w' !! 0%nat) = Some "running"
  /\ executeCells 0 "file:///a.ipynb" [0; 5; 1]%N demo_with_handlers
     = (console_write (console_error (Error "execute failed")) w', Normal ()).
Proof.
  intros cells w'.
  split; [reflexivity|]. split; [reflexivity|].
  refine (proj1 (proj2 (proj2 (proj2 (proj2
            (proj2 (proj2 (C5_executeCells_catches_handler_errors 0 "file:///a.ipynb"
                             [0; 5; 1]%N demo_with_handlers))
               (demo_document "file:///a.ipynb") eq_refl)))) _ _ 0%nat eq_refl eq_refl
               eq_refl w' (Throws (Error "execute failed")) eq_refl)).
Defined.

(** [closed.ipynb] has no document: [$executeCells] for the registered
    handle 0 does not complete normally, it throws what the lookup throws. *)
Lemma C5_closed_notebook_raises :
  _kernelData demo_created !! 0%N
  = Some {| kd_extensionId := identifier demo_extension; controller := 0 |}
  /\ getNotebookDocument demo_notebooks "file:///closed.ipynb"
     = Throws (Error "NO notebook document for 'file:///closed.ipynb'")
  /\ executeCells 0 "file:///closed.ipynb" [0]%N demo_created
     = (demo_created, Throws (Error "NO notebook document for 'file:///closed.ipynb'"))
  /\ (executeCells 0 "file:///closed.ipynb" [0]%N demo_created).2 <> Normal ().
Proof. repeat split; try reflexivity. discriminate. Qed.

(** C6.  Controller 0 holds interrupt handler 0, which throws.  Cancelling
    the cells 0 and 1 of a notebook that has them both calls the handler and
    lets its error out; neither cell gets a cancellation request. *)
Theorem C6_throwing_interrupt_handler_skips_cancellation :
  _kernelData demo_with_handlers !! 0%N
  = Some {| kd_extensionId := identifier demo_extension; controller := 0 |}
  /\ get_interruptHandler <$> heap demo_with_handlers !! 0%nat = Some (Some 0%nat)
  /\ interrupt_handlers 0 0 {| nb_uri := "file:///a.ipynb" |}
     = Throw (Error "interrupt failed")
  /\ existing_cells (demo_document "file:///a.ipynb") [0; 1]%N
     = [demo_cell "file:///a.ipynb" 0; demo_cell "file:///a.ipynb" 1]
  /\ cancelCells 0 "file:///a.ipynb" [0; 1]%N demo_with_handlers
     = (demo_with_handlers, Throws (Error "interrupt failed"))
  /\ notebook_requests (cancelCells 0 "file:///a.ipynb" [0; 1]%N demo_with_handlers).1
     = [].
Proof. repeat split; reflexivity. Qed.

(** For the handle of a disposed controller an unknown editor raises
    nothing. *)
Lemma C7_disposed_handle_unknown_editor :
  _kernelData (dispose 0 demo_created) !! 0%N = None
  /\ getEditorById demo_notebooks "editor-9" = None
  /\ acceptKernelMessageFromRenderer 0 "editor-9" "hello" (dispose 0 demo_created)
     = (dispose 0 demo_created, Normal ()).
Proof. repeat split; reflexivity. Qed.

(** For the handle of the new controller an unknown editor raises the
    error, and a known one gets the frozen message fired. *)
Lemma C7_message_for_a_registered_controller :
  let w' := (acceptKernelMessageFromRenderer 0 "editor-1" "hello" demo_created).1 in
  acceptKernelMessageFromRenderer 0 "editor-9" "hello" demo_created
  = (demo_created, Throws (ERR_UNKNOWN_EDITOR "editor-9"))
  /\ (acceptKernelMessageFromRenderer 0 "editor-1" "hello" demo_created).2 = Normal ()
  /\ exists e', heap w' !! 0%nat = Some e'
       /\ fired (onDidReceiveMessage e')
          = fired (onDidReceiveMessage demo_controller)
            ++ [frozen {| msg_editor := {| editor_name := "editor-1" |};
                          msg_message := "hello" |}].
Proof.
  intros w'.
  set (obj := {| kd_extensionId := identifier demo_extension; controller := 0 |}).
  split.
  - exact (proj1 (proj2 (proj2 (C7_renderer_message 0 "editor-9" "hello" demo_created)
                           obj eq_refl)) eq_refl).
  - exact (proj2 (proj2 (proj2 (C7_renderer_message 0 "editor-1" "hello" demo_created)
                           obj eq_refl))
             {| apiEditor := {| editor_name := "editor-1" |} |} demo_controller
             eq_refl eq_refl).
Defined.

(** With [a.ipynb] associated, associating and dissociating [b.ipynb] does
    not leave the map empty. *)
Lemma C8_other_notebook_stays :
  let w2 := (acceptNotebookAssociation 0 "file:///b.ipynb" false
               (acceptNotebookAssociation 0 "file:///b.ipynb" true demo_associated).1).1 in
  is_Some (_kernelData demo_associated !! 0%N)
  /\ associatedNotebooks <$> heap w2 !! 0%nat = Some {[ "file:///a.ipynb" := true ]}
  /\ associatedNotebooks <$> heap w2 !! 0%nat <> Some ∅.
Proof.
  intros w2. split; [by eexists|]. split; [reflexivity|].
  intros Heq. apply (f_equal (fun o => (.!! "file:///a.ipynb") <$> o)) in Heq.
  vm_compute in Heq. discriminate Heq.
Qed.

(** On the new controller the toggle leaves the map empty and fires the two
    events. *)
Lemma C8_toggle_on_a_new_controller :
  let w2 := (acceptNotebookAssociation 0 "file:///a.ipynb" false
               (acceptNotebookAssociation 0 "file:///a.ipynb" true demo_created).1).1 in
  exists e2, heap w2 !! 0%nat = Some e2
    /\ associatedNotebooks e2 = ∅
    /\ fired (onDidChangeSelection e2)
       = [{| selected := true; sel_notebook := {| nb_uri := "file:///a.ipynb" |} |};
          {| selected := false; sel_notebook := {| nb_uri := "file:///a.ipynb" |} |}].
Proof.
  intros w2.
  destruct (C8_association_toggle 0 "file:///a.ipynb"
              {| kd_extensionId := identifier demo_extension; controller := 0 |}
              demo_controller demo_created eq_refl eq_refl) as (Htoggle & _).
  destruct (Htoggle (demo_document "file:///a.ipynb") eq_refl)
    as (_ & _ & e2 & He2 & _ & Hempty & Hfired).
  exists e2. split; [exact He2|]. split; [|exact Hfired].
  apply Hempty. intros k _. apply lookup_empty.
Defined.

(** The new controller was created with an empty label: its label is the
    identifier of the extension; assigning undefined makes it the display
    name. *)
Lemma C9_label_of_demo_created :
  get_label <$> heap demo_created !! 0%nat = Some "acme.kernels"
  /\ get_label <$> heap (controller_set 0 (set_label None) demo_created) !! 0%nat
     = Some "Acme Kernels".
Proof.
  destruct (C9_empty_label_defaults demo_extension "python" "jupyter-notebook" None None
              initial demo_created 0 eq_refl) as (Hcreated & _ & Hset).
  split; [exact Hcreated|exact Hset].
Defined.

(** ... and that label is not the display name of the extension. *)
Lemma C9_label_is_not_the_display_name :
  createNotebookController demo_extension "python" "jupyter-notebook" EmptyString
    None None initial
  = (demo_created, Normal 0)
  /\ display_name demo_extension = "Acme Kernels"
  /\ get_label <$> heap demo_created !! 0%nat = Some "acme.kernels"
  /\ get_label <$> heap demo_created !! 0%nat <> Some (display_name demo_extension).
Proof.
  repeat split; try reflexivity. intros Heq. vm_compute in Heq. discriminate Heq.
Qed.

(** The new controller was created without a handler: it holds its default
    handler, and calling that writes the warning. *)
Lemma C10_demo_created_has_a_handler :
  is_Some (get_executeHandler demo_controller)
  /\ call_executeHandler 0 [] {| nb_uri := "file:///a.ipynb" |} demo_created
     = (console_write
          (console_warn_no_execute_handler "acme.kernels/python" (identifier demo_extension))
          demo_created,
        Normal ()).
Proof.
  destruct (C10_executeHandler_always_defined demo_created demo_created_reachable)
    as (Hdef & _ & _ & _ & Hwarn).
  split.
  - exact (Hdef 0 _ eq_refl).
  - exact (Hwarn 0 _ [] {| nb_uri := "file:///a.ipynb" |} eq_refl eq_refl).
Defined.

(** *** The further statements at work *)

Lemma demo_busy_reachable : reachable demo_busy.
Proof.
  exact (reaches_task initial (extension_code demo_session) demo_created
           demo_created_reachable).
Qed.

Lemma demo_with_handlers_reaches : reaches demo_created demo_with_handlers.
Proof.
  exact (reaches_microtasks demo_created _
           (reaches_api demo_created (api_set 0 (set_interruptHandler (Some 0%nat))) _
              (reaches_api demo_created
                 (api_set_executeHandler 0 (Some (extension_function 0))) _
                 (reaches_here demo_created)))).
Qed.

(** Disposing the new controller: one [$removeKernel], and a later
    [$executeCells] for its handle does nothing. *)
Lemma dispose_of_the_new_controller :
  _proxy (dispose 0 demo_created) = _proxy demo_created ++ [removeKernel 0]
  /\ executeCells 0 "file:///a.ipynb" [0]%N (dispose 0 demo_created)
     = (dispose 0 demo_created, Normal ()).
Proof.
  destruct (dispose_ends_dispatch 0 demo_controller demo_created eq_refl eq_refl)
    as (Hp & _ & _ & _ & He & _).
  split; [exact Hp|apply He].
Defined.

(** The detail is read back as set, and the label is what it was. *)
Lemma detail_set_and_read_back :
  exists e', heap (controller_set 0 (set_detail (Some "3.11")) demo_created) !! 0%nat = Some e'
    /\ get p_detail e' = r_string "3.11"
    /\ get p_label e' = r_string "acme.kernels".
Proof.
  destruct (setter_then_getter 0 demo_controller (set_detail (Some "3.11")) demo_created
              eq_refl) as (e' & He' & Hg & Hp & _).
  exists e'. split; [exact He'|]. split; [exact Hg|].
  rewrite (Hp p_label); [reflexivity|discriminate].
Defined.

(** A label set just before [dispose] reaches the main thread after the
    removal. *)
Lemma label_update_after_removal :
  _proxy (run_microtasks
            (dispose 0 (controller_set 0 (set_label (Some "late")) demo_created)))
  = _proxy demo_created
    ++ [removeKernel 0;
        updateKernel 0 (data (assign (set_label (Some "late")) demo_controller))].
Proof.
  exact (update_after_removal 0 demo_controller (set_label (Some "late")) demo_created
           eq_refl eq_refl eq_refl).
Defined.

(** Cell 1 of [a.ipynb] gets a task once the notebook is associated with
    controller 0, and none once the association is taken back. *)
Lemma task_follows_association :
  let cell := apiCell (demo_cell "file:///a.ipynb" 1) in
  (createNotebookCellExecutionTask 0 cell
     (acceptNotebookAssociation 0 "file:///a.ipynb" true demo_created).1).2
  = Normal (Some {| task_cell := cell |})
  /\ (createNotebookCellExecutionTask 0 cell
        (acceptNotebookAssociation 0 "file:///a.ipynb" false demo_created).1).2
     = Throws (ERR_NOT_ASSOCIATED "file:///a.ipynb").
Proof.
  intros cell.
  destruct (association_enables_task 0 "file:///a.ipynb"
              {| kd_extensionId := identifier demo_extension; controller := 0 |}
              demo_controller cell (demo_document "file:///a.ipynb") demo_created
              eq_refl eq_refl eq_refl)
    as (Hok & _ & _ & Hno); [discriminate|reflexivity|reflexivity|].
  split; [|exact Hno].
  exact (Hok (demo_document "file:///a.ipynb") {| cell_handle := 1; apiCell := cell |}
           eq_refl eq_refl).
Defined.

(** Controller 0 keeps its id and its view type when it is given
    handlers. *)
Lemma identity_of_controller_0 :
  exists e', heap demo_with_handlers !! 0%nat = Some e'
    /\ get p_id e' = r_string "python"
    /\ get p_viewType e' = r_string "jupyter-notebook".
Proof.
  destruct (identity_is_for_good demo_created demo_with_handlers 0 demo_controller
              demo_with_handlers_reaches eq_refl) as (e' & He' & _ & Hi & Hv & _).
  exists e'. split; [exact He'|]. split; [exact Hi|exact Hv].
Defined.

(** The second controller holds handle 1 and the pool stands at 2. *)
Lemma handle_of_the_second_controller :
  exists e, heap demo_busy !! 1%nat = Some e
    /\ env_handle e = 1%N
    /\ _handlePool demo_busy = handle_number 2.
Proof.
  eexists. split; [reflexivity|].
  destruct (handles_count_controllers demo_busy 1 _ demo_busy_reachable eq_refl)
    as (_ & Hn & Hh).
  split; [|exact Hn]. apply Hh. reflexivity.
Defined.

(** Controller 0 is registered; the second one, disposed, is not. *)
Lemma registry_of_demo_busy :
  (exists d, _kernelData demo_busy !! 0%N = Some d /\ controller d = 0)
  /\ _kernelData demo_busy !! 1%N = None.
Proof.
  split.
  - eexists. split.
    + exact (proj1 (registry_follows_dispose demo_busy 0 _ demo_busy_reachable eq_refl
                      eq_refl)).
    + reflexivity.
  - exact (proj1 (registry_follows_dispose demo_busy 1 _ demo_busy_reachable eq_refl
                    eq_refl)).
Defined.

(** Controller 0, not disposed, is registered under handle 0. *)
Lemma controller_0_is_registered :
  _kernelData demo_busy !! 0%N
  = Some {| kd_extensionId := identifier demo_extension; controller := 0 |}.
Proof.
  exact (live_controller_is_registered demo_busy 0 _ demo_busy_reachable eq_refl
           eq_refl eq_refl).
Defined.

(** One [$removeKernel] for the disposed controller, none for the other. *)
Lemma removals_of_demo_busy :
  length (removals 1 (_proxy demo_busy)) = 1
  /\ length (removals 0 (_proxy demo_busy)) = 0.
Proof.
  split.
  - exact (removeKernel_is_sent_once demo_busy 1 _ demo_busy_reachable eq_refl eq_refl).
  - exact (removeKernel_is_sent_once demo_busy 0 _ demo_busy_reachable eq_refl eq_refl).
Defined.

(** The [$removeKernel] of the second controller, the third call made,
    comes after its [$addKernel]. *)
Lemma removal_follows_addKernel :
  exists j d, j < 2 /\ _proxy demo_busy !! j = Some (addKernel 1 d).
Proof.
  exact (proj2 (calls_follow_addKernel demo_busy demo_busy_reachable 2 (removeKernel 1)
                  eq_refl) eq_refl).
Defined.

(** Two setters are pending for controller 0: the microtasks send one
    [$updateKernel] for it. *)
Lemma one_update_for_two_setters :
  exists sent,
    _proxy (run_microtasks demo_busy) = _proxy demo_busy ++ sent
    /\ length (updates 0 sent) <= 1.
Proof.
  destruct (one_update_per_run demo_busy 0 _ demo_busy_reachable eq_refl eq_refl eq_refl)
    as (sent & Hp & _ & Hl & _).
  exists sent. split; [exact Hp|exact Hl].
Defined.

(** Cancelling the cells 0, 5 and 1 of a notebook that has the cells 0 and
    1, on a controller without interrupt handler: two requests, in order.
    Cancelling a cell of [closed.ipynb], which has no document: the error of
    the lookup, and nothing else. *)
Lemma cancellation_of_existing_cells :
  notebook_requests (cancelCells 0 "file:///a.ipynb" [0; 5; 1]%N demo_created).1
  = notebook_requests demo_created
    ++ [req_cancelOneNotebookCellExecution (demo_cell "file:///a.ipynb" 0);
        req_cancelOneNotebookCellExecution (demo_cell "file:///a.ipynb" 1)]
  /\ cancelCells 0 "file:///closed.ipynb" [0]%N demo_created
     = (demo_created, Throws (Error "NO notebook document for 'file:///closed.ipynb'")).
Proof.
  split.
  - destruct (cancelCells_dispatch 0 "file:///a.ipynb" [0; 5; 1]%N demo_created)
      as (_ & _ & H).
    destruct (H {| kd_extensionId := identifier demo_extension; controller := 0 |}
                demo_controller (demo_document "file:///a.ipynb") eq_refl eq_refl eq_refl)
      as (Hn & _).
    destruct (Hn eq_refl) as (_ & _ & Hr). exact Hr.
  - exact (proj1 (proj2 (cancelCells_dispatch 0 "file:///closed.ipynb" [0]%N demo_created))
             {| kd_extensionId := identifier demo_extension; controller := 0 |}
             (Error "NO notebook document for 'file:///closed.ipynb'") eq_refl eq_refl).
Defined.

(** The first controller, as [createNotebookController] returns it. *)
Lemma getters_of_the_new_controller :
  exists e, heap demo_created = [e]
    /\ _proxy demo_created = [addKernel 0 (data e)]
    /\ get p_id e = r_string "python"
    /\ get p_detail e = r_string EmptyString
    /\ get p_preloads e = r_preloads [].
Proof.
  destruct (creation_then_getters demo_extension "python" "jupyter-notebook" EmptyString
              None None initial demo_created 0 eq_refl)
    as (e & Hh & _ & Hp & _ & _ & _ & Hi & _ & Hd & _ & _ & _ & _ & Hl & _).
  exists e. split; [exact Hh|]. split; [exact Hp|]. split; [exact Hi|].
  split; [exact Hd|exact Hl].
Defined.

(** The record under handle 0 points to controller 0, whose emitters are
    live. *)
Lemma record_of_controller_0 :
  exists e, heap demo_busy !! 0%nat = Some e
    /\ env_handle e = 0%N
    /\ disposed (onDidChangeSelection e) = false
    /\ disposed (onDidReceiveMessage e) = false.
Proof.
  destruct (registry_records_are_live demo_busy 0
              {| kd_extensionId := identifier demo_extension; controller := 0 |}
              demo_busy_reachable eq_refl) as (e & He & Hh & _ & _ & Hs & Hm).
  exists e. split; [exact He|]. split; [exact Hh|]. split; [exact Hs|exact Hm].
Defined.
